(** * PayStation SDK: request construction, validation and response parsing

    A shallow embedding of the TypeScript sources

      - [src/config/ConfigManager.ts]
      - [src/request/RequestBuilder.ts]
      - [src/response/ResponseParser.ts]
      - [src/errors/*.ts]

    JavaScript values are modelled as the JSON values plus [undefined];
    a JS string is its sequence of UTF-16 code units; a JS number is an
    IEEE 754 value ([spec_float] of the Standard Library, which has the
    signed zeros, the infinities and NaN).  Exceptions are explicit: every
    function that can throw returns a [Result]. *)

From Stdlib Require Import List String Ascii ZArith NArith Bool Lia.
From Stdlib Require Import SpecFloat DecimalString.
Import ListNotations.

Local Open Scope N_scope.

(* ================================================================= *)
(** ** JavaScript strings *)

(** A JS string: the list of its UTF-16 code units. *)
Definition jsstring := list N.

(** An ASCII literal of the source, as a JS string. *)
Definition lit (s : string) : jsstring :=
  map N_of_ascii (list_ascii_of_string s).

Fixpoint jsstring_eqb (a b : jsstring) : bool :=
  match a, b with
  | [], [] => true
  | x :: a', y :: b' => (x =? y) && jsstring_eqb a' b'
  | _, _ => false
  end.

(** ECMAScript WhiteSpace and LineTerminator code points: what
    [String.prototype.trim] strips and what [\s] matches. *)
Definition isWhiteSpace (c : N) : bool :=
  (c =? 9) || (c =? 10) || (c =? 11) || (c =? 12) || (c =? 13) ||
  (c =? 32) || (c =? 160) || (c =? 5760) ||
  ((8192 <=? c) && (c <=? 8202)) ||
  (c =? 8232) || (c =? 8233) || (c =? 8239) || (c =? 8287) ||
  (c =? 12288) || (c =? 65279).

Fixpoint dropWhile {A} (p : A -> bool) (l : list A) : list A :=
  match l with
  | [] => []
  | x :: t => if p x then dropWhile p t else l
  end.

(** [s.trim()] *)
Definition trim (s : jsstring) : jsstring :=
  rev (dropWhile isWhiteSpace (rev (dropWhile isWhiteSpace s))).

(** Conversion to a USVString (WebIDL), applied by [URLSearchParams.append]
    and by the [URL] constructor: an unpaired surrogate becomes U+FFFD. *)
Definition isHighSurrogate (c : N) : bool := (55296 <=? c) && (c <=? 56319).
Definition isLowSurrogate (c : N) : bool := (56320 <=? c) && (c <=? 57343).

Fixpoint toUSVString (s : jsstring) : jsstring :=
  match s with
  | [] => []
  | c :: t =>
      if isHighSurrogate c then
        match t with
        | d :: t' =>
            if isLowSurrogate d then c :: d :: toUSVString t'
            else 65533 :: toUSVString t
        | [] => [65533]
        end
      else if isLowSurrogate c then 65533 :: toUSVString t
      else c :: toUSVString t
  end.

(* ================================================================= *)
(** ** Regular expressions (the fragment used by the email pattern) *)

Inductive regex :=
| REmpty                        (* matches nothing *)
| REps                          (* matches the empty string *)
| RClass (p : N -> bool)        (* one code unit satisfying [p] *)
| RCat (r1 r2 : regex)
| RAlt (r1 r2 : regex)
| RStar (r : regex).

Definition RPlus (r : regex) : regex := RCat r (RStar r).

Fixpoint nullable (r : regex) : bool :=
  match r with
  | REmpty => false
  | REps => true
  | RClass _ => false
  | RCat a b => nullable a && nullable b
  | RAlt a b => nullable a || nullable b
  | RStar _ => true
  end.

(** Brzozowski derivative of [r] by the code unit [c]. *)
Fixpoint deriv (c : N) (r : regex) : regex :=
  match r with
  | REmpty => REmpty
  | REps => REmpty
  | RClass p => if p c then REps else REmpty
  | RCat a b =>
      if nullable a then RAlt (RCat (deriv c a) b) (deriv c b)
      else RCat (deriv c a) b
  | RAlt a b => RAlt (deriv c a) (deriv c b)
  | RStar a => RCat (deriv c a) (RStar a)
  end.

(** [/^r$/.test(s)]: the whole string matches [r]. *)
Fixpoint regex_test (r : regex) (s : jsstring) : bool :=
  match s with
  | [] => nullable r
  | c :: t => regex_test (deriv c r) t
  end.

(* ================================================================= *)
(** ** JavaScript values *)

#[warnings="-register-all"]
Inductive JsVal :=
| JUndefined
| JNull
| JBool (b : bool)
| JNum (x : spec_float)
| JStr (s : jsstring)
| JArr (elems : list JsVal)
| JObj (fields : list (jsstring * JsVal)).

(** The results of [typeof] on these values. *)
Inductive JsType := TUndefined | TObject | TBoolean | TNumber | TString.

Definition typeof (v : JsVal) : JsType :=
  match v with
  | JUndefined => TUndefined
  | JNull => TObject
  | JBool _ => TBoolean
  | JNum _ => TNumber
  | JStr _ => TString
  | JArr _ => TObject
  | JObj _ => TObject
  end.

Definition JsType_eqb (a b : JsType) : bool :=
  match a, b with
  | TUndefined, TUndefined | TObject, TObject | TBoolean, TBoolean
  | TNumber, TNumber | TString, TString => true
  | _, _ => false
  end.

(** ToBoolean: the falsy values are [undefined], [null], [false], [+0],
    [-0], [NaN] and the empty string. *)
Definition truthy (v : JsVal) : bool :=
  match v with
  | JUndefined | JNull => false
  | JBool b => b
  | JNum (S754_zero _) | JNum S754_nan => false
  | JNum _ => true
  | JStr [] => false
  | JStr _ => true
  | JArr _ | JObj _ => true
  end.

(** [v !== undefined] *)
Definition isDefined (v : JsVal) : bool :=
  match v with JUndefined => false | _ => true end.

(** [v === 'literal']: strict equality with a string. *)
Definition strictEqStr (v : JsVal) (s : jsstring) : bool :=
  match v with
  | JStr t => jsstring_eqb t s
  | _ => false
  end.

Fixpoint lookup (k : jsstring) (fields : list (jsstring * JsVal)) : option JsVal :=
  match fields with
  | [] => None
  | (k', v) :: t => if jsstring_eqb k k' then Some v else lookup k t
  end.

(** Property read [v.k] for the property names the sources read (none of
    them is defined on a built-in prototype): the field of an object,
    [undefined] on every other value.  The sources read a property only
    of a value already tested truthy, so the read itself never throws. *)
Definition prop (v : JsVal) (k : string) : JsVal :=
  match v with
  | JObj fields =>
      match lookup (lit k) fields with
      | Some x => x
      | None => JUndefined
      end
  | _ => JUndefined
  end.

(** [a || b] *)
Definition jsOr (a b : JsVal) : JsVal := if truthy a then a else b.

(* ================================================================= *)
(** ** Built-ins of the host

    [Number.prototype.toString], the reading of a string as a number and
    the WHATWG [URL] parser are not code of the SDK; the development is
    parametric in them. *)

Class Host := {
  (** [x.toString()] / [String(x)] of a number *)
  Number_toString : spec_float -> jsstring;
  (** [Number(s)] of a string *)
  StringToNumber : jsstring -> spec_float;
  (** [new URL(s).protocol], [None] when the constructor throws *)
  URL_protocol : jsstring -> option jsstring
}.


(* ================================================================= *)
(** ** Errors ([src/errors]) and the exception monad *)

(** The [name] an error class sets in its constructor. *)
Inductive ErrorName :=
| PayStationErrorName
| ValidationErrorName
| AuthenticationErrorName
| NetworkErrorName.

(** An error object of the SDK: its class, the [message] kept by the
    [Error] constructor and the [statusCode] field of [PayStationError]. *)
Record SdkError := {
  err_name : ErrorName;
  err_message : jsstring;
  err_statusCode : JsVal
}.

(** What a call can throw: an error of the SDK, or the [TypeError] of the
    engine (a property read or method call on [null] or [undefined], the
    conversion of an object that has no usable [toString]). *)
Inductive Thrown :=
| Sdk (e : SdkError)
| TypeError.

Inductive Result (A : Type) :=
| Ok (a : A)
| Throw (t : Thrown).
Arguments Ok {A} a.
Arguments Throw {A} t.

Definition bind {A B} (c : Result A) (k : A -> Result B) : Result B :=
  match c with
  | Ok a => k a
  | Throw t => Throw t
  end.

Declare Scope result_scope.
Delimit Scope result_scope with result.
Notation "x <- c ;; k" := (bind c (fun x => k))
  (at level 61, c at next level, right associativity) : result_scope.
Notation "c ;; k" := (bind c (fun _ => k))
  (at level 61, right associativity) : result_scope.
Local Open Scope result_scope.

Section Values.
Context {host : Host}.

Definition comma : jsstring := lit ",".

(** [Array.prototype.join]: the elements, each printed by [elem], with
    commas between them. *)
Fixpoint joinWith (elem : JsVal -> Result jsstring) (l : list JsVal)
  : Result jsstring :=
  match l with
  | [] => Ok []
  | [e] => elem e
  | e :: t =>
      first <- elem e ;;
      rest <- joinWith elem t ;;
      Ok (first ++ comma ++ rest)
  end.

(** ToString of a value: [String(v)], template literals, the [Error]
    constructor.  A plain object prints as [[object Object]] through
    [Object.prototype.toString]; when it has an own [toString] property
    (never callable in these values) the conversion finds no method that
    gives a primitive and throws a [TypeError].  An array prints its
    elements joined by commas ([null] and [undefined] elements print as
    nothing), and throws when an element does. *)
Fixpoint ToString (v : JsVal) : Result jsstring :=
  match v with
  | JUndefined => Ok (lit "undefined")
  | JNull => Ok (lit "null")
  | JBool true => Ok (lit "true")
  | JBool false => Ok (lit "false")
  | JNum x => Ok (Number_toString x)
  | JStr s => Ok s
  | JObj fields =>
      match lookup (lit "toString") fields with
      | Some _ => Throw TypeError
      | None => Ok (lit "[object Object]")
      end
  | JArr elems =>
      joinWith (fun e =>
                  match e with
                  | JUndefined | JNull => Ok []
                  | _ => ToString e
                  end)
               elems
  end.

(** The number 1. *)
Definition one : spec_float := S754_finite false 4503599627370496 (-52).

(** ToNumber of a value, [Number(v)]: an object or array is first
    converted to a primitive, which is its string form (its [valueOf] is
    the inherited one or not callable) or a [TypeError]. *)
Definition ToNumber (v : JsVal) : Result spec_float :=
  match v with
  | JUndefined => Ok S754_nan
  | JNull => Ok (S754_zero false)
  | JBool true => Ok one
  | JBool false => Ok (S754_zero false)
  | JNum x => Ok x
  | JStr s => Ok (StringToNumber s)
  | JArr _ | JObj _ =>
      s <- ToString v ;;
      Ok (StringToNumber s)
  end.

End Values.

Section Errors.
Context {host : Host}.

(** [new Error(message)] stores [ToString(message)] unless the argument is
    [undefined]. *)
Definition errorMessage (message : JsVal) : Result jsstring :=
  match message with
  | JUndefined => Ok []
  | _ => ToString message
  end.

(** The error objects, given the message the [Error] constructor kept. *)
Definition payStationError (message : jsstring) (statusCode : JsVal) : SdkError :=
  {| err_name := PayStationErrorName;
     err_message := message;
     err_statusCode := statusCode |}.

Definition validationError (message : jsstring) : SdkError :=
  {| err_name := ValidationErrorName;
     err_message := message;
     err_statusCode := JUndefined |}.

Definition authenticationError (message : jsstring) (statusCode : JsVal) : SdkError :=
  {| err_name := AuthenticationErrorName;
     err_message := message;
     err_statusCode := statusCode |}.

(** [new PayStationError(message, statusCode)] *)
Definition PayStationError (message statusCode : JsVal) : Result SdkError :=
  kept <- errorMessage message ;;
  Ok (payStationError kept statusCode).

(** [new ValidationError(message)]: [super(message)], no status code. *)
Definition ValidationError (message : JsVal) : Result SdkError :=
  kept <- errorMessage message ;;
  Ok (validationError kept).

(** [new AuthenticationError(message, statusCode)] *)
Definition AuthenticationError (message statusCode : JsVal) : Result SdkError :=
  kept <- errorMessage message ;;
  Ok (authenticationError kept statusCode).

(** [throw new E(...)]: the constructor runs first. *)
Definition throwNew {A} (constructed : Result SdkError) : Result A :=
  e <- constructed ;;
  Throw (Sdk e).

(** [if (cond) { throw new E(...) }] *)
Definition throwIf (cond : bool) (constructed : Result SdkError) : Result unit :=
  if cond then throwNew constructed else Ok tt.

(** [v.toString()] *)
Definition callToString (v : JsVal) : Result jsstring :=
  match v with
  | JUndefined | JNull => Throw TypeError
  | _ => ToString v
  end.

(** [v.trim().length === 0] for a value already known to be a string. *)
Definition trimmedEmpty (v : JsVal) : bool :=
  match v with
  | JStr s => Nat.eqb (List.length (trim s)) 0
  | _ => false
  end.

End Errors.

(* ================================================================= *)
(** ** [src/config/ConfigManager.ts] *)

(** [enum Environment { SANDBOX = 'sandbox', LIVE = 'live' }] *)
Definition Environment_SANDBOX : jsstring := lit "sandbox".
Definition Environment_LIVE : jsstring := lit "live".

(** [Object.values(Environment)] *)
Definition Environment_values : list jsstring :=
  [Environment_SANDBOX; Environment_LIVE].

Definition BASE_URLS : JsVal :=
  JObj [ (Environment_SANDBOX, JStr (lit "https://sandbox.paystation.com.bd/api"));
         (Environment_LIVE, JStr (lit "https://api.paystation.com.bd")) ].

(** The instance state: the private [config] field. *)
Record ConfigManager := { config : JsVal }.

Section ConfigManagerCode.
Context {host : Host}.

(** [Object.values(Environment).includes(v)] *)
Definition Environment_includes (v : JsVal) : bool :=
  existsb (strictEqStr v) Environment_values.

Definition validateConfig (cfg : JsVal) : Result unit :=
  throwIf (negb (truthy cfg))
    (ValidationError (JStr (lit "Configuration is required"))) ;;
  throwIf (negb (JsType_eqb (typeof (prop cfg "merchantId")) TString))
    (ValidationError (JStr (lit "merchantId is required and must be a non-empty string"))) ;;
  throwIf (trimmedEmpty (prop cfg "merchantId"))
    (ValidationError (JStr (lit "merchantId cannot be empty or whitespace only"))) ;;
  throwIf (negb (JsType_eqb (typeof (prop cfg "password")) TString))
    (ValidationError (JStr (lit "password is required and must be a non-empty string"))) ;;
  throwIf (trimmedEmpty (prop cfg "password"))
    (ValidationError (JStr (lit "password cannot be empty or whitespace only"))) ;;
  throwIf (negb (truthy (prop cfg "environment")))
    (ValidationError (JStr (lit "environment is required"))) ;;
  throwIf (negb (Environment_includes (prop cfg "environment")))
    (given <- ToString (prop cfg "environment") ;;
     ValidationError (JStr (lit "Invalid environment: "
                              ++ given
                              ++ lit ". Must be one of: "
                              ++ lit "sandbox, live"))).

(** [{ ...config }]: a copy with the same own properties.  Only an object
    passes [validateConfig]; no accessor reads the index keys a spread
    array or string would have. *)
Definition spread (v : JsVal) : JsVal :=
  match v with
  | JObj fields => JObj fields
  | _ => JObj []
  end.

(** [new ConfigManager(config)] *)
Definition newConfigManager (cfg : JsVal) : Result ConfigManager :=
  validateConfig cfg ;;
  Ok {| config := spread cfg |}.

(** [BASE_URLS[key]]: the key of a computed property read is converted
    with ToString.  The table is read with the environment of a manager,
    which its constructor has checked to be one of the two own keys. *)
Definition index (o key : JsVal) : Result JsVal :=
  name <- ToString key ;;
  match o with
  | JObj fields =>
      match lookup name fields with
      | Some x => Ok x
      | None => Ok JUndefined
      end
  | _ => Ok JUndefined
  end.

Definition getBaseUrl (cm : ConfigManager) : Result JsVal :=
  index BASE_URLS (prop (config cm) "environment").

Definition getMerchantId (cm : ConfigManager) : JsVal :=
  prop (config cm) "merchantId".

Definition getPassword (cm : ConfigManager) : JsVal :=
  prop (config cm) "password".

Definition getEnvironment (cm : ConfigManager) : JsVal :=
  prop (config cm) "environment".

End ConfigManagerCode.

(* ================================================================= *)
(** ** [src/types/http.ts] *)

Inductive HttpMethod := GET | POST | PUT | DELETE.

(** [URLSearchParams]: the list of its entries, in insertion order. *)
Definition URLSearchParams := list (jsstring * jsstring).

Record HttpRequest := {
  url : jsstring;
  method : HttpMethod;
  headers : list (string * string);
  body : URLSearchParams
}.

Record HttpResponse := {
  status : Z;
  statusText : jsstring;
  data : JsVal
}.

(* ================================================================= *)
(** ** [src/request/RequestBuilder.ts] *)

Definition isAt (c : N) : bool := c =? 64.
Definition isDot (c : N) : bool := c =? 46.

(** The character class [[^\s@]]. *)
Definition notSpaceNorAt (c : N) : bool := negb (isWhiteSpace c || isAt c).

(** [/^[^\s@]+@[^\s@]+\.[^\s@]+$/] *)
Definition emailRegex : regex :=
  RCat (RPlus (RClass notSpaceNorAt))
    (RCat (RClass isAt)
       (RCat (RPlus (RClass notSpaceNorAt))
          (RCat (RClass isDot)
             (RPlus (RClass notSpaceNorAt))))).

(** The two headers every request carries. *)
Definition formHeaders : list (string * string) :=
  [ ("Content-Type", "application/x-www-form-urlencoded");
    ("Accept", "application/json") ]%string.

Section RequestBuilderCode.
Context {host : Host}.

(** [formData.append(name, value)]: the value is converted to a string,
    then to a USVString. *)
Definition append (formData : URLSearchParams) (name : string) (value : JsVal)
  : Result URLSearchParams :=
  text <- ToString value ;;
  Ok (formData ++ [(lit name, toUSVString text)]).

Definition validateRequiredString (value : JsVal) (fieldName : string)
  : Result unit :=
  throwIf (negb (JsType_eqb (typeof value) TString))
    (ValidationError (JStr (lit fieldName ++ lit " is required and must be a string"))) ;;
  throwIf (trimmedEmpty value)
    (ValidationError (JStr (lit fieldName ++ lit " cannot be empty or whitespace only"))).

(** [emailRegex.test(email)]: the argument is converted to a string. *)
Definition isValidEmail (email : JsVal) : Result bool :=
  text <- ToString email ;;
  Ok (regex_test emailRegex text).

(** [new URL(url)] inside [try], then the test of the protocol; the
    [catch] answers [false]. *)
Definition isValidUrl (u : JsVal) : bool :=
  match ToString u with
  | Ok text =>
      match URL_protocol (toUSVString text) with
      | Some protocol =>
          jsstring_eqb protocol (lit "http:") || jsstring_eqb protocol (lit "https:")
      | None => false
      end
  | Throw _ => false
  end.

(** [v <= 0] and [v < 0] for a value already known to be a number. *)
Definition leZero (v : JsVal) : bool :=
  match v with
  | JNum x => SFleb x (S754_zero false)
  | _ => false
  end.

Definition ltZero (v : JsVal) : bool :=
  match v with
  | JNum x => SFltb x (S754_zero false)
  | _ => false
  end.

(** [if (!test) { throw new E(...) }] for a test that can itself throw. *)
Definition throwUnless (test : Result bool) (constructed : Result SdkError)
  : Result unit :=
  passed <- test ;;
  throwIf (negb passed) constructed.

Definition validateInitiatePaymentParams (params : JsVal) : Result unit :=
  throwIf (negb (truthy params))
    (ValidationError (JStr (lit "Payment parameters are required"))) ;;
  validateRequiredString (prop params "invoiceNumber") "invoiceNumber" ;;
  validateRequiredString (prop params "customerName") "customerName" ;;
  validateRequiredString (prop params "customerPhone") "customerPhone" ;;
  validateRequiredString (prop params "customerEmail") "customerEmail" ;;
  validateRequiredString (prop params "callbackUrl") "callbackUrl" ;;
  throwIf (negb (JsType_eqb (typeof (prop params "paymentAmount")) TNumber))
    (ValidationError (JStr (lit "paymentAmount must be a number"))) ;;
  throwIf (leZero (prop params "paymentAmount"))
    (ValidationError (JStr (lit "paymentAmount must be greater than 0"))) ;;
  (if isDefined (prop params "payWithCharge") then
     throwIf (negb (JsType_eqb (typeof (prop params "payWithCharge")) TNumber))
       (ValidationError (JStr (lit "payWithCharge must be a number"))) ;;
     throwIf (ltZero (prop params "payWithCharge"))
       (ValidationError (JStr (lit "payWithCharge cannot be negative")))
   else Ok tt) ;;
  (if isDefined (prop params "emi") then
     throwIf (negb (JsType_eqb (typeof (prop params "emi")) TNumber))
       (ValidationError (JStr (lit "emi must be a number"))) ;;
     throwIf (ltZero (prop params "emi"))
       (ValidationError (JStr (lit "emi cannot be negative")))
   else Ok tt) ;;
  throwUnless (isValidEmail (prop params "customerEmail"))
    (ValidationError (JStr (lit "customerEmail must be a valid email address"))) ;;
  throwIf (negb (isValidUrl (prop params "callbackUrl")))
    (ValidationError (JStr (lit "callbackUrl must be a valid URL"))).

Definition validateInvoiceNumber (invoiceNumber : JsVal) : Result unit :=
  validateRequiredString invoiceNumber "invoiceNumber".

Definition validateTransactionId (transactionId : JsVal) : Result unit :=
  validateRequiredString transactionId "transactionId".

(** [if (cond) { formData.append(name, value) }] *)
Definition appendIf (cond : bool) (formData : URLSearchParams) (name : string)
           (value : JsVal) : Result URLSearchParams :=
  if cond then append formData name value else Ok formData.

Definition buildInitiatePaymentRequest (cm : ConfigManager) (params : JsVal)
  : Result HttpRequest :=
  validateInitiatePaymentParams params ;;
  baseUrl <- getBaseUrl cm ;;
  base <- ToString baseUrl ;;
  let url := base ++ lit "/initiate-payment" in
  let formData : URLSearchParams := [] in
  formData <- append formData "merchant_id" (getMerchantId cm) ;;
  formData <- append formData "password" (getPassword cm) ;;
  formData <- append formData "invoice_number" (prop params "invoiceNumber") ;;
  amount <- callToString (prop params "paymentAmount") ;;
  formData <- append formData "payment_amount" (JStr amount) ;;
  formData <- append formData "customer_name" (prop params "customerName") ;;
  formData <- append formData "customer_phone" (prop params "customerPhone") ;;
  formData <- append formData "customer_email" (prop params "customerEmail") ;;
  formData <- append formData "callback_url" (prop params "callbackUrl") ;;
  formData <- appendIf (truthy (prop params "currency"))
                formData "currency" (prop params "currency") ;;
  formData <-
    (if isDefined (prop params "payWithCharge") then
       charge <- callToString (prop params "payWithCharge") ;;
       append formData "pay_with_charge" (JStr charge)
     else Ok formData) ;;
  formData <- appendIf (truthy (prop params "reference"))
                formData "reference" (prop params "reference") ;;
  formData <- appendIf (truthy (prop params "customerAddress"))
                formData "customer_address" (prop params "customerAddress") ;;
  formData <- appendIf (truthy (prop params "checkoutItems"))
                formData "checkout_items" (prop params "checkoutItems") ;;
  formData <- appendIf (truthy (prop params "optA"))
                formData "opt_a" (prop params "optA") ;;
  formData <- appendIf (truthy (prop params "optB"))
                formData "opt_b" (prop params "optB") ;;
  formData <- appendIf (truthy (prop params "optC"))
                formData "opt_c" (prop params "optC") ;;
  formData <-
    (if isDefined (prop params "emi") then
       emi <- callToString (prop params "emi") ;;
       append formData "emi" (JStr emi)
     else Ok formData) ;;
  Ok {| url := url; method := POST; headers := formHeaders; body := formData |}.

Definition buildTransactionStatusRequest (cm : ConfigManager) (invoiceNumber : JsVal)
  : Result HttpRequest :=
  validateInvoiceNumber invoiceNumber ;;
  baseUrl <- getBaseUrl cm ;;
  base <- ToString baseUrl ;;
  let url := base ++ lit "/transaction-status" in
  let formData : URLSearchParams := [] in
  formData <- append formData "merchant_id" (getMerchantId cm) ;;
  formData <- append formData "password" (getPassword cm) ;;
  formData <- append formData "invoice_number" invoiceNumber ;;
  Ok {| url := url; method := POST; headers := formHeaders; body := formData |}.

Definition buildTransactionStatusByIdRequest (cm : ConfigManager) (transactionId : JsVal)
  : Result HttpRequest :=
  validateTransactionId transactionId ;;
  baseUrl <- getBaseUrl cm ;;
  base <- ToString baseUrl ;;
  let url := base ++ lit "/v2/transaction-status" in
  let formData : URLSearchParams := [] in
  formData <- append formData "merchant_id" (getMerchantId cm) ;;
  formData <- append formData "password" (getPassword cm) ;;
  formData <- append formData "trx_id" transactionId ;;
  Ok {| url := url; method := POST; headers := formHeaders; body := formData |}.

End RequestBuilderCode.

(* ================================================================= *)
(** ** [src/types/responses.ts] *)

Record InitiatePaymentResponse := {
  ipr_statusCode : jsstring;
  ipr_status : JsVal;
  ipr_message : jsstring;
  ipr_paymentAmount : option jsstring;
  ipr_invoiceNumber : option jsstring;
  ipr_paymentUrl : option jsstring
}.

Record TransactionData := {
  td_invoiceNumber : jsstring;
  td_transactionStatus : JsVal;
  td_transactionId : jsstring;
  td_paymentAmount : jsstring;
  td_orderDateTime : jsstring;
  td_payerMobileNumber : option jsstring;
  td_paymentMethod : option JsVal;
  td_reference : option jsstring;
  td_checkoutItems : option jsstring;
  td_transactionAmount : option spec_float;
  td_transactionDate : option jsstring;
  td_requestAmount : option jsstring
}.

Record TransactionStatusResponse := {
  tsr_statusCode : jsstring;
  tsr_status : JsVal;
  tsr_message : jsstring;
  tsr_data : option TransactionData
}.

(* ================================================================= *)
(** ** [src/response/ResponseParser.ts] *)

(** [String(n)] of an HTTP status (an integer): its decimal digits. *)
Definition statusToString (n : Z) : jsstring :=
  lit (NilZero.string_of_int (Z.to_int n)).

Definition missingRequiredFields : jsstring :=
  lit "Invalid response format: missing required fields (statusCode, status, message)".

Section ResponseParserCode.
Context {host : Host}.

(** An optional field of a result: set, to the converted value, only when
    the source value is not [undefined]. *)
Definition whenDefined {A} (v : JsVal) (f : JsVal -> Result A) : Result (option A) :=
  if isDefined v then
    converted <- f v ;;
    Ok (Some converted)
  else Ok None.

(** A response argument is [None] when the caller passed [null] or
    [undefined]. *)
Definition validateResponseStructure (response : option HttpResponse)
  : Result unit :=
  match response with
  | None =>
      throwNew (ValidationError (JStr (lit "Response is null or undefined")))
  | Some r =>
      throwIf (match data r with JNull | JUndefined => true | _ => false end)
        (ValidationError (JStr (lit "Response data is null or undefined"))) ;;
      throwIf (negb (JsType_eqb (typeof (data r)) TObject))
        (ValidationError (JStr (lit "Response data is not an object")))
  end.

(** [response.data] *)
Definition dataOf (response : option HttpResponse) : Result JsVal :=
  match response with
  | None => Throw TypeError
  | Some r => Ok (data r)
  end.

Definition parseInitiatePaymentResponse (response : option HttpResponse)
  : Result InitiatePaymentResponse :=
  validateResponseStructure response ;;
  data <- dataOf response ;;
  throwIf (negb (truthy (prop data "statusCode"))
           || negb (truthy (prop data "status"))
           || negb (truthy (prop data "message")))
    (ValidationError (JStr missingRequiredFields)) ;;
  throwIf (strictEqStr (prop data "status") (lit "failed"))
    (PayStationError (prop data "message") (prop data "statusCode")) ;;
  statusCode <- ToString (prop data "statusCode") ;;
  message <- ToString (prop data "message") ;;
  paymentAmount <- whenDefined (prop data "paymentAmount") ToString ;;
  invoiceNumber <- whenDefined (prop data "invoiceNumber") ToString ;;
  paymentUrl <- whenDefined (prop data "paymentUrl") ToString ;;
  Ok {| ipr_statusCode := statusCode;
        ipr_status := prop data "status";
        ipr_message := message;
        ipr_paymentAmount := paymentAmount;
        ipr_invoiceNumber := invoiceNumber;
        ipr_paymentUrl := paymentUrl |}.

Definition parseTransactionData (data : JsVal) : Result TransactionData :=
  throwIf (negb (truthy data) || negb (JsType_eqb (typeof data) TObject))
    (ValidationError (JStr (lit "Invalid transaction data format"))) ;;
  throwIf (negb (truthy (prop data "invoiceNumber"))
           || negb (truthy (prop data "transactionStatus"))
           || negb (truthy (prop data "transactionId")))
    (ValidationError (JStr (lit "Invalid transaction data: missing required fields"))) ;;
  invoiceNumber <- ToString (prop data "invoiceNumber") ;;
  transactionId <- ToString (prop data "transactionId") ;;
  paymentAmount <- ToString (jsOr (prop data "paymentAmount") (JStr [])) ;;
  orderDateTime <- ToString (jsOr (prop data "orderDateTime") (JStr [])) ;;
  payerMobileNumber <- whenDefined (prop data "payerMobileNumber") ToString ;;
  paymentMethod <- whenDefined (prop data "paymentMethod") (fun v => Ok v) ;;
  reference <- whenDefined (prop data "reference") ToString ;;
  checkoutItems <- whenDefined (prop data "checkoutItems") ToString ;;
  transactionAmount <- whenDefined (prop data "transactionAmount") ToNumber ;;
  transactionDate <- whenDefined (prop data "transactionDate") ToString ;;
  requestAmount <- whenDefined (prop data "requestAmount") ToString ;;
  Ok {| td_invoiceNumber := invoiceNumber;
        td_transactionStatus := prop data "transactionStatus";
        td_transactionId := transactionId;
        td_paymentAmount := paymentAmount;
        td_orderDateTime := orderDateTime;
        td_payerMobileNumber := payerMobileNumber;
        td_paymentMethod := paymentMethod;
        td_reference := reference;
        td_checkoutItems := checkoutItems;
        td_transactionAmount := transactionAmount;
        td_transactionDate := transactionDate;
        td_requestAmount := requestAmount |}.

Definition parseTransactionStatusResponse (response : option HttpResponse)
  : Result TransactionStatusResponse :=
  validateResponseStructure response ;;
  data <- dataOf response ;;
  throwIf (negb (truthy (prop data "statusCode"))
           || negb (truthy (prop data "status"))
           || negb (truthy (prop data "message")))
    (ValidationError (JStr missingRequiredFields)) ;;
  throwIf (strictEqStr (prop data "status") (lit "failed"))
    (PayStationError (prop data "message") (prop data "statusCode")) ;;
  statusCode <- ToString (prop data "statusCode") ;;
  message <- ToString (prop data "message") ;;
  transaction <-
    (if truthy (prop data "data") then
       parsed <- parseTransactionData (prop data "data") ;;
       Ok (Some parsed)
     else Ok None) ;;
  Ok {| tsr_statusCode := statusCode;
        tsr_status := prop data "status";
        tsr_message := message;
        tsr_data := transaction |}.

(** Returns a string or [null]: the [catch] answers [null] when the
    conversion of the message throws. *)
Definition extractErrorMessage (response : HttpResponse) : JsVal :=
  let data := data response in
  if truthy data && JsType_eqb (typeof data) TObject && truthy (prop data "message")
  then
    match ToString (prop data "message") with
    | Ok text => JStr text
    | Throw _ => JNull
    end
  else JNull.

(** The return type is [never]: every call throws. *)
Definition parseErrorResponse (response : option HttpResponse) : Result Empty_set :=
  match response with
  | None => Throw TypeError
  | Some r =>
      if (status r =? 401)%Z || (status r =? 403)%Z then
        let message := jsOr (extractErrorMessage r) (JStr (lit "Authentication failed")) in
        throwNew (AuthenticationError message (JStr (statusToString (status r))))
      else if (status r =? 400)%Z then
        let message := jsOr (extractErrorMessage r) (JStr (lit "Invalid request parameters")) in
        throwNew (ValidationError message)
      else
        let message :=
          jsOr (extractErrorMessage r)
               (JStr (lit "HTTP " ++ statusToString (status r) ++ lit ": " ++ statusText r)) in
        throwNew (PayStationError message (JStr (statusToString (status r))))
  end.

End ResponseParserCode.

(* ================================================================= *)
(** ** A host and inputs for the examples *)

(** Numbers that are integers print in decimal, the others by name; this
    covers the numbers of the examples.  No example reads a number from a
    string.  A URL is recognised by its scheme prefix. *)
Definition exampleNumberToString (x : spec_float) : jsstring :=
  match x with
  | S754_zero _ => lit "0"
  | S754_nan => lit "NaN"
  | S754_infinity false => lit "Infinity"
  | S754_infinity true => lit "-Infinity"
  | S754_finite s m e =>
      (if s then lit "-" else []) ++
      lit (NilZero.string_of_int (Z.to_int (Z.pos m * 2 ^ e)))
  end.

Fixpoint startsWith (p s : jsstring) : bool :=
  match p, s with
  | [], _ => true
  | a :: p', b :: s' => (a =? b) && startsWith p' s'
  | _ :: _, [] => false
  end.

Definition exampleUrlProtocol (s : jsstring) : option jsstring :=
  if startsWith (lit "https://") s then Some (lit "https:")
  else if startsWith (lit "http://") s then Some (lit "http:")
  else if startsWith (lit "ftp://") s then Some (lit "ftp:")
  else None.

Definition exampleHost : Host :=
  {| Number_toString := exampleNumberToString;
     StringToNumber := fun _ => S754_nan;
     URL_protocol := exampleUrlProtocol |}.

(** The number [n] for a positive integer [n]. *)
Definition num (n : positive) : JsVal := JNum (S754_finite false n 0).

Definition obj (fields : list (string * JsVal)) : JsVal :=
  JObj (map (fun kv => (lit (fst kv), snd kv)) fields).

Definition str (s : string) : JsVal := JStr (lit s).

Definition exampleConfig : JsVal :=
  obj [ ("merchantId", str "test-merchant");
        ("password", str "test-password");
        ("environment", str "sandbox") ]%string.

Definition exampleManager : ConfigManager := {| config := exampleConfig |}.

(** The required fields of the README's example, with a given amount. *)
Definition exampleParams (amount : JsVal) (optional : list (string * JsVal)) : JsVal :=
  obj ([ ("invoiceNumber", str "INV-001");
         ("paymentAmount", amount);
         ("customerName", str "John Doe");
         ("customerPhone", str "+8801234567890");
         ("customerEmail", str "john@example.com");
         ("callbackUrl", str "https://yoursite.com/callback") ]%string ++ optional).

(** The fields of [exampleParams] other than the amount. *)
Definition exampleOthers : list (jsstring * JsVal) :=
  [ (lit "invoiceNumber", str "INV-001");
    (lit "customerName", str "John Doe");
    (lit "customerPhone", str "+8801234567890");
    (lit "customerEmail", str "john@example.com");
    (lit "callbackUrl", str "https://yoursite.com/callback") ].

(** [{statusCode: '1001', status: 'failed', message: 'Invalid merchant'}] *)
Definition failedBody : JsVal :=
  obj [ ("statusCode", str "1001"); ("status", str "failed");
        ("message", str "Invalid merchant") ]%string.

(** [{statusCode: 0, status: 'success', message: ''}]: every required
    field present, two of them falsy. *)
Definition falsyFieldsBody : JsVal :=
  obj [ ("statusCode", JNum (S754_zero false)); ("status", str "success");
        ("message", JStr []) ]%string.

(** [{statusCode: '200', status: 'success', message: 'ok'}]: no [data]. *)
Definition noDataBody : JsVal :=
  obj [ ("statusCode", str "200"); ("status", str "success");
        ("message", str "ok") ]%string.

(** A transaction-status body whose nested object lacks [transactionId]. *)
Definition noTransactionIdBody : JsVal :=
  obj [ ("statusCode", str "200"); ("status", str "success");
        ("message", str "ok");
        ("data", obj [ ("invoiceNumber", str "INV-001");
                       ("transactionStatus", str "success") ]) ]%string.

(** [{statusCode: '200', status: 'pending', message: 'ok'}] *)
Definition pendingBody : JsVal :=
  obj [ ("statusCode", str "200"); ("status", str "pending");
        ("message", str "ok") ]%string.


(** HTTP 401 with the body [{message: 'bad creds'}]. *)
Definition badCredentials : HttpResponse :=
  {| status := 401; statusText := lit "Unauthorized";
     data := obj [ ("message", str "bad creds") ]%string |}.

(** HTTP 401 with the body [{message: ''}]. *)
Definition emptyMessage : HttpResponse :=
  {| status := 401; statusText := lit "Unauthorized";
     data := obj [ ("message", JStr []) ]%string |}.

(* ================================================================= *)
(** ** The body keys of an initiate-payment request, as specified *)

(** The keys every initiate-payment body has, in wire order. *)
Definition requiredKeys : list jsstring :=
  map lit [ "merchant_id"; "password"; "invoice_number"; "payment_amount";
            "customer_name"; "customer_phone"; "customer_email";
            "callback_url" ]%string.

(** An optional field: its camelCase name in the parameters, its
    snake_case key in the body, and whether it is numeric. *)
Record OptionalField := {
  of_field : string;
  of_key : string;
  of_numeric : bool
}.

Definition optionalFields : list OptionalField :=
  [ {| of_field := "currency"; of_key := "currency"; of_numeric := false |};
    {| of_field := "payWithCharge"; of_key := "pay_with_charge"; of_numeric := true |};
    {| of_field := "reference"; of_key := "reference"; of_numeric := false |};
    {| of_field := "customerAddress"; of_key := "customer_address"; of_numeric := false |};
    {| of_field := "checkoutItems"; of_key := "checkout_items"; of_numeric := false |};
    {| of_field := "optA"; of_key := "opt_a"; of_numeric := false |};
    {| of_field := "optB"; of_key := "opt_b"; of_numeric := false |};
    {| of_field := "optC"; of_key := "opt_c"; of_numeric := false |};
    {| of_field := "emi"; of_key := "emi"; of_numeric := true |} ]%string.

(** An optional field is present when the parameters give it a value. *)
Definition present (params : JsVal) (f : OptionalField) : bool :=
  isDefined (prop params (of_field f)).

(** The key set the specification states: the required keys and the key
    of every optional field present. *)
Definition specifiedKeys (params : JsVal) : list jsstring :=
  requiredKeys ++ map (fun f => lit (of_key f)) (filter (present params) optionalFields).

(** What decides that the builder sends an optional field: a numeric one
    is sent when it is not [undefined], any other when it is truthy (so
    not when it is the empty string). *)
Definition sent (params : JsVal) (f : OptionalField) : bool :=
  if of_numeric f then isDefined (prop params (of_field f))
  else truthy (prop params (of_field f)).

Definition sentKeys (params : JsVal) : list jsstring :=
  requiredKeys ++ map (fun f => lit (of_key f)) (filter (sent params) optionalFields).

(** The parameters whose [paymentAmount] is the number [x] and whose other
    fields are those of [others]. *)
Definition withAmount (x : spec_float) (others : list (jsstring * JsVal)) : JsVal :=
  JObj ((lit "paymentAmount", JNum x) :: others).

Section Convertible.
Context {host : Host}.

(** A value that [String(v)] converts, without throwing. *)
Definition canString (v : JsVal) : bool :=
  match ToString v with
  | Ok _ => true
  | Throw _ => false
  end.

(** A value that [Number(v)] converts, without throwing. *)
Definition canNumber (v : JsVal) : bool :=
  match ToNumber v with
  | Ok _ => true
  | Throw _ => false
  end.

(** An optional value: absent, or convertible to a string. *)
Definition canStringIfDefined (v : JsVal) : bool :=
  negb (isDefined v) || canString v.

(** Every optional field the builder sends converts to a string (as a
    field of its declared type, a string or a number, does). *)
Definition optionalsConvertible (params : JsVal) : bool :=
  forallb (fun f => negb (sent params f) || canString (prop params (of_field f)))
          optionalFields.

End Convertible.

(* ================================================================= *)
(** ** Response bodies and configurations, as specified *)

(** A non-null value whose [typeof] is ['object']. *)
Definition isObject (v : JsVal) : bool :=
  match v with
  | JObj _ | JArr _ => true
  | _ => false
  end.

(** The three fields both parsers require. *)
Definition requiredFieldsTruthy (body : JsVal) : bool :=
  truthy (prop body "statusCode") && truthy (prop body "status")
  && truthy (prop body "message").

(** A nested transaction object that [parseTransactionData] accepts. *)
Definition transactionFieldsTruthy (d : JsVal) : bool :=
  truthy (prop d "invoiceNumber") && truthy (prop d "transactionStatus")
  && truthy (prop d "transactionId").

Definition response (httpStatus : Z) (text : jsstring) (body : JsVal) : option HttpResponse :=
  Some {| status := httpStatus; statusText := text; data := body |}.

Section Specified.
Context {host : Host}.

(** The fields the parsers convert, for a body they give a result for. *)
Definition requiredFieldsConvertible (body : JsVal) : bool :=
  canString (prop body "statusCode") && canString (prop body "message").

Definition initiateFieldsConvertible (body : JsVal) : bool :=
  requiredFieldsConvertible body
  && canStringIfDefined (prop body "paymentAmount")
  && canStringIfDefined (prop body "invoiceNumber")
  && canStringIfDefined (prop body "paymentUrl").

Definition transactionFieldsConvertible (d : JsVal) : bool :=
  canString (prop d "invoiceNumber")
  && canString (prop d "transactionId")
  && canString (jsOr (prop d "paymentAmount") (JStr []))
  && canString (jsOr (prop d "orderDateTime") (JStr []))
  && canStringIfDefined (prop d "payerMobileNumber")
  && canStringIfDefined (prop d "reference")
  && canStringIfDefined (prop d "checkoutItems")
  && (negb (isDefined (prop d "transactionAmount"))
      || canNumber (prop d "transactionAmount"))
  && canStringIfDefined (prop d "transactionDate")
  && canStringIfDefined (prop d "requestAmount").

Definition statusFieldsConvertible (body : JsVal) : bool :=
  requiredFieldsConvertible body
  && transactionFieldsConvertible (prop body "data").

(** The message [parseErrorResponse] takes from a body: the [message] of a
    non-null object, when it is truthy, converts to a string, and that
    string is not empty. *)
Definition usableMessage (body : JsVal) : option jsstring :=
  if isObject body && truthy (prop body "message") then
    match ToString (prop body "message") with
    | Ok (c :: s) => Some (c :: s)
    | _ => None
    end
  else None.

Definition messageOr (body : JsVal) (default : jsstring) : jsstring :=
  match usableMessage body with
  | Some s => s
  | None => default
  end.

(** The message as the specification states it: the string form of the
    [message] field when the body is an object that has one. *)
Definition statedMessageOr (body : JsVal) (default : jsstring) : jsstring :=
  match body with
  | JObj fields =>
      match lookup (lit "message") fields with
      | Some m =>
          match ToString m with
          | Ok text => text
          | Throw _ => default
          end
      | None => default
      end
  | _ => default
  end.

End Specified.



Definition recognizedEnvironment (v : JsVal) : Prop :=
  v = JStr Environment_SANDBOX \/ v = JStr Environment_LIVE.


(* ================================================================= *)
(** ** The validation rules *)

(** The validation rules of an initiate-payment input, in the order of
    the specification. *)
Inductive Rule :=
| RuleParams
| RuleString (field : string)
| RuleAmount
| RulePayWithCharge
| RuleEmi
| RuleEmail
| RuleCallbackUrl.

Definition rules : list Rule :=
  [ RuleParams;
    RuleString "invoiceNumber"; RuleString "customerName";
    RuleString "customerPhone"; RuleString "customerEmail";
    RuleString "callbackUrl";
    RuleAmount; RulePayWithCharge; RuleEmi; RuleEmail; RuleCallbackUrl ]%string.

(** A string that is not empty after trimming. *)
Definition nonBlankString (v : JsVal) : bool :=
  match v with
  | JStr s => negb (Nat.eqb (List.length (trim s)) 0)
  | _ => false
  end.

(** A number strictly greater than 0. *)
Definition positiveNumber (v : JsVal) : bool :=
  match v with
  | JNum x => SFltb (S754_zero false) x
  | _ => false
  end.

(** A number greater than or equal to 0. *)
Definition nonNegativeNumber (v : JsVal) : bool :=
  match v with
  | JNum x => SFleb (S754_zero false) x
  | _ => false
  end.

Definition isNaN (v : JsVal) : bool :=
  match v with
  | JNum S754_nan => true
  | _ => false
  end.

Definition isAbsent (v : JsVal) : bool :=
  match v with
  | JUndefined | JNull => true
  | _ => false
  end.

(** The messages by which a [ValidationError] names a rule. *)
Definition messagesOf (r : Rule) : list jsstring :=
  match r with
  | RuleParams => [lit "Payment parameters are required"]
  | RuleString f =>
      [lit f ++ lit " is required and must be a string";
       lit f ++ lit " cannot be empty or whitespace only"]
  | RuleAmount =>
      [lit "paymentAmount must be a number"; lit "paymentAmount must be greater than 0"]
  | RulePayWithCharge =>
      [lit "payWithCharge must be a number"; lit "payWithCharge cannot be negative"]
  | RuleEmi => [lit "emi must be a number"; lit "emi cannot be negative"]
  | RuleEmail => [lit "customerEmail must be a valid email address"]
  | RuleCallbackUrl => [lit "callbackUrl must be a valid URL"]
  end.

Definition identifies (e : SdkError) (r : Rule) : Prop :=
  err_name e = ValidationErrorName /\ In (err_message e) (messagesOf r).

Fixpoint runAll (checks : list (Result unit)) : Result unit :=
  match checks with
  | [] => Ok tt
  | c :: rest => c ;; runAll rest
  end.

Section Rules.
Context {host : Host}.

(** Whether the parameters satisfy a rule. *)
Definition holds (params : JsVal) (r : Rule) : bool :=
  match r with
  | RuleParams => negb (isAbsent params)
  | RuleString f => nonBlankString (prop params f)
  | RuleAmount => positiveNumber (prop params "paymentAmount")
  | RulePayWithCharge =>
      negb (isDefined (prop params "payWithCharge"))
      || nonNegativeNumber (prop params "payWithCharge")
  | RuleEmi =>
      negb (isDefined (prop params "emi")) || nonNegativeNumber (prop params "emi")
  | RuleEmail =>
      match isValidEmail (prop params "customerEmail") with
      | Ok matched => matched
      | Throw _ => false
      end
  | RuleCallbackUrl => isValidUrl (prop params "callbackUrl")
  end.

(** The earliest rule the parameters violate. *)
Definition firstViolated (params : JsVal) : option Rule :=
  find (fun r => negb (holds params r)) rules.

(** The check [validateInitiatePaymentParams] makes for a rule. *)
Definition checkOf (params : JsVal) (r : Rule) : Result unit :=
  match r with
  | RuleParams =>
      throwIf (negb (truthy params))
        (ValidationError (JStr (lit "Payment parameters are required")))
  | RuleString f => validateRequiredString (prop params f) f
  | RuleAmount =>
      throwIf (negb (JsType_eqb (typeof (prop params "paymentAmount")) TNumber))
        (ValidationError (JStr (lit "paymentAmount must be a number"))) ;;
      throwIf (leZero (prop params "paymentAmount"))
        (ValidationError (JStr (lit "paymentAmount must be greater than 0")))
  | RulePayWithCharge =>
      if isDefined (prop params "payWithCharge") then
        throwIf (negb (JsType_eqb (typeof (prop params "payWithCharge")) TNumber))
          (ValidationError (JStr (lit "payWithCharge must be a number"))) ;;
        throwIf (ltZero (prop params "payWithCharge"))
          (ValidationError (JStr (lit "payWithCharge cannot be negative")))
      else Ok tt
  | RuleEmi =>
      if isDefined (prop params "emi") then
        throwIf (negb (JsType_eqb (typeof (prop params "emi")) TNumber))
          (ValidationError (JStr (lit "emi must be a number"))) ;;
        throwIf (ltZero (prop params "emi"))
          (ValidationError (JStr (lit "emi cannot be negative")))
      else Ok tt
  | RuleEmail =>
      throwUnless (isValidEmail (prop params "customerEmail"))
        (ValidationError (JStr (lit "customerEmail must be a valid email address")))
  | RuleCallbackUrl =>
      throwIf (negb (isValidUrl (prop params "callbackUrl")))
        (ValidationError (JStr (lit "callbackUrl must be a valid URL")))
  end.

(** A check decides its rule: it passes when the rule holds, and throws a
    [ValidationError] that names the rule when it does not. *)
Definition decides (params : JsVal) (r : Rule) : Prop :=
  (holds params r = true -> checkOf params r = Ok tt)
  /\ (holds params r = false ->
      exists e, checkOf params r = Throw (Sdk e) /\ identifies e r).

(** Each check of a list decides its rule, once the rules before it
    hold. *)
Fixpoint decidesInOrder (params : JsVal) (rs : list Rule) : Prop :=
  match rs with
  | [] => True
  | r :: rest =>
      decides params r /\ (holds params r = true -> decidesInOrder params rest)
  end.

End Rules.

(* ================================================================= *)
(** ** [src/errors/NetworkError.ts] and [src/PayStationSDK.ts] *)

(** The transport the facade calls, [httpClient.request]: it resolves to a
    response (possibly [null] or [undefined] when replaced by a stub) or
    rejects with an exception. *)
Definition HttpClient := HttpRequest -> Result (option HttpResponse).

(** How a call of the facade ends: with a value, with an error of the SDK
    rethrown as caught, or with a new [PayStationError] that wraps the
    exception caught as its [originalError]. *)
Inductive Outcome (A : Type) :=
| Returned (a : A)
| Rethrown (e : SdkError)
| Wrapped (e : SdkError) (originalError : Thrown).
Arguments Returned {A} a.
Arguments Rethrown {A} e.
Arguments Wrapped {A} e originalError.

Section Facade.
Context {host : Host}.

(** [new NetworkError(message, originalError)]: [super(message, undefined,
    originalError)]. *)
Definition networkError (message : jsstring) : SdkError :=
  {| err_name := NetworkErrorName;
     err_message := message;
     err_statusCode := JUndefined |}.

Definition NetworkError (message : JsVal) : Result SdkError :=
  kept <- errorMessage message ;;
  Ok (networkError kept).

(** The [try]/[catch] of every method: each class of the SDK extends
    [PayStationError], so the [instanceof] tests rethrow exactly the
    errors of the SDK; any other exception is wrapped. *)
Definition rethrowKnown {A} (attempt : Result A) (description : string) : Outcome A :=
  match attempt with
  | Ok a => Returned a
  | Throw (Sdk e) => Rethrown e
  | Throw other =>
      Wrapped (payStationError (lit description) JUndefined) other
  end.

(** [if (response.status >= 400) { this.responseParser.parseErrorResponse(response); }] *)
Definition handleHttpErrors (response : option HttpResponse) : Result unit :=
  match response with
  | None => Throw TypeError
  | Some r =>
      if (400 <=? status r)%Z then
        never <- parseErrorResponse response ;;
        match never : Empty_set with end
      else Ok tt
  end.

Definition initiatePayment (cm : ConfigManager) (httpClient : HttpClient)
           (params : JsVal) : Outcome InitiatePaymentResponse :=
  rethrowKnown
    (request <- buildInitiatePaymentRequest cm params ;;
     response <- httpClient request ;;
     handleHttpErrors response ;;
     parseInitiatePaymentResponse response)
    "An unexpected error occurred during payment initiation".

Definition getTransactionStatus (cm : ConfigManager) (httpClient : HttpClient)
           (invoiceNumber : JsVal) : Outcome TransactionStatusResponse :=
  rethrowKnown
    (request <- buildTransactionStatusRequest cm invoiceNumber ;;
     response <- httpClient request ;;
     handleHttpErrors response ;;
     parseTransactionStatusResponse response)
    "An unexpected error occurred during transaction status check".

Definition getTransactionStatusById (cm : ConfigManager) (httpClient : HttpClient)
           (transactionId : JsVal) : Outcome TransactionStatusResponse :=
  rethrowKnown
    (request <- buildTransactionStatusByIdRequest cm transactionId ;;
     response <- httpClient request ;;
     handleHttpErrors response ;;
     parseTransactionStatusResponse response)
    "An unexpected error occurred during transaction status check by ID".

End Facade.

(* ================================================================= *)
(** ** The language of a regular expression *)

Inductive matches : regex -> jsstring -> Prop :=
| MEps : matches REps []
| MClass (p : N -> bool) (c : N) : p c = true -> matches (RClass p) [c]
| MCat (r1 r2 : regex) (s1 s2 : jsstring) :
    matches r1 s1 -> matches r2 s2 -> matches (RCat r1 r2) (s1 ++ s2)
| MAltL (r1 r2 : regex) (s : jsstring) : matches r1 s -> matches (RAlt r1 r2) s
| MAltR (r1 r2 : regex) (s : jsstring) : matches r2 s -> matches (RAlt r1 r2) s
| MStarNil (r : regex) : matches (RStar r) []
| MStarApp (r : regex) (s1 s2 : jsstring) :
    matches r s1 -> matches (RStar r) s2 -> matches (RStar r) (s1 ++ s2).

(** A string of the form [local@domain.tld]: three non-empty parts without
    white space or [@]. *)
Definition emailShape (s : jsstring) : Prop :=
  exists localPart domain tld,
    s = localPart ++ 64%N :: domain ++ 46%N :: tld
    /\ localPart <> [] /\ domain <> [] /\ tld <> []
    /\ forallb notSpaceNorAt localPart = true
    /\ forallb notSpaceNorAt domain = true
    /\ forallb notSpaceNorAt tld = true.

(** A string without an unpaired surrogate code unit. *)
Fixpoint wellFormed (s : jsstring) : bool :=
  match s with
  | [] => true
  | c :: t =>
      if isHighSurrogate c then
        match t with
        | d :: t' => isLowSurrogate d && wellFormed t'
        | [] => false
        end
      else negb (isLowSurrogate c) && wellFormed t
  end.

(** The body of an initiate-payment request, read off the table of
    optional fields: the credentials and the required fields, then every
    optional field sent, each value converted to a string. *)
Section ExpectedBody.
Context {host : Host}.

(** The text of a value that converts to a string. *)
Definition textOf (value : JsVal) : jsstring :=
  match ToString value with
  | Ok text => text
  | Throw _ => []
  end.

Definition entry (key : string) (value : JsVal) : jsstring * jsstring :=
  (lit key, toUSVString (textOf value)).

(** The base URL of a manager whose environment has one. *)
Definition baseUrlText (cm : ConfigManager) : jsstring :=
  match getBaseUrl cm with
  | Ok baseUrl => textOf baseUrl
  | Throw _ => []
  end.

(** The two headers of every request, as the builders write them. *)
Definition jsonFormHeaders : list (string * string) :=
  [ ("Content-Type", "application/x-www-form-urlencoded");
    ("Accept", "application/json") ]%string.

Definition optionalEntries (params : JsVal) : URLSearchParams :=
  flat_map (fun f =>
              if sent params f
              then [entry (of_key f) (prop params (of_field f))]
              else [])
           optionalFields.

Definition expectedBody (cm : ConfigManager) (params : JsVal) : URLSearchParams :=
  [ entry "merchant_id" (getMerchantId cm);
    entry "password" (getPassword cm);
    entry "invoice_number" (prop params "invoiceNumber");
    entry "payment_amount" (prop params "paymentAmount");
    entry "customer_name" (prop params "customerName");
    entry "customer_phone" (prop params "customerPhone");
    entry "customer_email" (prop params "customerEmail");
    entry "callback_url" (prop params "callbackUrl") ]
  ++ optionalEntries params.

End ExpectedBody.

(* ================================================================= *)
(** ** Results written back as response bodies *)

(** An optional property: set when there is a value. *)
Definition optionalProperty (key : string) (value : option JsVal)
  : list (jsstring * JsVal) :=
  match value with
  | Some v => [(lit key, v)]
  | None => []
  end.

(** The JSON body that states a payment-initiation result. *)
Definition encodeInitiatePaymentResponse (r : InitiatePaymentResponse) : JsVal :=
  JObj ([ (lit "statusCode", JStr (ipr_statusCode r));
          (lit "status", ipr_status r);
          (lit "message", JStr (ipr_message r)) ]
        ++ optionalProperty "paymentAmount" (option_map JStr (ipr_paymentAmount r))
        ++ optionalProperty "invoiceNumber" (option_map JStr (ipr_invoiceNumber r))
        ++ optionalProperty "paymentUrl" (option_map JStr (ipr_paymentUrl r))).

(** The JSON object that states a transaction record. *)
Definition encodeTransactionData (t : TransactionData) : JsVal :=
  JObj ([ (lit "invoiceNumber", JStr (td_invoiceNumber t));
          (lit "transactionStatus", td_transactionStatus t);
          (lit "transactionId", JStr (td_transactionId t));
          (lit "paymentAmount", JStr (td_paymentAmount t));
          (lit "orderDateTime", JStr (td_orderDateTime t)) ]
        ++ optionalProperty "payerMobileNumber" (option_map JStr (td_payerMobileNumber t))
        ++ optionalProperty "paymentMethod" (td_paymentMethod t)
        ++ optionalProperty "reference" (option_map JStr (td_reference t))
        ++ optionalProperty "checkoutItems" (option_map JStr (td_checkoutItems t))
        ++ optionalProperty "transactionAmount" (option_map JNum (td_transactionAmount t))
        ++ optionalProperty "transactionDate" (option_map JStr (td_transactionDate t))
        ++ optionalProperty "requestAmount" (option_map JStr (td_requestAmount t))).

(** The JSON body that states a transaction-status result. *)
Definition encodeTransactionStatusResponse (r : TransactionStatusResponse) : JsVal :=
  JObj ([ (lit "statusCode", JStr (tsr_statusCode r));
          (lit "status", tsr_status r);
          (lit "message", JStr (tsr_message r)) ]
        ++ optionalProperty "data" (option_map encodeTransactionData (tsr_data r))).

(** A record the parser can give back: non-empty identifiers, a truthy
    status, and a payment method that is a value. *)
Definition transactionRecordOk (t : TransactionData) : Prop :=
  td_invoiceNumber t <> [] /\ td_transactionId t <> []
  /\ truthy (td_transactionStatus t) = true
  /\ td_paymentMethod t <> Some JUndefined.

Section Attempt.
Context {host : Host}.

(** The body of the [try] block the three methods of the facade share. *)
Definition attempt {A} (built : Result HttpRequest) (httpClient : HttpClient)
           (parse : option HttpResponse -> Result A) : Result A :=
  request <- built ;;
  response <- httpClient request ;;
  handleHttpErrors response ;;
  parse response.

End Attempt.

(** A computation that throws nothing but errors of the SDK. *)
Definition sdkOnly {A} (c : Result A) : Prop := c <> Throw TypeError.

(** The transport that answers every request with the same response. *)
Definition answering (r : HttpResponse) : HttpClient := fun _ => Ok (Some r).

(** How a method ends when the transport throws [t]: an error of the SDK
    is passed on, anything else is wrapped under the description of the
    method. *)
Definition transportOutcome {A} (t : Thrown) (description : string) : Outcome A :=
  match t with
  | Sdk e => Rethrown e
  | TypeError =>
      Wrapped {| err_name := PayStationErrorName;
                 err_message := lit description;
                 err_statusCode := JUndefined |} TypeError
  end.

Section StatusRequests.
Context {host : Host}.

(** What both status builders do with an identifier, given the field name
    of the messages, the path and the key of the builder. *)
Definition statusRequestOf (cm : ConfigManager) (identifier : JsVal)
           (fieldName path key : string) : Result HttpRequest :=
  match identifier with
  | JStr s =>
      if forallb isWhiteSpace s
      then Throw (Sdk (validationError
                         (lit fieldName ++ lit " cannot be empty or whitespace only")))
      else Ok {| url := baseUrlText cm ++ lit path;
                 method := POST;
                 headers := jsonFormHeaders;
                 body := [ entry "merchant_id" (getMerchantId cm);
                           entry "password" (getPassword cm);
                           (lit key, toUSVString s) ] |}
  | _ => Throw (Sdk (validationError
                       (lit fieldName ++ lit " is required and must be a string")))
  end.

End StatusRequests.

(* ================================================================= *)
(** ** Inputs of the further examples *)

(** The result of the specification's round-trip example. *)
Definition exampleInitiateResult : InitiatePaymentResponse :=
  {| ipr_statusCode := lit "200";
     ipr_status := str "success";
     ipr_message := lit "ok";
     ipr_paymentAmount := Some (lit "10.00");
     ipr_invoiceNumber := Some (lit "INV-1");
     ipr_paymentUrl := Some (lit "https://pay.example/checkout") |}.

Definition exampleTransaction : TransactionData :=
  {| td_invoiceNumber := lit "INV-1";
     td_transactionStatus := str "success";
     td_transactionId := lit "TRX-1";
     td_paymentAmount := lit "10.00";
     td_orderDateTime := lit "2024-01-01 10:00:00";
     td_payerMobileNumber := Some (lit "01700000000");
     td_paymentMethod := Some (str "bKash");
     td_reference := None;
     td_checkoutItems := None;
     td_transactionAmount := Some (S754_finite false 10 0);
     td_transactionDate := None;
     td_requestAmount := Some (lit "10.00") |}.

Definition exampleStatusResult : TransactionStatusResponse :=
  {| tsr_statusCode := lit "200";
     tsr_status := str "success";
     tsr_message := lit "ok";
     tsr_data := Some exampleTransaction |}.

(** A nested transaction object with an unknown status and the amount 0. *)
Definition zeroAmountTransaction : JsVal :=
  obj [ ("invoiceNumber", str "INV-1"); ("transactionStatus", str "on-hold");
        ("transactionId", str "TRX-1");
        ("paymentAmount", JNum (S754_zero false)) ]%string.

(** HTTP 502 with the text of a non-JSON reply. *)
Definition textReply : option HttpResponse :=
  Some {| status := 502; statusText := lit "Bad Gateway"; data := str "<html>" |}.

(** HTTP 500 carrying a well-formed success body. *)
Definition serverError : HttpResponse :=
  {| status := 500; statusText := lit "Internal Server Error"; data := noDataBody |}.

(** HTTP 200 with [pendingBody]. *)
Definition pendingReply : HttpResponse :=
  {| status := 200; statusText := lit "OK"; data := pendingBody |}.

(** A transport that throws a non-SDK exception on every request. *)
Definition brokenClient : HttpClient := fun _ => Throw TypeError.

(** A transport that fails with the [NetworkError] of a lost connection. *)
Definition offlineClient : HttpClient :=
  fun _ => Throw (Sdk (networkError
                         (lit "Network request failed - please check your internet connection"))).

(** The JSON object [{"toString": 1}]: [String] of it throws, as its own
    [toString] is not a function. *)
Definition unconvertible : JsVal :=
  obj [ ("toString", JNum one) ]%string.

(** A failed body whose message is that object. *)
Definition unconvertibleMessageBody : JsVal :=
  obj [ ("statusCode", str "1001"); ("status", str "failed");
        ("message", unconvertible) ]%string.


(* ================================================================= *)
(** ** Properties *)

Section Properties.
Context {host : Host}.

(** *** Sequencing *)

Lemma bind_ok {A B} (c : Result A) (k : A -> Result B) (b : B) :
  bind c k = Ok b -> exists a, c = Ok a /\ k a = Ok b.
Proof.
  destruct c as [a | t]; simpl; [eauto | discriminate].
Qed.

Lemma seq_ok {B} (c : Result unit) (k : Result B) (b : B) :
  (c ;; k) = Ok b -> c = Ok tt /\ k = Ok b.
Proof.
  destruct c as [[] | t]; simpl; [auto | discriminate].
Qed.

Lemma throwIf_ok (cond : bool) (constructed : Result SdkError) :
  throwIf cond constructed = Ok tt -> cond = false.
Proof.
  destruct cond; [| reflexivity].
  destruct constructed; discriminate.
Qed.

Lemma throwUnless_ok (test : Result bool) (constructed : Result SdkError) :
  throwUnless test constructed = Ok tt -> test = Ok true.
Proof.
  destruct test as [[|] | t]; simpl; [reflexivity | | discriminate].
  destruct constructed; discriminate.
Qed.

Lemma canString_text (v : JsVal) :
  canString v = true -> ToString v = Ok (textOf v).
Proof.
  unfold canString, textOf. destruct (ToString v); [reflexivity | discriminate].
Qed.

Lemma text_canString (v : JsVal) (text : jsstring) :
  ToString v = Ok text -> canString v = true /\ textOf v = text.
Proof.
  unfold canString, textOf. intros ->. auto.
Qed.

(** *** The request builder *)

Lemma typeof_number (v : JsVal) :
  negb (JsType_eqb (typeof v) TNumber) = false -> exists x, v = JNum x.
Proof.
  destruct v; simpl; try discriminate. eauto.
Qed.

Lemma typeof_string (v : JsVal) :
  negb (JsType_eqb (typeof v) TString) = false -> exists s, v = JStr s.
Proof.
  destruct v; simpl; try discriminate. eauto.
Qed.

Lemma validateRequiredString_ok (v : JsVal) (fieldName : string) :
  validateRequiredString v fieldName = Ok tt -> exists s, v = JStr s.
Proof.
  unfold validateRequiredString. intros H.
  apply seq_ok in H. destruct H as [H _].
  apply throwIf_ok in H. exact (typeof_string v H).
Qed.

(** What a successful validation tells about the numeric fields. *)
Lemma validate_ok_numbers (params : JsVal) :
  validateInitiatePaymentParams params = Ok tt ->
  (exists x, prop params "paymentAmount" = JNum x /\ SFleb x (S754_zero false) = false) /\
  (prop params "payWithCharge" = JUndefined \/ exists x, prop params "payWithCharge" = JNum x) /\
  (prop params "emi" = JUndefined \/ exists x, prop params "emi" = JNum x).
Proof.
  unfold validateInitiatePaymentParams. intros H.
  repeat (apply seq_ok in H; destruct H as [? H]).
  repeat match goal with
         | X : throwIf _ _ = Ok tt |- _ => apply throwIf_ok in X
         end.
  split; [| split].
  - match goal with
    | X : negb (JsType_eqb (typeof (prop params "paymentAmount")) TNumber) = false |- _ =>
        destruct (typeof_number _ X) as [x Hx]
    end.
    exists x. split; [exact Hx |].
    match goal with X : leZero _ = false |- _ => rewrite Hx in X; exact X end.
  - match goal with
    | X : (if isDefined (prop params "payWithCharge") then _ else _) = Ok tt |- _ =>
        destruct (prop params "payWithCharge") eqn:E; simpl in X;
        try discriminate X; eauto
    end.
  - match goal with
    | X : (if isDefined (prop params "emi") then _ else _) = Ok tt |- _ =>
        destruct (prop params "emi") eqn:E; simpl in X;
        try discriminate X; eauto
    end.
Qed.

(** What it tells about the required strings. *)
Lemma validate_ok_strings (params : JsVal) :
  validateInitiatePaymentParams params = Ok tt ->
  (exists s, prop params "invoiceNumber" = JStr s)
  /\ (exists s, prop params "customerName" = JStr s)
  /\ (exists s, prop params "customerPhone" = JStr s)
  /\ (exists s, prop params "customerEmail" = JStr s)
  /\ (exists s, prop params "callbackUrl" = JStr s).
Proof.
  unfold validateInitiatePaymentParams. intros H.
  repeat (apply seq_ok in H; destruct H as [? H]).
  repeat match goal with
         | X : validateRequiredString _ _ = Ok tt |- _ =>
             apply validateRequiredString_ok in X
         end.
  auto.
Qed.

Lemma append_entry (fd : URLSearchParams) (k : string) (v : JsVal) :
  canString v = true -> append fd k v = Ok (fd ++ [entry k v]).
Proof.
  intros H. unfold append, entry. rewrite (canString_text v H). reflexivity.
Qed.

Lemma appendIf_entry (c : bool) (fd : URLSearchParams) (k : string) (v : JsVal) :
  negb c || canString v = true ->
  appendIf c fd k v = Ok (fd ++ if c then [entry k v] else []).
Proof.
  destruct c; cbn [negb orb appendIf].
  - apply append_entry.
  - intros _. rewrite app_nil_r. reflexivity.
Qed.

Lemma filter_head {A} (p : A -> bool) (x : A) (l : list A) :
  filter p (x :: l) = (if p x then [x] else []) ++ filter p l.
Proof.
  simpl. destruct (p x); reflexivity.
Qed.

Lemma map_if {A B} (f : A -> B) (c : bool) (x : A) :
  map f (if c then [x] else []) = if c then [f x] else [].
Proof.
  destruct c; reflexivity.
Qed.

(** The keys of [sentKeys], one optional field at a time. *)
Lemma sentKeys_unfold (params : JsVal) :
  sentKeys params =
  requiredKeys
  ++ (if truthy (prop params "currency") then [lit "currency"] else [])
  ++ (if isDefined (prop params "payWithCharge") then [lit "pay_with_charge"] else [])
  ++ (if truthy (prop params "reference") then [lit "reference"] else [])
  ++ (if truthy (prop params "customerAddress") then [lit "customer_address"] else [])
  ++ (if truthy (prop params "checkoutItems") then [lit "checkout_items"] else [])
  ++ (if truthy (prop params "optA") then [lit "opt_a"] else [])
  ++ (if truthy (prop params "optB") then [lit "opt_b"] else [])
  ++ (if truthy (prop params "optC") then [lit "opt_c"] else [])
  ++ (if isDefined (prop params "emi") then [lit "emi"] else []).
Proof.
  unfold sentKeys, optionalFields.
  rewrite !filter_head, !map_app, !map_if. cbn [filter map sent of_numeric of_field of_key].
  rewrite app_nil_r. reflexivity.
Qed.

(** The entries of the optional fields, one field at a time. *)
Lemma optionalEntries_unfold (params : JsVal) :
  optionalEntries params =
  (if truthy (prop params "currency")
   then [entry "currency" (prop params "currency")] else [])
  ++ (if isDefined (prop params "payWithCharge")
      then [entry "pay_with_charge" (prop params "payWithCharge")] else [])
  ++ (if truthy (prop params "reference")
      then [entry "reference" (prop params "reference")] else [])
  ++ (if truthy (prop params "customerAddress")
      then [entry "customer_address" (prop params "customerAddress")] else [])
  ++ (if truthy (prop params "checkoutItems")
      then [entry "checkout_items" (prop params "checkoutItems")] else [])
  ++ (if truthy (prop params "optA")
      then [entry "opt_a" (prop params "optA")] else [])
  ++ (if truthy (prop params "optB")
      then [entry "opt_b" (prop params "optB")] else [])
  ++ (if truthy (prop params "optC")
      then [entry "opt_c" (prop params "optC")] else [])
  ++ (if isDefined (prop params "emi")
      then [entry "emi" (prop params "emi")] else []).
Proof.
  unfold optionalEntries, optionalFields.
  cbn [flat_map sent of_numeric of_field of_key]. rewrite app_nil_r. reflexivity.
Qed.

Lemma optionalEntries_keys (params : JsVal) :
  map fst (optionalEntries params)
  = map (fun f => lit (of_key f)) (filter (sent params) optionalFields).
Proof.
  unfold optionalEntries.
  induction optionalFields as [| f fields IH]; [reflexivity |].
  cbn [flat_map filter]. rewrite map_app, IH.
  destruct (sent params f); reflexivity.
Qed.

(** The keys of the body read off the table are the keys sent. *)
Lemma expectedBody_keys (cm : ConfigManager) (params : JsVal) :
  map fst (expectedBody cm params) = sentKeys params.
Proof.
  unfold expectedBody, sentKeys. rewrite map_app, optionalEntries_keys. reflexivity.
Qed.



(** *** A constructed manager *)

Lemma jsstring_eqb_eq (a b : jsstring) : jsstring_eqb a b = true <-> a = b.
Proof.
  revert b. induction a as [| x a IH]; intros [| y b]; simpl;
    try (split; [discriminate | discriminate]); try tauto.
  rewrite andb_true_iff, N.eqb_eq, IH. split.
  - intros [-> ->]. reflexivity.
  - intros H. injection H. auto.
Qed.

Lemma includes_recognized (v : JsVal) :
  Environment_includes v = true <-> recognizedEnvironment v.
Proof.
  unfold Environment_includes, recognizedEnvironment, Environment_values.
  cbn [existsb]. rewrite orb_false_r, orb_true_iff.
  destruct v; cbn [strictEqStr]; try (split; [intros [|]; discriminate | intros [|]; discriminate]).
  rewrite !jsstring_eqb_eq. split; intros [H | H]; [left | right | left | right]; congruence.
Qed.


Lemma prop_spread (cfg : JsVal) (k : string) : prop (spread cfg) k = prop cfg k.
Proof.
  destruct cfg; reflexivity.
Qed.



(** What the constructor has checked of the manager it returns. *)
Lemma constructed_manager (cfg : JsVal) (cm : ConfigManager) :
  newConfigManager cfg = Ok cm ->
  (exists m, getMerchantId cm = JStr m /\ prop cfg "merchantId" = JStr m)
  /\ (exists p, getPassword cm = JStr p /\ prop cfg "password" = JStr p)
  /\ ((getEnvironment cm = JStr Environment_SANDBOX
       /\ getBaseUrl cm = Ok (JStr (lit "https://sandbox.paystation.com.bd/api")))
      \/ (getEnvironment cm = JStr Environment_LIVE
          /\ getBaseUrl cm = Ok (JStr (lit "https://api.paystation.com.bd")))).
Proof.
  unfold newConfigManager. intros H.
  apply seq_ok in H. destruct H as [Hvalid Hcm].
  injection Hcm as <-.
  unfold getMerchantId, getPassword, getEnvironment, getBaseUrl. cbn [config].
  rewrite !prop_spread.
  unfold validateConfig in Hvalid.
  repeat (apply seq_ok in Hvalid; destruct Hvalid as [? Hvalid]).
  repeat match goal with
         | X : throwIf _ _ = Ok tt |- _ => apply throwIf_ok in X
         end.
  repeat match goal with
         | X : negb (JsType_eqb (typeof _) TString) = false |- _ =>
             apply typeof_string in X; destruct X as [? X]
         end.
  split; [eauto | split; [eauto |]].
  apply negb_false_iff, includes_recognized in Hvalid.
  destruct Hvalid as [-> | ->]; [left | right]; split; reflexivity.
Qed.

Lemma constructed_base (cfg : JsVal) (cm : ConfigManager) :
  newConfigManager cfg = Ok cm ->
  getBaseUrl cm = Ok (JStr (baseUrlText cm)).
Proof.
  intros H. unfold baseUrlText.
  destruct (constructed_manager cfg cm H) as (_ & _ & [[_ ->] | [_ ->]]); reflexivity.
Qed.

Lemma constructed_credentials (cfg : JsVal) (cm : ConfigManager) :
  newConfigManager cfg = Ok cm ->
  canString (getMerchantId cm) = true /\ canString (getPassword cm) = true.
Proof.
  intros H.
  destruct (constructed_manager cfg cm H) as ((m & -> & _) & (p & -> & _) & _).
  split; reflexivity.
Qed.

(** *** Requests built for valid parameters *)

Lemma optionalsConvertible_fields (params : JsVal) :
  optionalsConvertible params = true ->
  negb (truthy (prop params "currency")) || canString (prop params "currency") = true
  /\ negb (truthy (prop params "reference")) || canString (prop params "reference") = true
  /\ negb (truthy (prop params "customerAddress"))
     || canString (prop params "customerAddress") = true
  /\ negb (truthy (prop params "checkoutItems"))
     || canString (prop params "checkoutItems") = true
  /\ negb (truthy (prop params "optA")) || canString (prop params "optA") = true
  /\ negb (truthy (prop params "optB")) || canString (prop params "optB") = true
  /\ negb (truthy (prop params "optC")) || canString (prop params "optC") = true.
Proof.
  unfold optionalsConvertible, optionalFields.
  cbn [forallb sent of_numeric of_field]. rewrite !andb_true_iff. tauto.
Qed.

(** The request built from parameters that pass validation, by a manager
    the constructor returned, when the optional fields sent convert to
    strings. *)
Lemma build_valid (cfg : JsVal) (cm : ConfigManager) (params : JsVal) :
  newConfigManager cfg = Ok cm ->
  validateInitiatePaymentParams params = Ok tt ->
  optionalsConvertible params = true ->
  buildInitiatePaymentRequest cm params
  = Ok {| url := baseUrlText cm ++ lit "/initiate-payment";
          method := POST;
          headers := formHeaders;
          body := expectedBody cm params |}.
Proof.
  intros Hcm Hvalid Hopt.
  destruct (validate_ok_numbers params Hvalid) as ([x [Hamount _]] & Hcharge & Hemi).
  destruct (validate_ok_strings params Hvalid)
    as ([s1 H1] & [s2 H2] & [s3 H3] & [s4 H4] & [s5 H5]).
  destruct (constructed_credentials cfg cm Hcm) as [Hm Hp].
  destruct (optionalsConvertible_fields params Hopt)
    as (Hcur & Href & Haddr & Hitems & Ha & Hb & Hc).
  unfold buildInitiatePaymentRequest, expectedBody.
  rewrite Hvalid, (constructed_base cfg cm Hcm), optionalEntries_unfold.
  cbn [bind ToString].
  rewrite (append_entry _ _ _ Hm). cbn [bind].
  rewrite (append_entry _ _ _ Hp). cbn [bind].
  rewrite Hamount. cbn [callToString ToString bind].
  assert (C1 : canString (prop params "invoiceNumber") = true) by (rewrite H1; reflexivity).
  assert (C2 : canString (prop params "customerName") = true) by (rewrite H2; reflexivity).
  assert (C3 : canString (prop params "customerPhone") = true) by (rewrite H3; reflexivity).
  assert (C4 : canString (prop params "customerEmail") = true) by (rewrite H4; reflexivity).
  assert (C5 : canString (prop params "callbackUrl") = true) by (rewrite H5; reflexivity).
  rewrite (append_entry _ _ _ C1). cbn [bind].
  rewrite append_entry by reflexivity. cbn [bind].
  rewrite (append_entry _ _ _ C2). cbn [bind].
  rewrite (append_entry _ _ _ C3). cbn [bind].
  rewrite (append_entry _ _ _ C4). cbn [bind].
  rewrite (append_entry _ _ _ C5). cbn [bind].
  rewrite (appendIf_entry _ _ _ _ Hcur). cbn [bind].
  assert (Hnumeric : forall v fd key,
             v = JUndefined \/ (exists n, v = JNum n) ->
             (if isDefined v
              then text <- callToString v ;; append fd key (JStr text)
              else Ok fd)
             = Ok (fd ++ if isDefined v then [entry key v] else [])).
  { intros v fd key [-> | [n ->]]; cbn [isDefined callToString ToString bind].
    - rewrite app_nil_r. reflexivity.
    - rewrite append_entry by reflexivity. reflexivity. }
  rewrite (Hnumeric _ _ _ Hcharge). cbn [bind].
  rewrite (appendIf_entry _ _ _ _ Href). cbn [bind].
  rewrite (appendIf_entry _ _ _ _ Haddr). cbn [bind].
  rewrite (appendIf_entry _ _ _ _ Hitems). cbn [bind].
  rewrite (appendIf_entry _ _ _ _ Ha). cbn [bind].
  rewrite (appendIf_entry _ _ _ _ Hb). cbn [bind].
  rewrite (appendIf_entry _ _ _ _ Hc). cbn [bind].
  rewrite (Hnumeric _ _ _ Hemi). cbn [bind].
  do 2 f_equal. rewrite <- !app_assoc. reflexivity.
Qed.

Lemma prop_withAmount (x : spec_float) (others : list (jsstring * JsVal)) :
  prop (withAmount x others) "paymentAmount" = JNum x.
Proof. reflexivity. Qed.

Lemma prop_withAmount_other (x : spec_float) (others : list (jsstring * JsVal))
      (k : string) :
  jsstring_eqb (lit k) (lit "paymentAmount") = false ->
  prop (withAmount x others) k = prop (JObj others) k.
Proof.
  intros H. unfold prop, withAmount. cbn [lookup]. rewrite H. reflexivity.
Qed.

Lemma gt_zero_not_le (x : spec_float) :
  SFltb (S754_zero false) x = true -> SFleb x (S754_zero false) = false.
Proof.
  destruct x as [s | s | | s m e]; try destruct s; unfold SFltb, SFleb; simpl; congruence.
Qed.

Ltac other_fields :=
  rewrite ?prop_withAmount, ?prop_withAmount_other by reflexivity.

(** Validation of parameters with a given amount: the checks on the other
    fields, and the amount check between them. *)
Lemma validate_withAmount (x0 x : spec_float) (others : list (jsstring * JsVal)) :
  validateInitiatePaymentParams (withAmount x0 others) = Ok tt ->
  validateInitiatePaymentParams (withAmount x others)
  = throwIf (SFleb x (S754_zero false))
      (ValidationError (JStr (lit "paymentAmount must be greater than 0"))).
Proof.
  unfold validateInitiatePaymentParams. other_fields. intros H.
  repeat (apply seq_ok in H; destruct H as [? H]).
  repeat match goal with
         | X : _ = Ok tt |- _ => rewrite X; clear X
         end.
  cbn [bind truthy withAmount negb throwIf typeof JsType_eqb leZero].
  destruct (SFleb x (S754_zero false)); reflexivity.
Qed.

(** The optional fields do not depend on the amount. *)
Lemma optionalsConvertible_withAmount (x0 x : spec_float)
      (others : list (jsstring * JsVal)) :
  optionalsConvertible (withAmount x others)
  = optionalsConvertible (withAmount x0 others).
Proof.
  unfold optionalsConvertible, optionalFields.
  cbn [forallb sent of_numeric of_field]. other_fields. reflexivity.
Qed.

(** C6.  With the other fields valid (they pass validation with some
    amount, and the optional fields sent convert to strings, as values of
    their declared types do) and a manager the constructor returned, an
    amount [<= 0] (zero included) makes [buildInitiatePaymentRequest]
    throw the [ValidationError] "paymentAmount must be greater than 0",
    and an amount [> 0] makes it return a request: the boundary is exactly
    0, excluded. *)
Theorem payment_amount_boundary (cfg : JsVal) (cm : ConfigManager)
        (others : list (jsstring * JsVal)) (x0 nonpositive positive : spec_float) :
  newConfigManager cfg = Ok cm ->
  validateInitiatePaymentParams (withAmount x0 others) = Ok tt ->
  optionalsConvertible (withAmount x0 others) = true ->
  SFleb nonpositive (S754_zero false) = true ->
  SFltb (S754_zero false) positive = true ->
  buildInitiatePaymentRequest cm (withAmount nonpositive others)
  = Throw (Sdk (validationError (lit "paymentAmount must be greater than 0")))
  /\ buildInitiatePaymentRequest cm (withAmount (S754_zero false) others)
     = Throw (Sdk (validationError (lit "paymentAmount must be greater than 0")))
  /\ exists request,
       buildInitiatePaymentRequest cm (withAmount positive others) = Ok request.
Proof.
  intros Hcm Hothers Hopt Hle Hgt.
  pose proof (validate_withAmount x0 nonpositive others Hothers) as Hn.
  pose proof (validate_withAmount x0 (S754_zero false) others Hothers) as Hz.
  pose proof (validate_withAmount x0 positive others Hothers) as Hp.
  rewrite Hle in Hn. rewrite (gt_zero_not_le _ Hgt) in Hp.
  cbn [SFleb SFcompare throwIf] in Hn, Hz, Hp.
  split; [| split].
  - unfold buildInitiatePaymentRequest. rewrite Hn. reflexivity.
  - unfold buildInitiatePaymentRequest. rewrite Hz. reflexivity.
  - rewrite <- (optionalsConvertible_withAmount x0 positive) in Hopt.
    rewrite (build_valid cfg cm _ Hcm Hp Hopt). eauto.
Qed.

Lemma status_build (cfg : JsVal) (cm : ConfigManager) (identifier : JsVal)
      (fieldName : string) :
  newConfigManager cfg = Ok cm ->
  validateRequiredString identifier fieldName = Ok tt ->
  forall (path key : string),
    (baseUrl <- getBaseUrl cm ;;
     base <- ToString baseUrl ;;
     formData <- append [] "merchant_id" (getMerchantId cm) ;;
     formData <- append formData "password" (getPassword cm) ;;
     formData <- append formData key identifier ;;
     Ok {| url := base ++ lit path; method := POST; headers := formHeaders;
           body := formData |})
    = Ok {| url := baseUrlText cm ++ lit path;
            method := POST;
            headers := formHeaders;
            body := [ entry "merchant_id" (getMerchantId cm);
                      entry "password" (getPassword cm);
                      entry key identifier ] |}.
Proof.
  intros Hcm Hvalid path key.
  destruct (constructed_credentials cfg cm Hcm) as [Hm Hp].
  destruct (validateRequiredString_ok _ _ Hvalid) as [s ->].
  rewrite (constructed_base cfg cm Hcm). cbn [bind ToString].
  rewrite (append_entry _ _ _ Hm). cbn [bind].
  rewrite (append_entry _ _ _ Hp). cbn [bind].
  rewrite append_entry by reflexivity. reflexivity.
Qed.

(** C7.  For valid input (parameters that pass validation and whose
    optional fields sent convert to strings, identifiers that pass
    validation) and a manager the constructor returned, the three builders
    send to fixed endpoints under the base URL of the manager, the
    status-by-id one to the distinct versioned path, all with method POST
    and the two headers [Content-Type: application/x-www-form-urlencoded]
    and [Accept: application/json]. *)
Theorem fixed_endpoints (cfg : JsVal) (cm : ConfigManager)
        (params invoiceNumber transactionId : JsVal) :
  newConfigManager cfg = Ok cm ->
  validateInitiatePaymentParams params = Ok tt ->
  optionalsConvertible params = true ->
  validateInvoiceNumber invoiceNumber = Ok tt ->
  validateTransactionId transactionId = Ok tt ->
  exists baseUrl,
    getBaseUrl cm = Ok (JStr baseUrl)
    /\ (exists r, buildInitiatePaymentRequest cm params = Ok r
                  /\ url r = baseUrl ++ lit "/initiate-payment"
                  /\ method r = POST
                  /\ headers r
                     = [ ("Content-Type", "application/x-www-form-urlencoded");
                         ("Accept", "application/json") ]%string)
    /\ (exists r, buildTransactionStatusRequest cm invoiceNumber = Ok r
                  /\ url r = baseUrl ++ lit "/transaction-status"
                  /\ method r = POST
                  /\ headers r
                     = [ ("Content-Type", "application/x-www-form-urlencoded");
                         ("Accept", "application/json") ]%string)
    /\ (exists r, buildTransactionStatusByIdRequest cm transactionId = Ok r
                  /\ url r = baseUrl ++ lit "/v2/transaction-status"
                  /\ method r = POST
                  /\ headers r
                     = [ ("Content-Type", "application/x-www-form-urlencoded");
                         ("Accept", "application/json") ]%string)
    /\ baseUrl ++ lit "/v2/transaction-status"
       <> baseUrl ++ lit "/transaction-status".
Proof.
  intros Hcm Hparams Hopt Hinvoice Hid.
  exists (baseUrlText cm).
  split; [exact (constructed_base cfg cm Hcm) |].
  split; [| split; [| split]].
  - rewrite (build_valid cfg cm params Hcm Hparams Hopt).
    eexists. split; [reflexivity |]. cbn [url method headers]. auto.
  - unfold buildTransactionStatusRequest. rewrite Hinvoice. cbn [bind].
    rewrite (status_build cfg cm _ _ Hcm Hinvoice).
    eexists. split; [reflexivity |]. cbn [url method headers]. auto.
  - unfold buildTransactionStatusByIdRequest. rewrite Hid. cbn [bind].
    rewrite (status_build cfg cm _ _ Hcm Hid).
    eexists. split; [reflexivity |]. cbn [url method headers]. auto.
  - intros Heq. apply app_inv_head in Heq. vm_compute in Heq. discriminate Heq.
Qed.

Lemma optional_key_not_required (f : OptionalField) :
  In f optionalFields -> ~ In (lit (of_key f)) requiredKeys.
Proof.
  intros Hf Hin.
  repeat (destruct Hf as [<- | Hf]; [vm_compute in Hin; intuition discriminate |]).
  destruct Hf.
Qed.

Lemma optional_key_inj (f g : OptionalField) :
  In f optionalFields -> In g optionalFields ->
  lit (of_key g) = lit (of_key f) -> g = f.
Proof.
  intros Hf Hg Heq.
  repeat (destruct Hf as [<- | Hf];
          [repeat (destruct Hg as [<- | Hg];
                   [first [reflexivity | vm_compute in Heq; discriminate Heq] |]);
           destruct Hg |]).
  destruct Hf.
Qed.

Lemma absent_not_sent (params : JsVal) (f : OptionalField) :
  present params f = false -> sent params f = false.
Proof.
  unfold present, sent. destruct (prop params (of_field f)); simpl; try discriminate.
  destruct (of_numeric f); reflexivity.
Qed.

(** C4, as the code has it.  For parameters that pass validation and
    whose optional fields sent convert to strings, and a manager the
    constructor returned, the body keys are the required keys followed by
    the keys of the optional fields sent: a numeric one when it is not
    [undefined], any other when its value is truthy.  The key of an absent
    optional field is not in the body. *)
Theorem body_keys (cfg : JsVal) (cm : ConfigManager) (params : JsVal) :
  newConfigManager cfg = Ok cm ->
  validateInitiatePaymentParams params = Ok tt ->
  optionalsConvertible params = true ->
  exists request,
    buildInitiatePaymentRequest cm params = Ok request
    /\ map fst (body request) = sentKeys params
    /\ (forall f, In f optionalFields -> present params f = false ->
                  ~ In (lit (of_key f)) (map fst (body request))).
Proof.
  intros Hcm Hvalid Hopt.
  rewrite (build_valid cfg cm params Hcm Hvalid Hopt).
  eexists. split; [reflexivity |]. cbn [body].
  pose proof (expectedBody_keys cm params) as Hkeys.
  split; [exact Hkeys |].
  intros f Hf Habsent Hin. rewrite Hkeys in Hin. unfold sentKeys in Hin.
  apply in_app_or in Hin. destruct Hin as [Hin | Hin].
  - exact (optional_key_not_required f Hf Hin).
  - apply in_map_iff in Hin. destruct Hin as (g & Hkey & Hg).
    apply filter_In in Hg. destruct Hg as [Hg Hsent].
    rewrite (optional_key_inj f g Hf Hg Hkey) in Hsent.
    rewrite (absent_not_sent params f Habsent) in Hsent. discriminate Hsent.
Qed.

(** The email pattern on the inputs the specification names. *)
Example email_pattern_examples :
  isValidEmail (str "john@example.com") = Ok true
  /\ isValidEmail (str "no-at-sign") = Ok false
  /\ isValidEmail (str "a@b") = Ok false
  /\ isValidEmail (str "a b@c.d") = Ok false
  /\ isValidEmail (str "a@@c.d") = Ok false.
Proof.
  repeat split.
Qed.

(** *** The response parser *)

Lemma structure_ok (httpStatus : Z) (text : jsstring) (body : JsVal) :
  isObject body = true ->
  validateResponseStructure (response httpStatus text body) = Ok tt.
Proof.
  destruct body; simpl; try discriminate; reflexivity.
Qed.

Lemma errorMessage_truthy (v : JsVal) :
  truthy v = true -> errorMessage v = ToString v.
Proof.
  destruct v; simpl; try discriminate; reflexivity.
Qed.

Lemma required_check (body : JsVal) :
  negb (truthy (prop body "statusCode")) || negb (truthy (prop body "status"))
  || negb (truthy (prop body "message"))
  = negb (requiredFieldsTruthy body).
Proof.
  unfold requiredFieldsTruthy.
  destruct (truthy (prop body "statusCode")), (truthy (prop body "status")),
    (truthy (prop body "message")); reflexivity.
Qed.

(** Both parsers up to the test of a failed status. *)
Lemma failed_status_throws (httpStatus : Z) (text : jsstring) (body : JsVal) :
  isObject body = true ->
  requiredFieldsTruthy body = true ->
  prop body "status" = JStr (lit "failed") ->
  parseInitiatePaymentResponse (response httpStatus text body)
  = throwNew (PayStationError (prop body "message") (prop body "statusCode"))
  /\ parseTransactionStatusResponse (response httpStatus text body)
     = throwNew (PayStationError (prop body "message") (prop body "statusCode")).
Proof.
  intros Hobj Hreq Hfailed.
  unfold parseInitiatePaymentResponse, parseTransactionStatusResponse.
  rewrite (structure_ok _ _ _ Hobj). cbn [bind dataOf response data].
  rewrite required_check, Hreq, Hfailed. cbn [negb throwIf bind strictEqStr].
  replace (jsstring_eqb (lit "failed") (lit "failed")) with true by reflexivity.
  cbn [throwIf]. unfold throwNew.
  destruct (PayStationError (prop body "message") (prop body "statusCode"));
    split; reflexivity.
Qed.

(** C2, for a message that converts to a string.  A body that is an
    object with truthy [statusCode], [status] and [message] and
    [status === 'failed'] makes both parsers throw a [PayStationError]
    with the body's message (as the [Error] constructor keeps it:
    converted to a string, which leaves a string as it is) and the body's
    [statusCode], whatever the HTTP status. *)
Theorem failed_status_raises (httpStatus : Z) (text : jsstring) (body : JsVal)
        (message : jsstring) :
  isObject body = true ->
  requiredFieldsTruthy body = true ->
  prop body "status" = JStr (lit "failed") ->
  ToString (prop body "message") = Ok message ->
  exists e,
    parseInitiatePaymentResponse (response httpStatus text body) = Throw (Sdk e)
    /\ parseTransactionStatusResponse (response httpStatus text body) = Throw (Sdk e)
    /\ err_name e = PayStationErrorName
    /\ err_message e = message
    /\ (forall s, prop body "message" = JStr s -> err_message e = s)
    /\ err_statusCode e = prop body "statusCode".
Proof.
  intros Hobj Hreq Hfailed Hmessage.
  exists (payStationError message (prop body "statusCode")).
  destruct (failed_status_throws httpStatus text body Hobj Hreq Hfailed) as [-> ->].
  assert (Hmsg : truthy (prop body "message") = true).
  { unfold requiredFieldsTruthy in Hreq.
    apply andb_true_iff in Hreq. tauto. }
  unfold throwNew, PayStationError.
  rewrite (errorMessage_truthy _ Hmsg), Hmessage. cbn [bind].
  repeat split.
  intros s Hs. rewrite Hs in Hmessage. cbn [ToString] in Hmessage.
  injection Hmessage as <-. reflexivity.
Qed.

(** C9.  The required-field check is by truthiness: when any of
    [statusCode], [status], [message] is falsy, present or not, both
    parsers throw the missing-required-fields [ValidationError]. *)
Theorem falsy_required_field_rejected (httpStatus : Z) (text : jsstring) (body : JsVal) :
  isObject body = true ->
  requiredFieldsTruthy body = false ->
  parseInitiatePaymentResponse (response httpStatus text body)
  = Throw (Sdk (validationError missingRequiredFields))
  /\ parseTransactionStatusResponse (response httpStatus text body)
     = Throw (Sdk (validationError missingRequiredFields)).
Proof.
  intros Hobj Hreq.
  unfold parseInitiatePaymentResponse, parseTransactionStatusResponse.
  rewrite (structure_ok _ _ _ Hobj). cbn [bind dataOf response data].
  rewrite required_check, Hreq. split; reflexivity.
Qed.

Lemma whenDefined_string (v : JsVal) :
  canStringIfDefined v = true ->
  whenDefined v ToString = Ok (if isDefined v then Some (textOf v) else None).
Proof.
  unfold canStringIfDefined, whenDefined.
  destruct (isDefined v); cbn [negb orb]; [| reflexivity].
  intros H. rewrite (canString_text v H). reflexivity.
Qed.

Lemma whenDefined_number (v : JsVal) :
  negb (isDefined v) || canNumber v = true ->
  exists converted, whenDefined v ToNumber = Ok converted.
Proof.
  unfold canNumber, whenDefined.
  destruct (isDefined v); cbn [negb orb]; [| intros _; eexists; reflexivity].
  destruct (ToNumber v); [intros _; eexists; reflexivity | discriminate].
Qed.

Lemma whenDefined_value (v : JsVal) :
  whenDefined v (fun x => Ok x) = Ok (if isDefined v then Some v else None).
Proof.
  unfold whenDefined. destruct (isDefined v); reflexivity.
Qed.

(** The record of an accepted nested object whose fields convert. *)
Lemma parseTransactionData_converts (d : JsVal) :
  isObject d = true -> transactionFieldsTruthy d = true ->
  transactionFieldsConvertible d = true ->
  exists transactionAmount,
    parseTransactionData d
    = Ok {| td_invoiceNumber := textOf (prop d "invoiceNumber");
            td_transactionStatus := prop d "transactionStatus";
            td_transactionId := textOf (prop d "transactionId");
            td_paymentAmount := textOf (jsOr (prop d "paymentAmount") (JStr []));
            td_orderDateTime := textOf (jsOr (prop d "orderDateTime") (JStr []));
            td_payerMobileNumber :=
              (if isDefined (prop d "payerMobileNumber")
               then Some (textOf (prop d "payerMobileNumber")) else None);
            td_paymentMethod :=
              (if isDefined (prop d "paymentMethod")
               then Some (prop d "paymentMethod") else None);
            td_reference :=
              (if isDefined (prop d "reference")
               then Some (textOf (prop d "reference")) else None);
            td_checkoutItems :=
              (if isDefined (prop d "checkoutItems")
               then Some (textOf (prop d "checkoutItems")) else None);
            td_transactionAmount := transactionAmount;
            td_transactionDate :=
              (if isDefined (prop d "transactionDate")
               then Some (textOf (prop d "transactionDate")) else None);
            td_requestAmount :=
              (if isDefined (prop d "requestAmount")
               then Some (textOf (prop d "requestAmount")) else None) |}.
Proof.
  intros Hobj Hfields Hconv. unfold parseTransactionData.
  assert (Hformat : negb (truthy d) || negb (JsType_eqb (typeof d) TObject) = false)
    by (destruct d; simpl in Hobj |- *; congruence).
  rewrite Hformat. cbn [throwIf bind].
  unfold transactionFieldsTruthy in Hfields.
  apply andb_true_iff in Hfields. destruct Hfields as [Hfields H3].
  apply andb_true_iff in Hfields. destruct Hfields as [H1 H2].
  rewrite H1, H2, H3. cbn [negb orb throwIf bind].
  unfold transactionFieldsConvertible in Hconv.
  rewrite !andb_true_iff in Hconv.
  destruct Hconv
    as (((((((((Cinvoice & Cid) & Camount) & Cdate) & Cmobile) & Creference)
           & Citems) & Cnumber) & Ctransaction) & Crequest).
  destruct (whenDefined_number _ Cnumber) as [amount Hamount].
  exists amount.
  rewrite (canString_text _ Cinvoice), (canString_text _ Cid),
    (canString_text _ Camount), (canString_text _ Cdate).
  cbn [bind].
  rewrite (whenDefined_string _ Cmobile), whenDefined_value. cbn [bind].
  rewrite (whenDefined_string _ Creference). cbn [bind].
  rewrite (whenDefined_string _ Citems). cbn [bind].
  rewrite Hamount. cbn [bind].
  rewrite (whenDefined_string _ Ctransaction). cbn [bind].
  rewrite (whenDefined_string _ Crequest). reflexivity.
Qed.

Lemma parseTransactionData_ok (d : JsVal) :
  isObject d = true -> transactionFieldsTruthy d = true ->
  transactionFieldsConvertible d = true ->
  exists t, parseTransactionData d = Ok t.
Proof.
  intros Hobj Hfields Hconv.
  destruct (parseTransactionData_converts d Hobj Hfields Hconv) as [amount ->].
  eauto.
Qed.

Lemma parseTransactionData_rejects (d : JsVal) :
  truthy d = true ->
  isObject d = false \/ transactionFieldsTruthy d = false ->
  exists message,
    parseTransactionData d = Throw (Sdk (validationError message))
    /\ (message = lit "Invalid transaction data format"
        \/ message = lit "Invalid transaction data: missing required fields").
Proof.
  intros Htruthy Hbad. unfold parseTransactionData. rewrite Htruthy.
  destruct (isObject d) eqn:Hobj.
  - destruct Hbad as [Hbad | Hbad]; [discriminate |].
    assert (Htype : JsType_eqb (typeof d) TObject = true)
      by (destruct d; simpl in Hobj |- *; congruence).
    rewrite Htype. cbn [negb orb throwIf bind].
    unfold transactionFieldsTruthy in Hbad.
    assert (Hcheck : negb (truthy (prop d "invoiceNumber"))
                     || negb (truthy (prop d "transactionStatus"))
                     || negb (truthy (prop d "transactionId")) = true).
    { destruct (truthy (prop d "invoiceNumber")),
        (truthy (prop d "transactionStatus")),
        (truthy (prop d "transactionId")); simpl in Hbad |- *; congruence. }
    rewrite Hcheck. eexists. split; [reflexivity | auto].
  - assert (Htype : JsType_eqb (typeof d) TObject = false)
      by (destruct d; simpl in Hobj, Htruthy |- *; congruence).
    rewrite Htype. eexists. split; [reflexivity | auto].
Qed.

(** Both parsers up to the conversion of the optional fields, for a body
    that is accepted and not failed. *)
Lemma parsers_not_failed (httpStatus : Z) (text : jsstring) (body : JsVal) :
  isObject body = true ->
  requiredFieldsTruthy body = true ->
  strictEqStr (prop body "status") (lit "failed") = false ->
  requiredFieldsConvertible body = true ->
  parseInitiatePaymentResponse (response httpStatus text body)
  = (paymentAmount <- whenDefined (prop body "paymentAmount") ToString ;;
     invoiceNumber <- whenDefined (prop body "invoiceNumber") ToString ;;
     paymentUrl <- whenDefined (prop body "paymentUrl") ToString ;;
     Ok {| ipr_statusCode := textOf (prop body "statusCode");
           ipr_status := prop body "status";
           ipr_message := textOf (prop body "message");
           ipr_paymentAmount := paymentAmount;
           ipr_invoiceNumber := invoiceNumber;
           ipr_paymentUrl := paymentUrl |})
  /\ parseTransactionStatusResponse (response httpStatus text body)
     = (transaction <-
          (if truthy (prop body "data") then
             parsed <- parseTransactionData (prop body "data") ;;
             Ok (Some parsed)
           else Ok None) ;;
        Ok {| tsr_statusCode := textOf (prop body "statusCode");
              tsr_status := prop body "status";
              tsr_message := textOf (prop body "message");
              tsr_data := transaction |}).
Proof.
  intros Hobj Hreq Hnot Hconv.
  unfold parseInitiatePaymentResponse, parseTransactionStatusResponse.
  rewrite (structure_ok _ _ _ Hobj). cbn [bind dataOf response data].
  rewrite required_check, Hreq, Hnot. cbn [negb throwIf bind].
  unfold requiredFieldsConvertible in Hconv.
  apply andb_true_iff in Hconv. destruct Hconv as [Hcode Hmessage].
  rewrite (canString_text _ Hcode), (canString_text _ Hmessage).
  split; reflexivity.
Qed.

(** C5, as the code has it.  With the top-level body valid and not failed
    (its [statusCode] and [message] converting to strings),
    [parseTransactionStatusResponse] throws a [ValidationError] when the
    nested [data] is truthy and is not an object, or is an object in which
    [invoiceNumber], [transactionStatus] or [transactionId] is absent (or
    falsy); when the nested [data] is missing (or falsy) it throws nothing
    and the result has no [data]. *)
Theorem bad_transaction_data_rejected (httpStatus : Z) (text : jsstring) (body : JsVal) :
  isObject body = true ->
  requiredFieldsTruthy body = true ->
  strictEqStr (prop body "status") (lit "failed") = false ->
  requiredFieldsConvertible body = true ->
  (truthy (prop body "data") = true ->
   isObject (prop body "data") = false
   \/ transactionFieldsTruthy (prop body "data") = false ->
   exists message,
     parseTransactionStatusResponse (response httpStatus text body)
     = Throw (Sdk (validationError message))
     /\ (message = lit "Invalid transaction data format"
         \/ message = lit "Invalid transaction data: missing required fields"))
  /\ (truthy (prop body "data") = false ->
      exists r,
        parseTransactionStatusResponse (response httpStatus text body) = Ok r
        /\ tsr_data r = None).
Proof.
  intros Hobj Hreq Hnot Hconv.
  destruct (parsers_not_failed httpStatus text body Hobj Hreq Hnot Hconv) as [_ ->].
  split.
  - intros Htruthy Hbad.
    destruct (parseTransactionData_rejects _ Htruthy Hbad) as (message & Hparse & Hmsg).
    exists message. split; [| exact Hmsg].
    rewrite Htruthy, Hparse. reflexivity.
  - intros Hfalsy. rewrite Hfalsy. cbn [bind].
    eexists. split; reflexivity.
Qed.


Lemma jsOr_extract (r : HttpResponse) (default : jsstring) :
  errorMessage (jsOr (extractErrorMessage r) (JStr default))
  = Ok (messageOr (data r) default).
Proof.
  unfold extractErrorMessage, messageOr, usableMessage.
  destruct (data r) as [| | b | x | s | elems | fields]; cbn [truthy andb isObject];
    try reflexivity; try (destruct b; reflexivity);
    try (destruct x; reflexivity); try (destruct s; reflexivity);
    cbn [typeof JsType_eqb andb];
    match goal with
    | |- context [truthy (prop ?o "message")] =>
        destruct (truthy (prop o "message")); [| reflexivity];
        destruct (ToString (prop o "message")) as [[| c text] | t]; reflexivity
    end.
Qed.

(** C3, as the code has it.  For an HTTP status of 400 or more,
    [parseErrorResponse] throws an [AuthenticationError] on 401 and 403,
    a [ValidationError] on 400 and a [PayStationError] otherwise; the
    message is the body's when the body is an object whose [message] is
    truthy and converts to a string that is not empty, else the default;
    the authentication and generic errors carry the HTTP status as code. *)
Theorem error_response_mapping (r : HttpResponse) :
  (400 <= status r)%Z ->
  exists e,
    parseErrorResponse (Some r) = Throw (Sdk e)
    /\ (status r = 401%Z \/ status r = 403%Z ->
        err_name e = AuthenticationErrorName
        /\ err_message e = messageOr (data r) (lit "Authentication failed")
        /\ err_statusCode e = JStr (statusToString (status r)))
    /\ (status r = 400%Z ->
        err_name e = ValidationErrorName
        /\ err_message e = messageOr (data r) (lit "Invalid request parameters"))
    /\ (status r <> 400%Z -> status r <> 401%Z -> status r <> 403%Z ->
        err_name e = PayStationErrorName
        /\ err_message e
           = messageOr (data r)
               (lit "HTTP " ++ statusToString (status r) ++ lit ": " ++ statusText r)
        /\ err_statusCode e = JStr (statusToString (status r))).
Proof.
  intros _. unfold parseErrorResponse.
  destruct ((status r =? 401)%Z || (status r =? 403)%Z) eqn:Hauth.
  - unfold throwNew, AuthenticationError. rewrite jsOr_extract. cbn [bind].
    eexists. split; [reflexivity |].
    cbn [authenticationError err_name err_message err_statusCode].
    apply orb_true_iff in Hauth. rewrite !Z.eqb_eq in Hauth.
    repeat split; intros; lia.
  - apply orb_false_iff in Hauth. rewrite !Z.eqb_neq in Hauth.
    destruct (status r =? 400)%Z eqn:Hbad.
    + unfold throwNew, ValidationError. rewrite jsOr_extract. cbn [bind].
      eexists. split; [reflexivity |].
      cbn [validationError err_name err_message err_statusCode].
      apply Z.eqb_eq in Hbad.
      repeat split; intros; lia.
    + unfold throwNew, PayStationError. rewrite jsOr_extract. cbn [bind].
      eexists. split; [reflexivity |].
      cbn [payStationError err_name err_message err_statusCode].
      apply Z.eqb_neq in Hbad.
      repeat split; intros; lia.
Qed.

(** *** The configuration manager *)


(** *** The validation order *)

Lemma bind_assoc {A B C} (c : Result A) (k : A -> Result B) (h : B -> Result C) :
  bind (bind c k) h = bind c (fun a => bind (k a) h).
Proof. destruct c; reflexivity. Qed.

Lemma bind_ret (c : Result unit) : (c ;; Ok tt) = c.
Proof. destruct c as [[] |]; reflexivity. Qed.

(** The validation is its checks, run in the order of the rules. *)
Lemma validate_as_checks (params : JsVal) :
  validateInitiatePaymentParams params = runAll (map (checkOf params) rules).
Proof.
  unfold validateInitiatePaymentParams, rules. cbn [map runAll checkOf].
  rewrite bind_ret, !bind_assoc. reflexivity.
Qed.

(** Run in order, checks that each decide their rule report the first
    rule violated. *)
Lemma first_failure (params : JsVal) (rs : list Rule) :
  decidesInOrder params rs ->
  match find (fun r => negb (holds params r)) rs with
  | None => runAll (map (checkOf params) rs) = Ok tt
  | Some r => exists e, runAll (map (checkOf params) rs) = Throw (Sdk e) /\ identifies e r
  end.
Proof.
  induction rs as [| r rs IH]; cbn [find map runAll decidesInOrder].
  - reflexivity.
  - intros [[Hyes Hno] Hrest].
    destruct (holds params r) eqn:Hr; cbn [negb].
    + rewrite (Hyes eq_refl). cbn [bind]. apply IH, Hrest. reflexivity.
    + destruct (Hno eq_refl) as (e & He & Hid).
      exists e. rewrite He. split; [reflexivity | exact Hid].
Qed.

Lemma not_gt_zero_le (x : spec_float) :
  x <> S754_nan -> SFltb (S754_zero false) x = false ->
  SFleb x (S754_zero false) = true.
Proof.
  destruct x as [s | s | | s m e]; try destruct s; unfold SFltb, SFleb; simpl; congruence.
Qed.

Lemma ge_zero_not_lt (x : spec_float) :
  SFleb (S754_zero false) x = true -> SFltb x (S754_zero false) = false.
Proof.
  destruct x as [s | s | | s m e]; try destruct s; unfold SFltb, SFleb; simpl; congruence.
Qed.

Lemma not_ge_zero_lt (x : spec_float) :
  x <> S754_nan -> SFleb (S754_zero false) x = false ->
  SFltb x (S754_zero false) = true.
Proof.
  destruct x as [s | s | | s m e]; try destruct s; unfold SFltb, SFleb; simpl; congruence.
Qed.

Lemma isNaN_false (x : spec_float) : isNaN (JNum x) = false -> x <> S754_nan.
Proof. destruct x; simpl; congruence. Qed.

Ltac thrown :=
  eexists; split; [reflexivity |]; split; [reflexivity |];
  cbn [messagesOf In validationError err_message]; auto.

Lemma string_rule_decided (v : JsVal) (f : string) (r : Rule) :
  In (lit f ++ lit " is required and must be a string") (messagesOf r) ->
  In (lit f ++ lit " cannot be empty or whitespace only") (messagesOf r) ->
  (nonBlankString v = true -> validateRequiredString v f = Ok tt)
  /\ (nonBlankString v = false ->
      exists e, validateRequiredString v f = Throw (Sdk e) /\ identifies e r).
Proof.
  intros Htype Hblank. unfold validateRequiredString, identifies.
  destruct v; cbn [nonBlankString typeof JsType_eqb negb throwIf bind trimmedEmpty];
    try (split; [discriminate |]; intros _; eexists; split; [reflexivity |];
         split; [reflexivity | exact Htype]).
  destruct (Nat.eqb (List.length (trim s)) 0); cbn [negb throwIf]; split;
    try discriminate; try reflexivity.
  intros _. eexists. split; [reflexivity |]. split; [reflexivity | exact Hblank].
Qed.

Lemma optional_number_decided (v : JsVal) (typeMessage rangeMessage : string) (r : Rule) :
  isNaN v = false ->
  In (lit typeMessage) (messagesOf r) -> In (lit rangeMessage) (messagesOf r) ->
  let check :=
    if isDefined v then
      throwIf (negb (JsType_eqb (typeof v) TNumber))
        (ValidationError (JStr (lit typeMessage))) ;;
      throwIf (ltZero v) (ValidationError (JStr (lit rangeMessage)))
    else Ok tt in
  (negb (isDefined v) || nonNegativeNumber v = true -> check = Ok tt)
  /\ (negb (isDefined v) || nonNegativeNumber v = false ->
      exists e, check = Throw (Sdk e) /\ identifies e r).
Proof.
  intros Hnan Htype Hrange. unfold identifies.
  destruct v;
    cbn [isDefined negb orb nonNegativeNumber typeof JsType_eqb throwIf bind ltZero];
    try (split; [discriminate |]; intros _; eexists; split; [reflexivity |];
         split; [reflexivity | exact Htype]).
  - split; [reflexivity | discriminate].
  - apply isNaN_false in Hnan. split.
    + intros H. rewrite (ge_zero_not_lt _ H). reflexivity.
    + intros H. rewrite (not_ge_zero_lt _ Hnan H).
      eexists. split; [reflexivity |]. split; [reflexivity | exact Hrange].
Qed.

(** Each check decides its rule, on parameters that are an object or
    absent and have no [NaN] in a numeric field; the check of the email
    pattern does once [customerEmail] is known to be a string. *)
Lemma check_decides (params : JsVal) (r : Rule) :
  isAbsent params = true \/ truthy params = true ->
  isNaN (prop params "paymentAmount") = false ->
  isNaN (prop params "payWithCharge") = false ->
  isNaN (prop params "emi") = false ->
  (r = RuleEmail -> holds params (RuleString "customerEmail") = true) ->
  decides params r.
Proof.
  intros Hshape Hamount Hcharge Hemi Hemail.
  unfold decides. destruct r; cbn [holds checkOf].
  - destruct Hshape as [Habs | Htruthy].
    + rewrite Habs. split; [discriminate |]. intros _.
      destruct params; try discriminate Habs; unfold identifies; thrown.
    + rewrite Htruthy.
      destruct params; try discriminate Htruthy; cbn [isAbsent negb throwIf];
        (split; [reflexivity | discriminate]).
  - apply string_rule_decided; cbn [messagesOf In]; auto.
  - unfold identifies.
    destruct (prop params "paymentAmount") as [| | b | x | s | l | l];
      cbn [positiveNumber typeof JsType_eqb negb throwIf bind leZero];
      try (split; [discriminate |]; intros _; thrown).
    apply isNaN_false in Hamount. split.
    + intros H. rewrite (gt_zero_not_le x H). reflexivity.
    + intros H. rewrite (not_gt_zero_le x Hamount H). thrown.
  - apply (optional_number_decided _ "payWithCharge must be a number"
             "payWithCharge cannot be negative"); cbn [messagesOf In]; auto.
  - apply (optional_number_decided _ "emi must be a number"
             "emi cannot be negative"); cbn [messagesOf In]; auto.
  - specialize (Hemail eq_refl). cbn [holds] in Hemail.
    destruct (prop params "customerEmail") as [| | | | s | |];
      try discriminate Hemail.
    unfold isValidEmail, throwUnless. cbn [ToString bind].
    destruct (regex_test emailRegex s); cbn [negb throwIf];
      split; try discriminate; try reflexivity. intros _. unfold identifies. thrown.
  - destruct (isValidUrl (prop params "callbackUrl")); cbn [negb throwIf];
      split; try discriminate; try reflexivity. intros _. unfold identifies. thrown.
Qed.

(** X1.  The validation order: on parameters that are an object or absent and
    have no [NaN] in a numeric field, [validateInitiatePaymentParams]
    throws a [ValidationError] naming the earliest rule violated, and
    throws nothing when every rule holds. *)
Theorem validation_order (params : JsVal) :
  isAbsent params = true \/ truthy params = true ->
  isNaN (prop params "paymentAmount") = false ->
  isNaN (prop params "payWithCharge") = false ->
  isNaN (prop params "emi") = false ->
  match firstViolated params with
  | None => validateInitiatePaymentParams params = Ok tt
  | Some r =>
      exists e, validateInitiatePaymentParams params = Throw (Sdk e) /\ identifies e r
  end.
Proof.
  intros Hshape Hamount Hcharge Hemi.
  rewrite validate_as_checks. unfold firstViolated.
  apply first_failure. unfold rules. cbn [decidesInOrder].
  repeat (split; [apply check_decides; (assumption || discriminate || auto) | intros ?]).
  exact I.
Qed.

(** C1 fails on [NaN].  Whatever the other (valid) fields are (they pass
    validation with some amount, and the optional fields sent convert to
    strings), a [paymentAmount] of [NaN] violates the rule "a number
    strictly greater than 0", yet validation throws nothing and a manager
    the constructor returned builds the request. *)
Theorem nan_amount_accepted (cfg : JsVal) (cm : ConfigManager) (x0 : spec_float)
        (others : list (jsstring * JsVal)) :
  newConfigManager cfg = Ok cm ->
  validateInitiatePaymentParams (withAmount x0 others) = Ok tt ->
  optionalsConvertible (withAmount x0 others) = true ->
  holds (withAmount S754_nan others) RuleAmount = false
  /\ validateInitiatePaymentParams (withAmount S754_nan others) = Ok tt
  /\ exists request,
       buildInitiatePaymentRequest cm (withAmount S754_nan others) = Ok request.
Proof.
  intros Hcm Hothers Hopt.
  pose proof (validate_withAmount x0 S754_nan others Hothers) as Hnan.
  cbn [SFleb SFcompare throwIf] in Hnan.
  split; [reflexivity |]. split; [exact Hnan |].
  rewrite <- (optionalsConvertible_withAmount x0 S754_nan) in Hopt.
  rewrite (build_valid cfg cm _ Hcm Hnan Hopt). eauto.
Qed.

End Properties.
(* ================================================================= *)
(** ** Further properties of the builder, the parser and the facade *)

Section RegexProperties.

Lemma cat_inv (r1 r2 : regex) (s : jsstring) :
  matches (RCat r1 r2) s ->
  exists s1 s2, s = s1 ++ s2 /\ matches r1 s1 /\ matches r2 s2.
Proof.
  intros H. inversion H; subst. eauto.
Qed.

Lemma alt_inv (r1 r2 : regex) (s : jsstring) :
  matches (RAlt r1 r2) s -> matches r1 s \/ matches r2 s.
Proof.
  intros H. inversion H; subst; auto.
Qed.

Lemma nullable_matches (r : regex) : nullable r = true <-> matches r [].
Proof.
  induction r as [| | p | r1 IH1 r2 IH2 | r1 IH1 r2 IH2 | r IH]; cbn [nullable].
  - split; [discriminate | intros H; inversion H].
  - split; [intros _; constructor | reflexivity].
  - split; [discriminate | intros H; inversion H].
  - rewrite andb_true_iff, IH1, IH2. split.
    + intros [H1 H2]. exact (MCat _ _ [] [] H1 H2).
    + intros H. apply cat_inv in H. destruct H as (s1 & s2 & Heq & H1 & H2).
      symmetry in Heq. destruct (app_eq_nil _ _ Heq) as [-> ->]. auto.
  - rewrite orb_true_iff, IH1, IH2. split.
    + intros [H | H]; [apply MAltL | apply MAltR]; exact H.
    + apply alt_inv.
  - split; [intros _; constructor | reflexivity].
Qed.

(** A non-empty match of a star starts with a non-empty match of its body. *)
Lemma star_cons (r : regex) (s : jsstring) :
  matches (RStar r) s ->
  forall c t, s = c :: t ->
  exists s1 s2, t = s1 ++ s2 /\ matches r (c :: s1) /\ matches (RStar r) s2.
Proof.
  intros H. remember (RStar r) as star eqn:Hstar.
  induction H as [| | | | | r' | r' s1 s2 H1 _ H2 IH2]; try discriminate Hstar.
  - intros c t Heq. discriminate Heq.
  - injection Hstar as ->. intros c t Heq.
    destruct s1 as [| c1 s1].
    + apply (IH2 eq_refl c t Heq).
    + cbn [app] in Heq. injection Heq as -> <-.
      exists s1, s2. auto.
Qed.

Lemma deriv_matches (r : regex) (c : N) (s : jsstring) :
  matches (deriv c r) s <-> matches r (c :: s).
Proof.
  revert s.
  induction r as [| | p | r1 IH1 r2 IH2 | r1 IH1 r2 IH2 | r IH]; intros s; cbn [deriv].
  - split; intros H; inversion H.
  - split; intros H; inversion H.
  - destruct (p c) eqn:Hp.
    + split; intros H; inversion H; subst.
      * constructor. exact Hp.
      * constructor.
    + split; intros H; inversion H; subst. congruence.
  - assert (Hcat : matches (RCat (deriv c r1) r2) s ->
                   matches (RCat r1 r2) (c :: s)).
    { intros H. apply cat_inv in H. destruct H as (s1 & s2 & -> & H1 & H2).
      apply IH1 in H1. exact (MCat _ _ (c :: s1) s2 H1 H2). }
    assert (Hsplit : matches (RCat r1 r2) (c :: s) ->
                     matches (RCat (deriv c r1) r2) s
                     \/ (matches r1 [] /\ matches r2 (c :: s))).
    { intros H. apply cat_inv in H. destruct H as (s1 & s2 & Heq & H1 & H2).
      destruct s1 as [| c1 s1].
      - right. cbn [app] in Heq. subst. auto.
      - left. cbn [app] in Heq. injection Heq as <- ->.
        apply MCat; [apply IH1; exact H1 | exact H2]. }
    destruct (nullable r1) eqn:Hnull.
    + split.
      * intros H. apply alt_inv in H. destruct H as [H | H]; [auto |].
        apply (MCat _ _ [] (c :: s)); [apply nullable_matches, Hnull | apply IH2; assumption].
      * intros H. destruct (Hsplit H) as [H' | [_ H']].
        -- apply MAltL. exact H'.
        -- apply MAltR. apply IH2. exact H'.
    + split; [exact Hcat |].
      intros H. destruct (Hsplit H) as [H' | [H' _]]; [exact H' |].
      apply nullable_matches in H'. congruence.
  - split; intros H; apply alt_inv in H; destruct H as [H | H];
      [apply MAltL, IH1 | apply MAltR, IH2 | apply MAltL, IH1 | apply MAltR, IH2];
      assumption.
  - split.
    + intros H. apply cat_inv in H. destruct H as (s1 & s2 & -> & H1 & H2).
      apply IH in H1. exact (MStarApp _ (c :: s1) s2 H1 H2).
    + intros H. destruct (star_cons r _ H c s eq_refl) as (s1 & s2 & -> & H1 & H2).
      apply MCat; [apply IH; exact H1 | exact H2].
Qed.

(** The matcher decides the language of the expression. *)
Lemma regex_test_matches (r : regex) (s : jsstring) :
  regex_test r s = true <-> matches r s.
Proof.
  revert r. induction s as [| c s IH]; intros r; cbn [regex_test].
  - apply nullable_matches.
  - rewrite IH. apply deriv_matches.
Qed.

Lemma star_class (p : N -> bool) (s : jsstring) :
  matches (RStar (RClass p)) s <-> forallb p s = true.
Proof.
  split.
  - intros H. remember (RStar (RClass p)) as star eqn:Hstar.
    induction H as [| | | | | r' | r' s1 s2 H1 _ H2 IH2]; try discriminate Hstar.
    + reflexivity.
    + injection Hstar as ->. inversion H1 as [| q c Hc | | | | |]; subst.
      cbn [app forallb]. rewrite (IH2 eq_refl), Hc. reflexivity.
  - induction s as [| c s IH]; cbn [forallb]; intros H.
    + constructor.
    + apply andb_true_iff in H. destruct H as [Hc Hs].
      apply (MStarApp _ [c] s); [constructor; exact Hc | apply IH, Hs].
Qed.

Lemma plus_class (p : N -> bool) (s : jsstring) :
  matches (RPlus (RClass p)) s <-> s <> [] /\ forallb p s = true.
Proof.
  unfold RPlus. split.
  - intros H. apply cat_inv in H. destruct H as (s1 & s2 & -> & H1 & H2).
    inversion H1 as [| q c Hc | | | | |]; subst. apply star_class in H2.
    cbn [app forallb]. split; [discriminate |]. rewrite H2, Hc. reflexivity.
  - intros [Hne H]. destruct s as [| c s]; [congruence |].
    cbn [forallb] in H. apply andb_true_iff in H. destruct H as [Hc Hs].
    apply (MCat _ _ [c] s); [constructor; exact Hc | apply star_class, Hs].
Qed.

Lemma class_single (p : N -> bool) (s : jsstring) :
  matches (RClass p) s <-> exists c, s = [c] /\ p c = true.
Proof.
  split.
  - intros H. inversion H; subst. eauto.
  - intros (c & -> & Hc). constructor. exact Hc.
Qed.

Lemma emailRegex_language (s : jsstring) : matches emailRegex s <-> emailShape s.
Proof.
  unfold emailRegex, emailShape. split.
  - intros H.
    apply cat_inv in H. destruct H as (a & s1 & -> & Ha & H).
    apply cat_inv in H. destruct H as (at_ & s2 & -> & Hat & H).
    apply cat_inv in H. destruct H as (b & s3 & -> & Hb & H).
    apply cat_inv in H. destruct H as (dot & c & -> & Hdot & Hc).
    apply plus_class in Ha, Hb, Hc.
    apply class_single in Hat, Hdot.
    destruct Hat as (x & -> & Hx), Hdot as (y & -> & Hy).
    unfold isAt in Hx. unfold isDot in Hy.
    apply N.eqb_eq in Hx, Hy. subst x y.
    exists a, b, c. cbn [app]. tauto.
  - intros (a & b & c & -> & Ha & Hb & Hc & Fa & Fb & Fc).
    apply (MCat _ _ a (64%N :: b ++ 46%N :: c)); [apply plus_class; auto |].
    apply (MCat _ _ [64%N] (b ++ 46%N :: c)); [constructor; reflexivity |].
    apply (MCat _ _ b (46%N :: c)); [apply plus_class; auto |].
    apply (MCat _ _ [46%N] c); [constructor; reflexivity |].
    apply plus_class; auto.
Qed.

End RegexProperties.

Section EmailProperties.
Context {host : Host}.

(** X5.  [isValidEmail] accepts exactly the strings of the form
    [local@domain.tld] with three non-empty parts free of white space and
    [@] (the domain and the local part may hold further dots). *)
Theorem email_accepted_shape (s : jsstring) :
  isValidEmail (JStr s) = Ok true <-> emailShape s.
Proof.
  unfold isValidEmail. cbn [ToString bind].
  rewrite <- emailRegex_language, <- regex_test_matches.
  split; [intros H; injection H as ->; reflexivity | intros ->; reflexivity].
Qed.

Lemma notSpaceNorAt_spec (c : N) :
  notSpaceNorAt c = true -> isWhiteSpace c = false /\ c <> 64%N.
Proof.
  unfold notSpaceNorAt, isAt. rewrite negb_true_iff, orb_false_iff, N.eqb_neq. auto.
Qed.

Lemma count_none (l : jsstring) :
  forallb notSpaceNorAt l = true -> count_occ N.eq_dec l 64%N = 0%nat.
Proof.
  induction l as [| c l IH]; cbn [forallb count_occ]; [reflexivity |].
  intros H. apply andb_true_iff in H. destruct H as [Hc Hl].
  apply notSpaceNorAt_spec in Hc. destruct Hc as [_ Hc].
  destruct (N.eq_dec c 64%N); [congruence | auto].
Qed.

Lemma no_space (l : jsstring) :
  forallb notSpaceNorAt l = true -> existsb isWhiteSpace l = false.
Proof.
  induction l as [| c l IH]; cbn [forallb existsb]; [reflexivity |].
  intros H. apply andb_true_iff in H. destruct H as [Hc Hl].
  apply notSpaceNorAt_spec in Hc. destruct Hc as [-> _]. auto.
Qed.

(** X6.  An accepted email address holds exactly one [@] and no white space at
    all, and neither starts nor ends with the [@]. *)
Theorem email_accepted_facts (s : jsstring) :
  isValidEmail (JStr s) = Ok true ->
  count_occ N.eq_dec s 64%N = 1%nat
  /\ existsb isWhiteSpace s = false
  /\ (forall c, last s c <> 64%N)
  /\ exists c t, s = c :: t /\ c <> 64%N.
Proof.
  unfold isValidEmail. cbn [ToString bind].
  intros Htest. injection Htest as Htest. revert Htest.
  rewrite regex_test_matches, emailRegex_language.
  intros (a & b & c & -> & Ha & Hb & Hc & Fa & Fb & Fc).
  repeat split.
  - rewrite count_occ_app. cbn [count_occ].
    destruct (N.eq_dec 64 64) as [_ | Hne]; [| congruence].
    rewrite count_occ_app. cbn [count_occ].
    destruct (N.eq_dec 46 64) as [Heq | _]; [discriminate Heq |].
    rewrite !count_none by assumption. reflexivity.
  - rewrite existsb_app. cbn [existsb]. rewrite existsb_app. cbn [existsb].
    rewrite !no_space by assumption. reflexivity.
  - intros d.
    destruct (exists_last Hc) as (c' & x & ->).
    replace (a ++ 64%N :: b ++ 46%N :: c' ++ [x])
      with ((a ++ 64%N :: b ++ 46%N :: c') ++ [x])
      by (rewrite <- !app_assoc; cbn [app]; rewrite <- app_assoc; reflexivity).
    rewrite last_last.
    rewrite forallb_app in Fc. apply andb_true_iff in Fc. destruct Fc as [_ Fx].
    cbn [forallb] in Fx. rewrite andb_true_r in Fx.
    apply notSpaceNorAt_spec in Fx. tauto.
  - destruct a as [| x a]; [congruence |].
    exists x, (a ++ 64%N :: b ++ 46%N :: c). split; [reflexivity |].
    cbn [forallb] in Fa. apply andb_true_iff in Fa. destruct Fa as [Fx _].
    apply notSpaceNorAt_spec in Fx. tauto.
Qed.

End EmailProperties.

Section BuilderProperties.
Context {host : Host}.

Lemma dropWhile_nil {A} (p : A -> bool) (l : list A) :
  dropWhile p l = [] <-> forallb p l = true.
Proof.
  induction l as [| x l IH]; cbn [dropWhile forallb]; [tauto |].
  destruct (p x); cbn [andb]; [exact IH |].
  split; discriminate.
Qed.

Lemma rev_nil {A} (l : list A) : rev l = [] <-> l = [].
Proof.
  split; [| intros ->; reflexivity].
  intros H. apply (f_equal (@rev A)) in H. rewrite rev_involutive in H. exact H.
Qed.

Lemma forallb_reverse {A} (p : A -> bool) (l : list A) :
  forallb p (rev l) = forallb p l.
Proof.
  induction l as [| x l IH]; cbn [rev forallb]; [reflexivity |].
  rewrite forallb_app, IH. cbn [forallb]. rewrite andb_true_r. apply andb_comm.
Qed.

Lemma forallb_dropWhile {A} (p : A -> bool) (l : list A) :
  forallb p (dropWhile p l) = true -> forallb p l = true.
Proof.
  induction l as [| x l IH]; cbn [dropWhile forallb]; [auto |].
  destruct (p x) eqn:Hx; cbn [andb]; [exact IH |].
  cbn [forallb]. rewrite Hx. discriminate.
Qed.

(** [s.trim()] is empty exactly when [s] is made of white space only. *)
Lemma trim_nil (s : jsstring) : trim s = [] <-> forallb isWhiteSpace s = true.
Proof.
  unfold trim. split.
  - intros H. apply rev_nil, dropWhile_nil in H. rewrite forallb_reverse in H.
    apply forallb_dropWhile, H.
  - intros H. apply dropWhile_nil in H. rewrite H. reflexivity.
Qed.

Lemma trimmedEmpty_forallb (s : jsstring) :
  trimmedEmpty (JStr s) = forallb isWhiteSpace s.
Proof.
  cbn [trimmedEmpty].
  destruct (forallb isWhiteSpace s) eqn:H.
  - apply trim_nil in H. rewrite H. reflexivity.
  - apply Nat.eqb_neq. intros Hlen. apply length_zero_iff_nil, trim_nil in Hlen.
    congruence.
Qed.

Lemma validateRequired_cases (value : JsVal) (fieldName : string) :
  validateRequiredString value fieldName
  = match value with
    | JStr s =>
        if forallb isWhiteSpace s
        then Throw (Sdk (validationError
                           (lit fieldName ++ lit " cannot be empty or whitespace only")))
        else Ok tt
    | _ => Throw (Sdk (validationError
                         (lit fieldName ++ lit " is required and must be a string")))
    end.
Proof.
  unfold validateRequiredString.
  destruct value; try reflexivity.
  cbn [typeof JsType_eqb negb throwIf bind].
  rewrite trimmedEmpty_forallb. reflexivity.
Qed.

Lemma toUSVString_wellFormed_bounded (n : nat) (s : jsstring) :
  (List.length s <= n)%nat -> wellFormed s = true -> toUSVString s = s.
Proof.
  revert s. induction n as [| n IH]; intros s Hlen Hwf.
  - destruct s; [reflexivity | cbn [List.length] in Hlen; lia].
  - destruct s as [| c t]; [reflexivity |].
    cbn [wellFormed toUSVString] in *. cbn [List.length] in Hlen.
    destruct (isHighSurrogate c).
    + destruct t as [| d t']; [discriminate Hwf |].
      apply andb_true_iff in Hwf. destruct Hwf as [Hd Hwf].
      rewrite Hd. cbn [List.length] in Hlen.
      rewrite (IH t') by (assumption || lia). reflexivity.
    + apply andb_true_iff in Hwf. destruct Hwf as [Hc Hwf].
      apply negb_true_iff in Hc. rewrite Hc.
      rewrite (IH t) by (assumption || lia). reflexivity.
Qed.

(** A string without unpaired surrogates is sent as it is. *)
Lemma toUSVString_wellFormed (s : jsstring) :
  wellFormed s = true -> toUSVString s = s.
Proof.
  apply (toUSVString_wellFormed_bounded (List.length s)). lia.
Qed.

Lemma status_request_of (cfg : JsVal) (cm : ConfigManager) (identifier : JsVal)
      (fieldName path key : string) :
  newConfigManager cfg = Ok cm ->
  (validateRequiredString identifier fieldName ;;
   baseUrl <- getBaseUrl cm ;;
   base <- ToString baseUrl ;;
   formData <- append [] "merchant_id" (getMerchantId cm) ;;
   formData <- append formData "password" (getPassword cm) ;;
   formData <- append formData key identifier ;;
   Ok {| url := base ++ lit path; method := POST; headers := formHeaders;
         body := formData |})
  = statusRequestOf cm identifier fieldName path key.
Proof.
  intros Hcm. unfold statusRequestOf.
  destruct (validateRequiredString identifier fieldName) as [[] | t] eqn:Hvalid.
  - cbn [bind]. rewrite (status_build cfg cm _ _ Hcm Hvalid).
    rewrite validateRequired_cases in Hvalid.
    destruct identifier as [| | | | s | |]; try discriminate Hvalid.
    destruct (forallb isWhiteSpace s); [discriminate Hvalid | reflexivity].
  - cbn [bind]. rewrite validateRequired_cases in Hvalid.
    destruct identifier as [| | | | s | |];
      try (injection Hvalid as <-; reflexivity).
    destruct (forallb isWhiteSpace s); [| discriminate Hvalid].
    injection Hvalid as <-. reflexivity.
Qed.

Lemma status_request_cases (cfg : JsVal) (cm : ConfigManager) (identifier : JsVal) :
  newConfigManager cfg = Ok cm ->
  buildTransactionStatusRequest cm identifier
  = statusRequestOf cm identifier "invoiceNumber" "/transaction-status" "invoice_number".
Proof.
  intros Hcm. rewrite <- (status_request_of cfg cm _ _ _ _ Hcm). reflexivity.
Qed.

Lemma status_by_id_cases (cfg : JsVal) (cm : ConfigManager) (identifier : JsVal) :
  newConfigManager cfg = Ok cm ->
  buildTransactionStatusByIdRequest cm identifier
  = statusRequestOf cm identifier "transactionId" "/v2/transaction-status" "trx_id".
Proof.
  intros Hcm. rewrite <- (status_request_of cfg cm _ _ _ _ Hcm). reflexivity.
Qed.

(** X3.  The two status builders of a constructed manager, on every
    input: an identifier that is not a string, or is made of white space
    only, is refused with a [ValidationError]; any other goes, not
    trimmed, after the credentials to the endpoint of the builder, each
    value converted to a USVString as form data is (an unpaired surrogate
    becomes U+FFFD, any other string is unchanged). *)
Theorem status_requests_decided (cfg : JsVal) (cm : ConfigManager)
        (identifier : JsVal) :
  newConfigManager cfg = Ok cm ->
  buildTransactionStatusRequest cm identifier
  = statusRequestOf cm identifier "invoiceNumber" "/transaction-status" "invoice_number"
  /\ buildTransactionStatusByIdRequest cm identifier
     = statusRequestOf cm identifier "transactionId" "/v2/transaction-status" "trx_id".
Proof.
  intros Hcm.
  split; [apply (status_request_cases cfg) | apply (status_by_id_cases cfg)];
    exact Hcm.
Qed.

(** X4.  An identifier with surrounding white space passes and is sent with
    it, when it has no unpaired surrogate. *)
Theorem status_identifier_not_trimmed (cfg : JsVal) (cm : ConfigManager)
        (s : jsstring) :
  newConfigManager cfg = Ok cm ->
  forallb isWhiteSpace s = false ->
  wellFormed s = true ->
  exists request,
    buildTransactionStatusRequest cm (JStr (32%N :: s ++ [32%N])) = Ok request
    /\ In (lit "invoice_number", 32%N :: s ++ [32%N]) (body request).
Proof.
  intros Hcm Hws Hwf. rewrite (status_request_cases cfg cm _ Hcm).
  unfold statusRequestOf.
  cbn [forallb isWhiteSpace]. rewrite forallb_app, Hws.
  replace (isWhiteSpace 32) with true by reflexivity. cbn [andb].
  eexists. split; [reflexivity |]. cbn [body In]. right; right; left.
  f_equal. apply (toUSVString_wellFormed (32%N :: s ++ [32%N])).
  assert (Happ : forall a b, wellFormed b = true -> wellFormed a = true ->
                             wellFormed (a ++ b) = true).
  { intros a b Hb. remember (List.length a) as n eqn:Hn.
    revert a Hn. induction n as [n IH] using lt_wf_ind. intros a Hn Ha.
    destruct a as [| c a]; [exact Hb |].
    cbn [app wellFormed] in *. destruct (isHighSurrogate c).
    - destruct a as [| d a]; [discriminate Ha |].
      cbn [app]. apply andb_true_iff in Ha. destruct Ha as [Hd Ha].
      rewrite Hd. cbn [andb]. apply (IH (List.length a)); [| reflexivity | exact Ha].
      subst n. cbn [List.length]. lia.
    - apply andb_true_iff in Ha. destruct Ha as [Hc Ha]. rewrite Hc. cbn [andb].
      apply (IH (List.length a)); [| reflexivity | exact Ha].
      subst n. cbn [List.length]. lia. }
  change (32%N :: s ++ [32%N]) with ([32%N] ++ s ++ [32%N]).
  apply Happ; [apply Happ; [reflexivity | exact Hwf] | reflexivity].
Qed.

(** X2.  [validateRequiredString] accepts exactly the strings that hold a code
    unit that is not white space; every other value is refused with a
    [ValidationError]. *)
Theorem required_string_decided (value : JsVal) (fieldName : string) :
  (validateRequiredString value fieldName = Ok tt
   <-> exists s, value = JStr s
                 /\ existsb (fun c => negb (isWhiteSpace c)) s = true)
  /\ (validateRequiredString value fieldName <> Ok tt ->
      exists e, validateRequiredString value fieldName = Throw (Sdk e)
                /\ err_name e = ValidationErrorName).
Proof.
  rewrite validateRequired_cases.
  assert (Hex : forall s, existsb (fun c => negb (isWhiteSpace c)) s
                          = negb (forallb isWhiteSpace s)).
  { induction s as [| c s IH]; cbn [existsb forallb]; [reflexivity |].
    rewrite IH. destruct (isWhiteSpace c); reflexivity. }
  destruct value; try (split; [split; [discriminate | intros (s & Hs & _); discriminate Hs]
                              | intros _; eexists; split; reflexivity]).
  destruct (forallb isWhiteSpace s) eqn:Hws.
  - split.
    + split; [discriminate |]. intros (s' & Hs & Hex'). injection Hs as <-.
      rewrite Hex, Hws in Hex'. discriminate Hex'.
    + intros _. eexists. split; reflexivity.
  - split.
    + split; [| reflexivity]. intros _. exists s. rewrite Hex, Hws. auto.
    + congruence.
Qed.

End BuilderProperties.

Section BodyProperties.
Context {host : Host}.

(** X7.  The body of the initiate-payment request a constructed manager
    builds from valid parameters (whose optional fields sent convert to
    strings) is the one the table of fields gives: credentials first,
    then the required fields, then the optional fields sent, every value
    being the string form of the parameter, converted to a USVString as
    form data is. *)
Theorem initiate_body_values (cfg : JsVal) (cm : ConfigManager) (params : JsVal) :
  newConfigManager cfg = Ok cm ->
  validateInitiatePaymentParams params = Ok tt ->
  optionalsConvertible params = true ->
  exists request,
    buildInitiatePaymentRequest cm params = Ok request
    /\ body request = expectedBody cm params
    /\ (forall f, In f optionalFields -> sent params f = true ->
          exists text, ToString (prop params (of_field f)) = Ok text
                       /\ In (lit (of_key f), toUSVString text) (body request)).
Proof.
  intros Hcm Hvalid Hopt. rewrite (build_valid cfg cm params Hcm Hvalid Hopt).
  eexists. split; [reflexivity |]. split; [reflexivity |].
  intros f Hf Hsent. cbn [body].
  unfold optionalsConvertible in Hopt. rewrite forallb_forall in Hopt.
  specialize (Hopt f Hf). rewrite Hsent in Hopt. cbn [negb orb] in Hopt.
  exists (textOf (prop params (of_field f))).
  split; [exact (canString_text _ Hopt) |].
  unfold expectedBody. apply in_or_app. right.
  unfold optionalEntries. apply in_flat_map. exists f.
  split; [exact Hf |]. rewrite Hsent. left. reflexivity.
Qed.

Lemma allKeys_NoDup :
  NoDup (requiredKeys ++ map (fun f => lit (of_key f)) optionalFields).
Proof.
  vm_compute.
  repeat (constructor; [cbn [In]; intuition discriminate |]).
  constructor.
Qed.

(** Leaving out the optional fields that are not sent keeps their keys
    distinct. *)
Lemma sent_keys_distinct (params : JsVal) (fields : list OptionalField) :
  NoDup (map (fun f => lit (of_key f)) fields) ->
  NoDup (map (fun f => lit (of_key f)) (filter (sent params) fields)).
Proof.
  induction fields as [| field fields IH]; cbn [map filter]; intros Hdistinct;
    [exact Hdistinct |].
  apply NoDup_cons_iff in Hdistinct. destruct Hdistinct as [Hfresh Hrest].
  destruct (sent params field); cbn [map]; [| exact (IH Hrest)].
  apply NoDup_cons; [| exact (IH Hrest)].
  intros Hin. apply Hfresh.
  apply in_map_iff in Hin. destruct Hin as (other & Hkey & Hother).
  apply filter_In in Hother. destruct Hother as [Hother _].
  apply in_map_iff. exists other. split; assumption.
Qed.

Lemma sentKeys_NoDup (params : JsVal) : NoDup (sentKeys params).
Proof.
  unfold sentKeys.
  pose proof allKeys_NoDup as H.
  apply NoDup_app_remove_r in H as Hreq.
  apply NoDup_app_remove_l in H as Hopt.
  apply NoDup_app.
  - exact Hreq.
  - apply sent_keys_distinct, Hopt.
  - intros k Hk Hin. apply in_map_iff in Hin. destruct Hin as (f & <- & Hf).
    apply filter_In in Hf. destruct Hf as [Hf _].
    exact (optional_key_not_required f Hf Hk).
Qed.

Lemma append_inv (fd fd' : URLSearchParams) (k : string) (v : JsVal) :
  append fd k v = Ok fd' ->
  exists text, ToString v = Ok text /\ fd' = fd ++ [(lit k, toUSVString text)].
Proof.
  unfold append. intros H. apply bind_ok in H. destruct H as (text & Htext & H).
  injection H as <-. eauto.
Qed.

Lemma appendIf_inv (c : bool) (fd fd' : URLSearchParams) (k : string) (v : JsVal) :
  appendIf c fd k v = Ok fd' ->
  exists sentEntries,
    fd' = fd ++ sentEntries
    /\ map fst sentEntries = if c then [lit k] else [].
Proof.
  destruct c; cbn [appendIf]; intros H.
  - apply append_inv in H. destruct H as (text & _ & ->). eauto.
  - injection H as <-. exists []. rewrite app_nil_r. auto.
Qed.

Lemma appendNumber_inv (fd fd' : URLSearchParams) (k : string) (v : JsVal) :
  (if isDefined v
   then text <- callToString v ;; append fd k (JStr text)
   else Ok fd) = Ok fd' ->
  exists sentEntries,
    fd' = fd ++ sentEntries
    /\ map fst sentEntries = if isDefined v then [lit k] else [].
Proof.
  destruct (isDefined v); intros H.
  - apply bind_ok in H. destruct H as (text & _ & H).
    apply append_inv in H. destruct H as (text' & _ & ->). eauto.
  - injection H as <-. exists []. rewrite app_nil_r. auto.
Qed.

(** What a request that was built tells: the parameters passed
    validation, the URL is under the base URL, the body starts with the
    credentials and has the keys sent. *)
Lemma build_ok_inv (cm : ConfigManager) (params : JsVal) (request : HttpRequest) :
  buildInitiatePaymentRequest cm params = Ok request ->
  validateInitiatePaymentParams params = Ok tt
  /\ map fst (body request) = sentKeys params
  /\ exists baseUrl base merchantId password rest,
       getBaseUrl cm = Ok baseUrl /\ ToString baseUrl = Ok base
       /\ ToString (getMerchantId cm) = Ok merchantId
       /\ ToString (getPassword cm) = Ok password
       /\ url request = base ++ lit "/initiate-payment"
       /\ body request
          = (lit "merchant_id", toUSVString merchantId)
              :: (lit "password", toUSVString password) :: rest.
Proof.
  unfold buildInitiatePaymentRequest. intros H.
  apply seq_ok in H. destruct H as [Hvalid H].
  apply bind_ok in H. destruct H as (baseUrl & HbaseUrl & H).
  apply bind_ok in H. destruct H as (base & Hbase & H).
  apply bind_ok in H. destruct H as (fd1 & E1 & H).
  apply bind_ok in H. destruct H as (fd2 & E2 & H).
  apply bind_ok in H. destruct H as (fd3 & E3 & H).
  apply bind_ok in H. destruct H as (amount & _ & H).
  apply bind_ok in H. destruct H as (fd4 & E4 & H).
  apply bind_ok in H. destruct H as (fd5 & E5 & H).
  apply bind_ok in H. destruct H as (fd6 & E6 & H).
  apply bind_ok in H. destruct H as (fd7 & E7 & H).
  apply bind_ok in H. destruct H as (fd8 & E8 & H).
  apply bind_ok in H. destruct H as (fd9 & E9 & H).
  apply bind_ok in H. destruct H as (fd10 & E10 & H).
  apply bind_ok in H. destruct H as (fd11 & E11 & H).
  apply bind_ok in H. destruct H as (fd12 & E12 & H).
  apply bind_ok in H. destruct H as (fd13 & E13 & H).
  apply bind_ok in H. destruct H as (fd14 & E14 & H).
  apply bind_ok in H. destruct H as (fd15 & E15 & H).
  apply bind_ok in H. destruct H as (fd16 & E16 & H).
  apply bind_ok in H. destruct H as (fd17 & E17 & H).
  injection H as <-. cbn [url body].
  apply append_inv in E1, E2, E3, E4, E5, E6, E7, E8.
  destruct E1 as (m & Hm & ->), E2 as (p & Hp & ->), E3 as (t3 & _ & ->),
    E4 as (t4 & _ & ->), E5 as (t5 & _ & ->), E6 as (t6 & _ & ->),
    E7 as (t7 & _ & ->), E8 as (t8 & _ & ->).
  apply appendIf_inv in E9, E11, E12, E13, E14, E15, E16.
  apply appendNumber_inv in E10, E17.
  destruct E9 as (l9 & -> & K9), E10 as (l10 & -> & K10), E11 as (l11 & -> & K11),
    E12 as (l12 & -> & K12), E13 as (l13 & -> & K13), E14 as (l14 & -> & K14),
    E15 as (l15 & -> & K15), E16 as (l16 & -> & K16), E17 as (l17 & -> & K17).
  split; [exact Hvalid |]. split.
  - rewrite sentKeys_unfold, !map_app, K9, K10, K11, K12, K13, K14, K15, K16, K17.
    cbn [map fst app]. unfold requiredKeys. cbn [map].
    rewrite <- !app_assoc. reflexivity.
  - exists baseUrl, base, m, p. eexists.
    repeat (split; [eassumption || reflexivity |]).
    rewrite <- !app_assoc. cbn [app]. reflexivity.
Qed.

(** X8.  No key is sent twice: the keys of a built initiate-payment body are
    pairwise distinct. *)
Theorem initiate_body_keys_distinct (cm : ConfigManager) (params : JsVal)
        (request : HttpRequest) :
  buildInitiatePaymentRequest cm params = Ok request ->
  NoDup (map fst (body request)).
Proof.
  intros Hbuild.
  destruct (build_ok_inv cm params request Hbuild) as (_ & Hkeys & _).
  rewrite Hkeys. apply sentKeys_NoDup.
Qed.

End BodyProperties.

Section ManagerProperties.
Context {host : Host}.

(** X9.  Every request built with a constructed manager goes to the host of
    the configured environment, at one of the three fixed paths, and
    starts its body with the configured credentials, each converted to a
    USVString as form data is. *)
Theorem constructed_manager_requests (cfg : JsVal) (cm : ConfigManager)
        (input : JsVal) (request : HttpRequest) :
  newConfigManager cfg = Ok cm ->
  buildInitiatePaymentRequest cm input = Ok request
  \/ buildTransactionStatusRequest cm input = Ok request
  \/ buildTransactionStatusByIdRequest cm input = Ok request ->
  exists base path merchantId password rest,
    url request = base ++ path
    /\ ((prop cfg "environment" = JStr Environment_SANDBOX
         /\ base = lit "https://sandbox.paystation.com.bd/api")
        \/ (prop cfg "environment" = JStr Environment_LIVE
            /\ base = lit "https://api.paystation.com.bd"))
    /\ In path [lit "/initiate-payment"; lit "/transaction-status";
                lit "/v2/transaction-status"]
    /\ prop cfg "merchantId" = JStr merchantId
    /\ prop cfg "password" = JStr password
    /\ body request
       = (lit "merchant_id", toUSVString merchantId)
           :: (lit "password", toUSVString password) :: rest.
Proof.
  intros Hnew Hbuilt.
  destruct (constructed_manager cfg cm Hnew)
    as ((m & Hgm & Hm) & (p & Hgp & Hp) & Hbase).
  assert (Henv : exists base,
             getBaseUrl cm = Ok (JStr base)
             /\ ((prop cfg "environment" = JStr Environment_SANDBOX
                  /\ base = lit "https://sandbox.paystation.com.bd/api")
                 \/ (prop cfg "environment" = JStr Environment_LIVE
                     /\ base = lit "https://api.paystation.com.bd"))).
  { assert (Hsame : getEnvironment cm = prop cfg "environment").
    { unfold newConfigManager in Hnew. apply seq_ok in Hnew.
      destruct Hnew as [_ Hnew]. injection Hnew as <-.
      unfold getEnvironment. cbn [config]. apply prop_spread. }
    rewrite <- Hsame.
    destruct Hbase as [[He Hu] | [He Hu]]; eexists; (split; [exact Hu |]); auto. }
  destruct Henv as (base & Hurl & Henv).
  assert (Htext : baseUrlText cm = base).
  { unfold baseUrlText. rewrite Hurl. reflexivity. }
  destruct Hbuilt as [Hbuilt | [Hbuilt | Hbuilt]].
  - destruct (build_ok_inv cm input request Hbuilt)
      as (_ & _ & baseUrl & base' & m' & p' & rest & Hb & Hb' & Hm' & Hp' & Hu & Hbody).
    rewrite Hurl in Hb. injection Hb as <-. cbn [ToString] in Hb'.
    injection Hb' as <-.
    rewrite Hgm in Hm'. rewrite Hgp in Hp'. cbn [ToString] in Hm', Hp'.
    injection Hm' as <-. injection Hp' as <-.
    exists base, (lit "/initiate-payment"), m, p, rest.
    cbn [In]. repeat split; auto.
  - rewrite (status_request_cases cfg cm _ Hnew) in Hbuilt.
    unfold statusRequestOf in Hbuilt.
    destruct input as [| | | | s | |]; try discriminate Hbuilt.
    destruct (forallb isWhiteSpace s); [discriminate Hbuilt |].
    injection Hbuilt as <-.
    exists base, (lit "/transaction-status"), m, p. eexists.
    cbn [url body]. unfold entry, textOf. rewrite Htext, Hgm, Hgp.
    cbn [ToString In]. repeat split; auto.
  - rewrite (status_by_id_cases cfg cm _ Hnew) in Hbuilt.
    unfold statusRequestOf in Hbuilt.
    destruct input as [| | | | s | |]; try discriminate Hbuilt.
    destruct (forallb isWhiteSpace s); [discriminate Hbuilt |].
    injection Hbuilt as <-.
    exists base, (lit "/v2/transaction-status"), m, p. eexists.
    cbn [url body]. unfold entry, textOf. rewrite Htext, Hgm, Hgp.
    cbn [ToString In]. repeat split; auto.
Qed.

End ManagerProperties.

Section ParserProperties.
Context {host : Host}.

Lemma truthy_nonempty (s : jsstring) : s <> [] -> truthy (JStr s) = true.
Proof. destruct s; [congruence | reflexivity]. Qed.

(** X10.  Round trip: a payment-initiation result written as a JSON body parses
    back to itself, whatever the HTTP status, when its [statusCode] and
    [message] are not empty and its [status] is truthy and not ['failed']. *)
Theorem initiate_round_trip (httpStatus : Z) (text : jsstring)
        (r : InitiatePaymentResponse) :
  ipr_statusCode r <> [] ->
  ipr_message r <> [] ->
  truthy (ipr_status r) = true ->
  strictEqStr (ipr_status r) (lit "failed") = false ->
  parseInitiatePaymentResponse (response httpStatus text (encodeInitiatePaymentResponse r))
  = Ok r.
Proof.
  destruct r as [sc st msg pa inv pu]. cbn [ipr_statusCode ipr_message ipr_status].
  intros Hsc Hmsg Hst Hnot.
  unfold parseInitiatePaymentResponse.
  rewrite structure_ok by reflexivity. cbn [bind dataOf response data].
  assert (Hp1 : prop (encodeInitiatePaymentResponse
                        {| ipr_statusCode := sc; ipr_status := st; ipr_message := msg;
                           ipr_paymentAmount := pa; ipr_invoiceNumber := inv;
                           ipr_paymentUrl := pu |}) "statusCode" = JStr sc) by reflexivity.
  assert (Hp2 : prop (encodeInitiatePaymentResponse
                        {| ipr_statusCode := sc; ipr_status := st; ipr_message := msg;
                           ipr_paymentAmount := pa; ipr_invoiceNumber := inv;
                           ipr_paymentUrl := pu |}) "status" = st) by reflexivity.
  assert (Hp3 : prop (encodeInitiatePaymentResponse
                        {| ipr_statusCode := sc; ipr_status := st; ipr_message := msg;
                           ipr_paymentAmount := pa; ipr_invoiceNumber := inv;
                           ipr_paymentUrl := pu |}) "message" = JStr msg) by reflexivity.
  rewrite Hp1, Hp2, Hp3, Hst, Hnot, !truthy_nonempty by assumption.
  cbn [negb orb throwIf bind ToString].
  destruct pa, inv, pu; reflexivity.
Qed.

Lemma transaction_round_trip (t : TransactionData) :
  transactionRecordOk t ->
  parseTransactionData (encodeTransactionData t) = Ok t.
Proof.
  destruct t as [inv ts tid pa odt pmn pm ref ci ta tdate ra].
  unfold transactionRecordOk.
  cbn [td_invoiceNumber td_transactionId td_transactionStatus td_paymentMethod].
  intros (Hinv & Htid & Hts & Hpm).
  unfold parseTransactionData.
  cbn [encodeTransactionData truthy typeof JsType_eqb negb orb throwIf bind].
  match goal with
  | |- context [prop ?o "invoiceNumber"] =>
      replace (prop o "invoiceNumber") with (JStr inv) by reflexivity;
      replace (prop o "transactionStatus") with ts by reflexivity;
      replace (prop o "transactionId") with (JStr tid) by reflexivity;
      replace (prop o "paymentAmount") with (JStr pa) by reflexivity;
      replace (prop o "orderDateTime") with (JStr odt) by reflexivity
  end.
  rewrite Hts, !truthy_nonempty by assumption.
  cbn [negb orb throwIf bind ToString].
  assert (Hor : forall s, ToString (jsOr (JStr s) (JStr [])) = Ok s)
    by (intros [| c s]; reflexivity).
  rewrite !Hor. cbn [bind].
  destruct pm as [[] |]; try (exfalso; apply Hpm; reflexivity);
    destruct pmn, ref, ci, ta, tdate, ra;
    cbn [td_payerMobileNumber td_paymentMethod td_reference td_checkoutItems
         td_transactionAmount td_transactionDate td_requestAmount option_map];
    reflexivity.
Qed.

(** X11.  Round trip: a transaction-status result written as a JSON body, with
    or without a transaction record, parses back to itself. *)
Theorem status_round_trip (httpStatus : Z) (text : jsstring)
        (r : TransactionStatusResponse) :
  tsr_statusCode r <> [] ->
  tsr_message r <> [] ->
  truthy (tsr_status r) = true ->
  strictEqStr (tsr_status r) (lit "failed") = false ->
  (forall t, tsr_data r = Some t -> transactionRecordOk t) ->
  parseTransactionStatusResponse
    (response httpStatus text (encodeTransactionStatusResponse r))
  = Ok r.
Proof.
  destruct r as [sc st msg d]. cbn [tsr_statusCode tsr_message tsr_status tsr_data].
  intros Hsc Hmsg Hst Hnot Hdata.
  unfold parseTransactionStatusResponse.
  rewrite structure_ok by reflexivity. cbn [bind dataOf response data].
  match goal with
  | |- context [prop ?o "statusCode"] =>
      replace (prop o "statusCode") with (JStr sc) by reflexivity;
      replace (prop o "status") with st by reflexivity;
      replace (prop o "message") with (JStr msg) by reflexivity
  end.
  rewrite Hst, Hnot, !truthy_nonempty by assumption.
  cbn [negb orb throwIf bind ToString].
  destruct d as [t |].
  - match goal with
    | |- context [prop ?o "data"] =>
        replace (prop o "data") with (encodeTransactionData t) by reflexivity
    end.
    rewrite (transaction_round_trip t (Hdata t eq_refl)).
    reflexivity.
  - reflexivity.
Qed.

(** X12.  A response that is missing, or whose data is not an object (the text
    of a non-JSON reply, a number, [null]), is refused by both parsers
    with a [ValidationError] that tells which of the three it is. *)
Theorem non_object_response_rejected (resp : option HttpResponse) :
  (forall r, resp = Some r -> isObject (data r) = false) ->
  let message :=
    match resp with
    | None => lit "Response is null or undefined"
    | Some r =>
        match data r with
        | JNull | JUndefined => lit "Response data is null or undefined"
        | _ => lit "Response data is not an object"
        end
    end in
  parseInitiatePaymentResponse resp = Throw (Sdk (validationError message))
  /\ parseTransactionStatusResponse resp = Throw (Sdk (validationError message)).
Proof.
  intros Hnot. unfold parseInitiatePaymentResponse, parseTransactionStatusResponse.
  destruct resp as [r |]; [| split; reflexivity].
  specialize (Hnot r eq_refl). cbn [validateResponseStructure].
  destruct (data r); try discriminate Hnot; split; reflexivity.
Qed.

(** X13.  What [parseTransactionData] makes of an accepted object whose
    converted fields convert: the status is copied as it is (it is not
    checked against the four known states), the identifiers are their
    string forms, and a [paymentAmount] or [orderDateTime] that is absent
    or falsy (the number 0, [null]) becomes the empty string. *)
Theorem transaction_defaults (d : JsVal) :
  isObject d = true ->
  transactionFieldsTruthy d = true ->
  transactionFieldsConvertible d = true ->
  exists t,
    parseTransactionData d = Ok t
    /\ td_transactionStatus t = prop d "transactionStatus"
    /\ ToString (prop d "invoiceNumber") = Ok (td_invoiceNumber t)
    /\ ToString (prop d "transactionId") = Ok (td_transactionId t)
    /\ (if truthy (prop d "paymentAmount")
        then ToString (prop d "paymentAmount") else Ok [])
       = Ok (td_paymentAmount t)
    /\ (if truthy (prop d "orderDateTime")
        then ToString (prop d "orderDateTime") else Ok [])
       = Ok (td_orderDateTime t).
Proof.
  intros Hobj Hfields Hconv.
  destruct (parseTransactionData_converts d Hobj Hfields Hconv) as [amount ->].
  eexists. split; [reflexivity |].
  cbn [td_transactionStatus td_invoiceNumber td_transactionId td_paymentAmount
       td_orderDateTime].
  unfold transactionFieldsConvertible in Hconv.
  rewrite !andb_true_iff in Hconv.
  destruct Hconv as (((((((((Cinvoice & Cid) & Camount) & Cdate) & _) & _) & _) & _) & _) & _).
  split; [reflexivity |].
  split; [exact (canString_text _ Cinvoice) |].
  split; [exact (canString_text _ Cid) |].
  unfold jsOr in *.
  destruct (truthy (prop d "paymentAmount")), (truthy (prop d "orderDateTime"));
    split; try reflexivity; apply canString_text; assumption.
Qed.

End ParserProperties.

Section FacadeProperties.
Context {host : Host}.

Lemma bind_sdkOnly {A B} (c : Result A) (k : A -> Result B) :
  sdkOnly c -> (forall a, c = Ok a -> sdkOnly (k a)) -> sdkOnly (bind c k).
Proof.
  unfold sdkOnly. destruct c as [a | t]; cbn [bind].
  - intros _ H. exact (H a eq_refl).
  - intros H _ Heq. apply H. injection Heq as ->. reflexivity.
Qed.

Lemma throwIf_sdkOnly (cond : bool) (constructed : Result SdkError) :
  (exists e, constructed = Ok e) -> sdkOnly (throwIf cond constructed).
Proof.
  intros [e ->]. unfold sdkOnly. destruct cond; discriminate.
Qed.

Lemma ok_sdkOnly {A} (a : A) : sdkOnly (Ok a).
Proof. unfold sdkOnly. discriminate. Qed.

Lemma sdk_sdkOnly {A} (e : SdkError) : sdkOnly (@Throw A (Sdk e)).
Proof. unfold sdkOnly. discriminate. Qed.

Lemma ToString_sdkOnly (v : JsVal) : canString v = true -> sdkOnly (ToString v).
Proof.
  intros H. rewrite (canString_text v H). apply ok_sdkOnly.
Qed.

Lemma whenDefined_sdkOnly (v : JsVal) :
  canStringIfDefined v = true -> sdkOnly (whenDefined v ToString).
Proof.
  intros H. rewrite (whenDefined_string v H). apply ok_sdkOnly.
Qed.

Ltac sdk_only :=
  repeat first
    [ apply throwIf_sdkOnly; eexists; reflexivity
    | apply ok_sdkOnly
    | apply bind_sdkOnly; [| intros ? ?]
    | match goal with |- sdkOnly (if ?c then _ else _) => destruct c end ].

Lemma validateRequiredString_sdkOnly (v : JsVal) (f : string) :
  sdkOnly (validateRequiredString v f).
Proof.
  unfold validateRequiredString. sdk_only.
Qed.

Lemma validate_sdkOnly (params : JsVal) :
  sdkOnly (validateInitiatePaymentParams params).
Proof.
  unfold validateInitiatePaymentParams.
  apply bind_sdkOnly; [sdk_only | intros _ _].
  do 3 (apply bind_sdkOnly; [apply validateRequiredString_sdkOnly | intros _ _]).
  apply bind_sdkOnly; [apply validateRequiredString_sdkOnly | intros [] Hemail].
  apply validateRequiredString_ok in Hemail. destruct Hemail as [s Hs]. rewrite Hs.
  unfold throwUnless, isValidEmail. cbn [ToString bind].
  repeat first [ apply validateRequiredString_sdkOnly | progress sdk_only ].
Qed.

Lemma build_initiate_sdkOnly (cfg : JsVal) (cm : ConfigManager) (params : JsVal) :
  newConfigManager cfg = Ok cm ->
  optionalsConvertible params = true ->
  sdkOnly (buildInitiatePaymentRequest cm params).
Proof.
  intros Hcm Hopt.
  destruct (validateInitiatePaymentParams params) as [[] | t] eqn:Hvalid.
  - rewrite (build_valid cfg cm params Hcm Hvalid Hopt). apply ok_sdkOnly.
  - unfold buildInitiatePaymentRequest. rewrite Hvalid. cbn [bind].
    pose proof (validate_sdkOnly params) as H. rewrite Hvalid in H.
    unfold sdkOnly in *. congruence.
Qed.

Lemma statusRequestOf_sdkOnly (cm : ConfigManager) (v : JsVal)
      (fieldName path key : string) :
  sdkOnly (statusRequestOf cm v fieldName path key).
Proof.
  unfold statusRequestOf, sdkOnly.
  destruct v as [| | | | s | |]; try discriminate.
  destruct (forallb isWhiteSpace s); discriminate.
Qed.

Lemma build_status_sdkOnly (cfg : JsVal) (cm : ConfigManager) (v : JsVal) :
  newConfigManager cfg = Ok cm ->
  sdkOnly (buildTransactionStatusRequest cm v)
  /\ sdkOnly (buildTransactionStatusByIdRequest cm v).
Proof.
  intros Hcm.
  rewrite (status_request_cases cfg cm v Hcm), (status_by_id_cases cfg cm v Hcm).
  split; apply statusRequestOf_sdkOnly.
Qed.

Lemma errorMessage_ok (v : JsVal) :
  canString v = true -> exists kept, errorMessage v = Ok kept.
Proof.
  intros H. destruct v; cbn [errorMessage]; try (eexists; reflexivity);
    rewrite (canString_text _ H); eauto.
Qed.

Lemma required_sdkOnly {A} (body : JsVal) (k : jsstring -> jsstring -> Result A) :
  requiredFieldsConvertible body = true ->
  (forall statusCode message, sdkOnly (k statusCode message)) ->
  sdkOnly
    (throwIf (negb (truthy (prop body "statusCode"))
              || negb (truthy (prop body "status"))
              || negb (truthy (prop body "message")))
       (ValidationError (JStr missingRequiredFields)) ;;
     throwIf (strictEqStr (prop body "status") (lit "failed"))
       (PayStationError (prop body "message") (prop body "statusCode")) ;;
     statusCode <- ToString (prop body "statusCode") ;;
     message <- ToString (prop body "message") ;;
     k statusCode message).
Proof.
  intros Hconv Hk. unfold requiredFieldsConvertible in Hconv.
  apply andb_true_iff in Hconv. destruct Hconv as [Hcode Hmessage].
  apply bind_sdkOnly; [sdk_only | intros _ _].
  apply bind_sdkOnly.
  { apply throwIf_sdkOnly. unfold PayStationError.
    destruct (errorMessage_ok _ Hmessage) as [kept ->]. cbn [bind]. eauto. }
  intros _ _.
  apply bind_sdkOnly; [apply ToString_sdkOnly, Hcode | intros statusCode _].
  apply bind_sdkOnly; [apply ToString_sdkOnly, Hmessage | intros message _].
  apply Hk.
Qed.

Lemma parseInitiate_sdkOnly (r : HttpResponse) :
  initiateFieldsConvertible (data r) = true ->
  sdkOnly (parseInitiatePaymentResponse (Some r)).
Proof.
  intros Hconv. unfold initiateFieldsConvertible in Hconv.
  rewrite !andb_true_iff in Hconv.
  destruct Hconv as (((Hrequired & Camount) & Cinvoice) & Curl).
  unfold parseInitiatePaymentResponse. cbn [validateResponseStructure dataOf].
  apply bind_sdkOnly; [sdk_only | intros _ _]. cbn [bind].
  apply (required_sdkOnly (data r)); [exact Hrequired |].
  intros statusCode message.
  rewrite (whenDefined_string _ Camount), (whenDefined_string _ Cinvoice),
    (whenDefined_string _ Curl).
  apply ok_sdkOnly.
Qed.

Lemma parseTransactionData_sdkOnly (d : JsVal) :
  transactionFieldsConvertible d = true -> sdkOnly (parseTransactionData d).
Proof.
  intros Hconv.
  destruct (isObject d) eqn:Hobj.
  - destruct (transactionFieldsTruthy d) eqn:Hfields.
    + destruct (parseTransactionData_ok d Hobj Hfields Hconv) as [t ->].
      apply ok_sdkOnly.
    + assert (Htruthy : truthy d = true)
        by (destruct d; simpl in Hobj |- *; congruence).
      destruct (parseTransactionData_rejects d Htruthy (or_intror Hfields))
        as (message & -> & _).
      apply sdk_sdkOnly.
  - unfold parseTransactionData.
    assert (Hformat : negb (truthy d) || negb (JsType_eqb (typeof d) TObject) = true)
      by (destruct d as [| | [|] | x | [| c s] | |];
          simpl in Hobj |- *; try reflexivity; try discriminate Hobj;
          destruct x; reflexivity).
    rewrite Hformat. apply sdk_sdkOnly.
Qed.

Lemma parseStatus_sdkOnly (r : HttpResponse) :
  statusFieldsConvertible (data r) = true ->
  sdkOnly (parseTransactionStatusResponse (Some r)).
Proof.
  intros Hconv. unfold statusFieldsConvertible in Hconv.
  apply andb_true_iff in Hconv. destruct Hconv as [Hrequired Hnested].
  unfold parseTransactionStatusResponse. cbn [validateResponseStructure dataOf].
  apply bind_sdkOnly; [sdk_only | intros _ _]. cbn [bind].
  apply (required_sdkOnly (data r)); [exact Hrequired |].
  intros statusCode message.
  apply bind_sdkOnly; [| intros; apply ok_sdkOnly].
  destruct (truthy (prop (data r) "data")); [| apply ok_sdkOnly].
  apply bind_sdkOnly; [| intros; apply ok_sdkOnly].
  apply parseTransactionData_sdkOnly, Hnested.
Qed.

Lemma parseErrorResponse_throws (r : HttpResponse) :
  exists e, parseErrorResponse (Some r) = Throw (Sdk e).
Proof.
  unfold parseErrorResponse, throwNew, AuthenticationError, ValidationError,
    PayStationError.
  destruct ((status r =? 401)%Z || (status r =? 403)%Z);
    [rewrite jsOr_extract; cbn [bind]; eauto |].
  destruct (status r =? 400)%Z; rewrite jsOr_extract; cbn [bind]; eauto.
Qed.

Lemma handleHttpErrors_sdkOnly (r : HttpResponse) : sdkOnly (handleHttpErrors (Some r)).
Proof.
  unfold handleHttpErrors.
  destruct (400 <=? status r)%Z; [| apply ok_sdkOnly].
  destruct (parseErrorResponse_throws r) as [e ->]. apply sdk_sdkOnly.
Qed.

(** A non-SDK exception can leave the [try] block only from the transport:
    it threw one, or it resolved to no response. *)
Lemma attempt_type_error {A} (built : Result HttpRequest) (client : HttpClient)
      (parse : option HttpResponse -> Result A) :
  sdkOnly built ->
  (forall request r, client request = Ok (Some r) -> sdkOnly (parse (Some r))) ->
  attempt built client parse = Throw TypeError ->
  exists request,
    built = Ok request
    /\ (client request = Throw TypeError \/ client request = Ok None).
Proof.
  unfold attempt. intros Hbuilt Hparse.
  destruct built as [request | t]; cbn [bind].
  2: { intros H. exfalso. apply Hbuilt. injection H as ->. reflexivity. }
  intros H. exists request. split; [reflexivity |].
  destruct (client request) as [[r |] | t] eqn:Hclient; cbn [bind] in H; auto.
  - exfalso.
    destruct (handleHttpErrors (Some r)) as [[] | t] eqn:Hh; cbn [bind] in H.
    + exact (Hparse request r Hclient H).
    + injection H as ->. exact (handleHttpErrors_sdkOnly r Hh).
  - left. congruence.
Qed.

Lemma rethrowKnown_wrapped {A} (c : Result A) (description : string)
      (e : SdkError) (t : Thrown) :
  rethrowKnown c description = Wrapped e t ->
  c = Throw TypeError /\ t = TypeError
  /\ e = payStationError (lit description) JUndefined.
Proof.
  destruct c as [a | [e' |]]; cbn [rethrowKnown]; try discriminate.
  intros H. injection H as <- <-. auto.
Qed.

(** X14.  With a constructed manager, optional parameters that convert to
    strings and responses whose converted fields convert (as every JSON
    value does, apart from an object with an own [toString] property),
    the facade reports "An unexpected error occurred ..." only for what
    the transport did: whenever a method ends with the wrapping
    [PayStationError], the request was built and the transport threw a
    non-SDK exception or resolved to no response. *)
Theorem unexpected_error_only_from_transport (cfg : JsVal) (cm : ConfigManager)
        (client : HttpClient) (input : JsVal) (e : SdkError) (t : Thrown) :
  newConfigManager cfg = Ok cm ->
  (optionalsConvertible input = true ->
   (forall request r, client request = Ok (Some r) ->
                      initiateFieldsConvertible (data r) = true) ->
   initiatePayment cm client input = Wrapped e t ->
   exists request,
     buildInitiatePaymentRequest cm input = Ok request
     /\ (client request = Throw TypeError \/ client request = Ok None)
     /\ err_name e = PayStationErrorName
     /\ err_message e = lit "An unexpected error occurred during payment initiation")
  /\ ((forall request r, client request = Ok (Some r) ->
                         statusFieldsConvertible (data r) = true) ->
      getTransactionStatus cm client input = Wrapped e t ->
      exists request,
        buildTransactionStatusRequest cm input = Ok request
        /\ (client request = Throw TypeError \/ client request = Ok None)
        /\ err_name e = PayStationErrorName
        /\ err_message e
           = lit "An unexpected error occurred during transaction status check")
  /\ ((forall request r, client request = Ok (Some r) ->
                         statusFieldsConvertible (data r) = true) ->
      getTransactionStatusById cm client input = Wrapped e t ->
      exists request,
        buildTransactionStatusByIdRequest cm input = Ok request
        /\ (client request = Throw TypeError \/ client request = Ok None)
        /\ err_name e = PayStationErrorName
        /\ err_message e
           = lit "An unexpected error occurred during transaction status check by ID").
Proof.
  intros Hcm.
  unfold initiatePayment, getTransactionStatus, getTransactionStatusById.
  split; [| split].
  - intros Hopt Hresp H. apply rethrowKnown_wrapped in H.
    destruct H as (Hthrown & _ & ->).
    apply (attempt_type_error _ client parseInitiatePaymentResponse) in Hthrown.
    + destruct Hthrown as (request & Hb & Hc). exists request. auto.
    + exact (build_initiate_sdkOnly cfg cm input Hcm Hopt).
    + intros request r Hr. apply parseInitiate_sdkOnly, (Hresp request r Hr).
  - intros Hresp H. apply rethrowKnown_wrapped in H.
    destruct H as (Hthrown & _ & ->).
    apply (attempt_type_error _ client parseTransactionStatusResponse) in Hthrown.
    + destruct Hthrown as (request & Hb & Hc). exists request. auto.
    + apply (build_status_sdkOnly cfg cm input Hcm).
    + intros request r Hr. apply parseStatus_sdkOnly, (Hresp request r Hr).
  - intros Hresp H. apply rethrowKnown_wrapped in H.
    destruct H as (Hthrown & _ & ->).
    apply (attempt_type_error _ client parseTransactionStatusResponse) in Hthrown.
    + destruct Hthrown as (request & Hb & Hc). exists request. auto.
    + apply (build_status_sdkOnly cfg cm input Hcm).
    + intros request r Hr. apply parseStatus_sdkOnly, (Hresp request r Hr).
Qed.

Lemma attempt_http_error {A} (built : Result HttpRequest) (client : HttpClient)
      (parse : option HttpResponse -> Result A) (request : HttpRequest)
      (r : HttpResponse) (e : SdkError) :
  built = Ok request -> client request = Ok (Some r) ->
  (400 <= status r)%Z ->
  parseErrorResponse (Some r) = Throw (Sdk e) ->
  attempt built client parse = Throw (Sdk e).
Proof.
  intros -> Hc Hs He. unfold attempt. cbn [bind]. rewrite Hc. cbn [bind handleHttpErrors].
  apply Z.leb_le in Hs. rewrite Hs, He. reflexivity.
Qed.

Lemma attempt_success {A} (built : Result HttpRequest) (client : HttpClient)
      (parse : option HttpResponse -> Result A) (request : HttpRequest)
      (r : HttpResponse) :
  built = Ok request -> client request = Ok (Some r) ->
  (status r < 400)%Z ->
  attempt built client parse = parse (Some r).
Proof.
  intros -> Hc Hs. unfold attempt. cbn [bind]. rewrite Hc. cbn [bind handleHttpErrors].
  apply Z.leb_gt in Hs. rewrite Hs. reflexivity.
Qed.

Lemma attempt_rejected {A} (built : Result HttpRequest) (client : HttpClient)
      (parse : option HttpResponse -> Result A) (request : HttpRequest) (t : Thrown) :
  built = Ok request -> client request = Throw t ->
  attempt built client parse = Throw t.
Proof.
  intros -> Hc. unfold attempt. cbn [bind]. rewrite Hc. reflexivity.
Qed.

Lemma identifier_valid_both (identifier : JsVal) :
  validateInvoiceNumber identifier = Ok tt -> validateTransactionId identifier = Ok tt.
Proof.
  unfold validateInvoiceNumber, validateTransactionId.
  rewrite !validateRequired_cases.
  destruct identifier as [| | | | s | |]; try discriminate.
  destruct (forallb isWhiteSpace s); [discriminate | reflexivity].
Qed.

(** The three requests of a constructed manager for valid input. *)
Lemma built_requests (cfg : JsVal) (cm : ConfigManager) (params identifier : JsVal) :
  newConfigManager cfg = Ok cm ->
  validateInitiatePaymentParams params = Ok tt ->
  optionalsConvertible params = true ->
  validateInvoiceNumber identifier = Ok tt ->
  (exists request, buildInitiatePaymentRequest cm params = Ok request)
  /\ (exists request, buildTransactionStatusRequest cm identifier = Ok request)
  /\ (exists request, buildTransactionStatusByIdRequest cm identifier = Ok request).
Proof.
  intros Hcm Hparams Hopt Hid.
  pose proof (identifier_valid_both identifier Hid) as Hid'.
  split; [| split].
  - rewrite (build_valid cfg cm params Hcm Hparams Hopt). eauto.
  - unfold buildTransactionStatusRequest. rewrite Hid. cbn [bind].
    rewrite (status_build cfg cm _ _ Hcm Hid). eauto.
  - unfold buildTransactionStatusByIdRequest. rewrite Hid'. cbn [bind].
    rewrite (status_build cfg cm _ _ Hcm Hid'). eauto.
Qed.

(** X15.  Invalid input is reported as it is: whatever the transport would
    answer, each method rethrows the [ValidationError] of its builder's
    validation, unchanged. *)
Theorem invalid_input_rethrown (cm : ConfigManager) (client : HttpClient)
        (params identifier : JsVal) (e1 e2 e3 : SdkError) :
  validateInitiatePaymentParams params = Throw (Sdk e1) ->
  validateInvoiceNumber identifier = Throw (Sdk e2) ->
  validateTransactionId identifier = Throw (Sdk e3) ->
  initiatePayment cm client params = Rethrown e1
  /\ getTransactionStatus cm client identifier = Rethrown e2
  /\ getTransactionStatusById cm client identifier = Rethrown e3.
Proof.
  intros H1 H2 H3.
  unfold initiatePayment, getTransactionStatus, getTransactionStatusById,
    buildInitiatePaymentRequest, buildTransactionStatusRequest,
    buildTransactionStatusByIdRequest.
  rewrite H1, H2, H3. repeat split.
Qed.

(** X16.  An HTTP status of 400 or more is never parsed as a result: whatever
    the body (a well-formed success body included), each method rethrows
    the error [parseErrorResponse] makes of the response. *)
Theorem http_error_not_parsed (cfg : JsVal) (cm : ConfigManager)
        (client : HttpClient) (params identifier : JsVal) (r : HttpResponse) :
  newConfigManager cfg = Ok cm ->
  validateInitiatePaymentParams params = Ok tt ->
  optionalsConvertible params = true ->
  validateInvoiceNumber identifier = Ok tt ->
  (forall request, client request = Ok (Some r)) ->
  (400 <= status r)%Z ->
  exists e,
    parseErrorResponse (Some r) = Throw (Sdk e)
    /\ initiatePayment cm client params = Rethrown e
    /\ getTransactionStatus cm client identifier = Rethrown e
    /\ getTransactionStatusById cm client identifier = Rethrown e.
Proof.
  intros Hcm Hparams Hopt Hid Hclient Hstatus.
  destruct (parseErrorResponse_throws r) as [e He]. exists e.
  split; [exact He |].
  destruct (built_requests cfg cm params identifier Hcm Hparams Hopt Hid)
    as ([q1 H1] & [q2 H2] & [q3 H3]).
  unfold initiatePayment, getTransactionStatus, getTransactionStatusById.
  repeat split.
  - fold (attempt (buildInitiatePaymentRequest cm params) client
            parseInitiatePaymentResponse).
    erewrite attempt_http_error; [reflexivity | exact H1 | apply Hclient | exact Hstatus | exact He].
  - fold (attempt (buildTransactionStatusRequest cm identifier) client
            parseTransactionStatusResponse).
    erewrite attempt_http_error; [reflexivity | exact H2 | apply Hclient | exact Hstatus | exact He].
  - fold (attempt (buildTransactionStatusByIdRequest cm identifier) client
            parseTransactionStatusResponse).
    erewrite attempt_http_error; [reflexivity | exact H3 | apply Hclient | exact Hstatus | exact He].
Qed.

Lemma rethrowKnown_parser {A} (c : Result A) (description : string) :
  (forall result, c = Ok result -> rethrowKnown c description = Returned result)
  /\ (forall e, c = Throw (Sdk e) -> rethrowKnown c description = Rethrown e)
  /\ (c = Throw TypeError ->
      rethrowKnown c description
      = Wrapped (payStationError (lit description) JUndefined) TypeError).
Proof.
  split; [| split].
  - intros result ->. reflexivity.
  - intros e ->. reflexivity.
  - intros ->. reflexivity.
Qed.

(** X17.  Below HTTP 400 a method ends as its parser does on the response:
    it returns the parsed result, rethrows the parser's error of the SDK,
    or, when a conversion in the parser throws a [TypeError], wraps it in
    the [PayStationError] of an unexpected error. *)
Theorem success_path_is_parser (cfg : JsVal) (cm : ConfigManager)
        (client : HttpClient) (params identifier : JsVal) (r : HttpResponse) :
  newConfigManager cfg = Ok cm ->
  validateInitiatePaymentParams params = Ok tt ->
  optionalsConvertible params = true ->
  validateInvoiceNumber identifier = Ok tt ->
  (forall request, client request = Ok (Some r)) ->
  (status r < 400)%Z ->
  ((forall result, parseInitiatePaymentResponse (Some r) = Ok result ->
                   initiatePayment cm client params = Returned result)
   /\ (forall e, parseInitiatePaymentResponse (Some r) = Throw (Sdk e) ->
                 initiatePayment cm client params = Rethrown e)
   /\ (parseInitiatePaymentResponse (Some r) = Throw TypeError ->
       initiatePayment cm client params
       = Wrapped (payStationError
                    (lit "An unexpected error occurred during payment initiation")
                    JUndefined) TypeError))
  /\ ((forall result, parseTransactionStatusResponse (Some r) = Ok result ->
                      getTransactionStatus cm client identifier = Returned result
                      /\ getTransactionStatusById cm client identifier = Returned result)
      /\ (forall e, parseTransactionStatusResponse (Some r) = Throw (Sdk e) ->
                    getTransactionStatus cm client identifier = Rethrown e
                    /\ getTransactionStatusById cm client identifier = Rethrown e)
      /\ (parseTransactionStatusResponse (Some r) = Throw TypeError ->
          getTransactionStatus cm client identifier
          = Wrapped (payStationError
                       (lit "An unexpected error occurred during transaction status check")
                       JUndefined) TypeError
          /\ getTransactionStatusById cm client identifier
             = Wrapped (payStationError
                          (lit "An unexpected error occurred during transaction status check by ID")
                          JUndefined) TypeError)).
Proof.
  intros Hcm Hparams Hopt Hid Hclient Hstatus.
  destruct (built_requests cfg cm params identifier Hcm Hparams Hopt Hid)
    as ([q1 B1] & [q2 B2] & [q3 B3]).
  assert (H1 : initiatePayment cm client params
               = rethrowKnown (parseInitiatePaymentResponse (Some r))
                   "An unexpected error occurred during payment initiation").
  { unfold initiatePayment.
    fold (attempt (buildInitiatePaymentRequest cm params) client
            parseInitiatePaymentResponse).
    erewrite attempt_success; [reflexivity | exact B1 | apply Hclient | exact Hstatus]. }
  assert (H2 : getTransactionStatus cm client identifier
               = rethrowKnown (parseTransactionStatusResponse (Some r))
                   "An unexpected error occurred during transaction status check").
  { unfold getTransactionStatus.
    fold (attempt (buildTransactionStatusRequest cm identifier) client
            parseTransactionStatusResponse).
    erewrite attempt_success; [reflexivity | exact B2 | apply Hclient | exact Hstatus]. }
  assert (H3 : getTransactionStatusById cm client identifier
               = rethrowKnown (parseTransactionStatusResponse (Some r))
                   "An unexpected error occurred during transaction status check by ID").
  { unfold getTransactionStatusById.
    fold (attempt (buildTransactionStatusByIdRequest cm identifier) client
            parseTransactionStatusResponse).
    erewrite attempt_success; [reflexivity | exact B3 | apply Hclient | exact Hstatus]. }
  split.
  - rewrite H1. apply rethrowKnown_parser.
  - rewrite H2, H3.
    destruct (rethrowKnown_parser (parseTransactionStatusResponse (Some r))
                "An unexpected error occurred during transaction status check")
      as (Ha & Hb & Hc).
    destruct (rethrowKnown_parser (parseTransactionStatusResponse (Some r))
                "An unexpected error occurred during transaction status check by ID")
      as (Ha' & Hb' & Hc').
    repeat split; auto.
Qed.

(** X18.  A failure of the transport: an error of the SDK (a [NetworkError])
    is rethrown as it is; any other exception is wrapped in a
    [PayStationError] with the fixed description of the method, no status
    code, and the exception as its original error. *)
Theorem transport_failure (cfg : JsVal) (cm : ConfigManager) (client : HttpClient)
        (params identifier : JsVal) (t : Thrown) :
  newConfigManager cfg = Ok cm ->
  validateInitiatePaymentParams params = Ok tt ->
  optionalsConvertible params = true ->
  validateInvoiceNumber identifier = Ok tt ->
  (forall request, client request = Throw t) ->
  initiatePayment cm client params
  = transportOutcome t "An unexpected error occurred during payment initiation"
  /\ getTransactionStatus cm client identifier
     = transportOutcome t "An unexpected error occurred during transaction status check"
  /\ getTransactionStatusById cm client identifier
     = transportOutcome t
         "An unexpected error occurred during transaction status check by ID".
Proof.
  intros Hcm Hparams Hopt Hid Hclient.
  destruct (built_requests cfg cm params identifier Hcm Hparams Hopt Hid)
    as ([q1 B1] & [q2 B2] & [q3 B3]).
  unfold initiatePayment, getTransactionStatus, getTransactionStatusById.
  repeat split.
  - fold (attempt (buildInitiatePaymentRequest cm params) client
            parseInitiatePaymentResponse).
    erewrite attempt_rejected; [| exact B1 | apply Hclient].
    destruct t; reflexivity.
  - fold (attempt (buildTransactionStatusRequest cm identifier) client
            parseTransactionStatusResponse).
    erewrite attempt_rejected; [| exact B2 | apply Hclient].
    destruct t; reflexivity.
  - fold (attempt (buildTransactionStatusByIdRequest cm identifier) client
            parseTransactionStatusResponse).
    erewrite attempt_rejected; [| exact B3 | apply Hclient].
    destruct t; reflexivity.
Qed.

End FacadeProperties.

(* ================================================================= *)
(** ** The properties on the examples *)

Lemma body_keys_witness :
  validateInitiatePaymentParams (host := exampleHost)
    (exampleParams (num 100) [("currency", str "BDT"); ("emi", num 1)]%string) = Ok tt
  /\ exists request,
       buildInitiatePaymentRequest (host := exampleHost) exampleManager
         (exampleParams (num 100) [("currency", str "BDT"); ("emi", num 1)]%string)
       = Ok request
       /\ map fst (body request)
          = sentKeys (exampleParams (num 100) [("currency", str "BDT"); ("emi", num 1)]%string)
       /\ (forall f, In f optionalFields ->
             present (exampleParams (num 100) [("currency", str "BDT"); ("emi", num 1)]%string) f = false ->
             ~ In (lit (of_key f)) (map fst (body request))).
Proof.
  split; [reflexivity |].
  apply (body_keys (host := exampleHost) exampleConfig); reflexivity.
Defined.

(** C4 as stated fails: [currency: ''] is present, yet the body has the
    required keys only, not the specified key set with [currency]. *)
Lemma body_keys_counterexample :
  validateInitiatePaymentParams (host := exampleHost)
    (exampleParams (num 100) [("currency", JStr [])]%string) = Ok tt
  /\ present (exampleParams (num 100) [("currency", JStr [])]%string)
       {| of_field := "currency"; of_key := "currency"; of_numeric := false |} = true
  /\ specifiedKeys (exampleParams (num 100) [("currency", JStr [])]%string)
     = requiredKeys ++ [lit "currency"]
  /\ match buildInitiatePaymentRequest (host := exampleHost) exampleManager
             (exampleParams (num 100) [("currency", JStr [])]%string) with
     | Ok request => map fst (body request) = requiredKeys
     | Throw _ => False
     end.
Proof.
  repeat split.
Qed.

Lemma payment_amount_boundary_witness :
  buildInitiatePaymentRequest (host := exampleHost) exampleManager
    (withAmount (S754_finite true 5 0) exampleOthers)
  = Throw (Sdk (validationError (lit "paymentAmount must be greater than 0")))
  /\ buildInitiatePaymentRequest (host := exampleHost) exampleManager
       (withAmount (S754_zero false) exampleOthers)
     = Throw (Sdk (validationError (lit "paymentAmount must be greater than 0")))
  /\ exists request,
       buildInitiatePaymentRequest (host := exampleHost) exampleManager
         (withAmount (S754_finite false 1 0) exampleOthers)
       = Ok request.
Proof.
  apply (payment_amount_boundary (host := exampleHost) exampleConfig exampleManager
           exampleOthers
           (S754_finite false 100 0) (S754_finite true 5 0) (S754_finite false 1 0));
    reflexivity.
Defined.

Lemma fixed_endpoints_witness :
  exists baseUrl,
    getBaseUrl (host := exampleHost) exampleManager = Ok (JStr baseUrl)
    /\ (exists r, buildInitiatePaymentRequest (host := exampleHost) exampleManager
                    (exampleParams (num 100) []) = Ok r
                  /\ url r = baseUrl ++ lit "/initiate-payment"
                  /\ method r = POST
                  /\ headers r
                     = [ ("Content-Type", "application/x-www-form-urlencoded");
                         ("Accept", "application/json") ]%string)
    /\ (exists r, buildTransactionStatusRequest (host := exampleHost) exampleManager
                    (str "INV-001") = Ok r
                  /\ url r = baseUrl ++ lit "/transaction-status"
                  /\ method r = POST
                  /\ headers r
                     = [ ("Content-Type", "application/x-www-form-urlencoded");
                         ("Accept", "application/json") ]%string)
    /\ (exists r, buildTransactionStatusByIdRequest (host := exampleHost) exampleManager
                    (str "TRX-1") = Ok r
                  /\ url r = baseUrl ++ lit "/v2/transaction-status"
                  /\ method r = POST
                  /\ headers r
                     = [ ("Content-Type", "application/x-www-form-urlencoded");
                         ("Accept", "application/json") ]%string)
    /\ baseUrl ++ lit "/v2/transaction-status"
       <> baseUrl ++ lit "/transaction-status".
Proof.
  apply (fixed_endpoints (host := exampleHost) exampleConfig exampleManager
           (exampleParams (num 100) []) (str "INV-001") (str "TRX-1"));
    reflexivity.
Defined.

Lemma nan_amount_accepted_witness :
  firstViolated (host := exampleHost) (withAmount S754_nan exampleOthers)
  = Some RuleAmount
  /\ In (lit "payment_amount", lit "NaN")
       match buildInitiatePaymentRequest (host := exampleHost) exampleManager
               (withAmount S754_nan exampleOthers) with
       | Ok request => body request
       | Throw _ => []
       end
  /\ holds (host := exampleHost) (withAmount S754_nan exampleOthers) RuleAmount = false
  /\ validateInitiatePaymentParams (host := exampleHost)
       (withAmount S754_nan exampleOthers) = Ok tt
  /\ exists request,
       buildInitiatePaymentRequest (host := exampleHost) exampleManager
         (withAmount S754_nan exampleOthers) = Ok request.
Proof.
  split; [reflexivity |].
  split; [do 3 right; left; reflexivity |].
  apply (nan_amount_accepted (host := exampleHost) exampleConfig exampleManager
           (S754_finite false 100 0) exampleOthers);
    reflexivity.
Defined.

(** The order on an input that violates two rules, a blank [customerName]
    and an amount of 0: the error names the earlier one. *)
Example validation_order_two_violations :
  firstViolated (host := exampleHost)
    (withAmount (S754_zero false) ((lit "customerName", str "   ") :: exampleOthers))
  = Some (RuleString "customerName")
  /\ exists e,
       validateInitiatePaymentParams (host := exampleHost)
         (withAmount (S754_zero false)
            ((lit "customerName", str "   ") :: exampleOthers))
       = Throw (Sdk e)
       /\ identifies e (RuleString "customerName").
Proof.
  split; [reflexivity |].
  exact (validation_order (host := exampleHost)
           (withAmount (S754_zero false)
              ((lit "customerName", str "   ") :: exampleOthers))
           (or_intror eq_refl) eq_refl eq_refl eq_refl).
Defined.

Lemma failed_status_raises_witness :
  exists e,
    parseInitiatePaymentResponse (host := exampleHost) (response 200 (lit "OK") failedBody)
    = Throw (Sdk e)
    /\ parseTransactionStatusResponse (host := exampleHost)
         (response 200 (lit "OK") failedBody) = Throw (Sdk e)
    /\ err_name e = PayStationErrorName
    /\ err_message e = lit "Invalid merchant"
    /\ (forall s, prop failedBody "message" = JStr s -> err_message e = s)
    /\ err_statusCode e = str "1001".
Proof.
  apply (failed_status_raises (host := exampleHost) 200 (lit "OK") failedBody
           (lit "Invalid merchant"));
    reflexivity.
Defined.

(** C2 as stated fails: the body is an object whose three fields are
    truthy and whose [status] is ['failed'], yet no [PayStationError] is
    thrown, for the message does not convert to a string and the [Error]
    constructor throws a [TypeError]. *)
Lemma unconvertible_message_not_raised :
  isObject unconvertibleMessageBody = true
  /\ requiredFieldsTruthy unconvertibleMessageBody = true
  /\ prop unconvertibleMessageBody "status" = JStr (lit "failed")
  /\ parseInitiatePaymentResponse (host := exampleHost)
       (response 200 (lit "OK") unconvertibleMessageBody) = Throw TypeError
  /\ parseTransactionStatusResponse (host := exampleHost)
       (response 200 (lit "OK") unconvertibleMessageBody) = Throw TypeError.
Proof.
  repeat split.
Qed.

Lemma falsy_required_field_rejected_witness :
  isDefined (prop falsyFieldsBody "statusCode") = true
  /\ isDefined (prop falsyFieldsBody "message") = true
  /\ parseInitiatePaymentResponse (host := exampleHost)
       (response 200 (lit "OK") falsyFieldsBody)
     = Throw (Sdk (validationError missingRequiredFields))
  /\ parseTransactionStatusResponse (host := exampleHost)
       (response 200 (lit "OK") falsyFieldsBody)
     = Throw (Sdk (validationError missingRequiredFields)).
Proof.
  split; [reflexivity |]. split; [reflexivity |].
  apply (falsy_required_field_rejected (host := exampleHost) 200 (lit "OK") falsyFieldsBody);
    reflexivity.
Defined.

Lemma bad_transaction_data_rejected_witness :
  exists message,
    parseTransactionStatusResponse (host := exampleHost)
      (response 200 (lit "OK") noTransactionIdBody)
    = Throw (Sdk (validationError message))
    /\ (message = lit "Invalid transaction data format"
        \/ message = lit "Invalid transaction data: missing required fields").
Proof.
  apply (proj1 (bad_transaction_data_rejected (host := exampleHost) 200 (lit "OK")
                  noTransactionIdBody eq_refl eq_refl eq_refl eq_refl)).
  - reflexivity.
  - right. reflexivity.
Defined.

(** C5 as stated fails: with no nested [data] at all, the parser returns
    a result (without [data]) instead of throwing. *)
Lemma missing_transaction_data_accepted :
  prop noDataBody "data" = JUndefined
  /\ parseTransactionStatusResponse (host := exampleHost)
       (response 200 (lit "OK") noDataBody)
     = Ok {| tsr_statusCode := lit "200";
             tsr_status := str "success";
             tsr_message := lit "ok";
             tsr_data := None |}.
Proof.
  split; reflexivity.
Qed.



Lemma error_response_mapping_witness :
  exists e,
    parseErrorResponse (host := exampleHost) (Some badCredentials) = Throw (Sdk e)
    /\ (status badCredentials = 401%Z \/ status badCredentials = 403%Z ->
        err_name e = AuthenticationErrorName
        /\ err_message e = lit "bad creds"
        /\ err_statusCode e = str "401")
    /\ (status badCredentials = 400%Z ->
        err_name e = ValidationErrorName
        /\ err_message e = lit "bad creds")
    /\ (status badCredentials <> 400%Z -> status badCredentials <> 401%Z ->
        status badCredentials <> 403%Z ->
        err_name e = PayStationErrorName
        /\ err_message e = lit "bad creds"
        /\ err_statusCode e = str "401").
Proof.
  apply (error_response_mapping (host := exampleHost) badCredentials).
  vm_compute. discriminate.
Defined.

(** C3 as stated fails: the body [{message: ''}] is an object with a
    [message] field, whose string form is empty, yet the error carries the
    default message. *)
Lemma empty_message_uses_default :
  parseErrorResponse (host := exampleHost) (Some emptyMessage)
  = Throw (Sdk {| err_name := AuthenticationErrorName;
                  err_message := lit "Authentication failed";
                  err_statusCode := str "401" |})
  /\ statedMessageOr (host := exampleHost) (data emptyMessage)
       (lit "Authentication failed") = [].
Proof.
  split; reflexivity.
Qed.



(** *** The further properties on the examples *)

Lemma status_requests_decided_witness :
  buildTransactionStatusRequest (host := exampleHost) exampleManager (str "   ")
  = Throw (Sdk (validationError
                  (lit "invoiceNumber cannot be empty or whitespace only")))
  /\ buildTransactionStatusByIdRequest (host := exampleHost) exampleManager (str "   ")
     = Throw (Sdk (validationError
                     (lit "transactionId cannot be empty or whitespace only"))).
Proof.
  apply (status_requests_decided (host := exampleHost) exampleConfig exampleManager
           (str "   ")).
  reflexivity.
Defined.

Lemma status_identifier_not_trimmed_witness :
  exists request,
    buildTransactionStatusRequest (host := exampleHost) exampleManager
      (JStr (32%N :: lit "INV-001" ++ [32%N])) = Ok request
    /\ In (lit "invoice_number", 32%N :: lit "INV-001" ++ [32%N]) (body request).
Proof.
  apply (status_identifier_not_trimmed (host := exampleHost) exampleConfig
           exampleManager (lit "INV-001"));
    reflexivity.
Defined.

Lemma email_accepted_facts_witness :
  count_occ N.eq_dec (lit "john@example.com") 64%N = 1%nat
  /\ existsb isWhiteSpace (lit "john@example.com") = false
  /\ (forall c, last (lit "john@example.com") c <> 64%N)
  /\ exists c t, lit "john@example.com" = c :: t /\ c <> 64%N.
Proof.
  apply (email_accepted_facts (host := exampleHost) (lit "john@example.com")).
  reflexivity.
Defined.

Lemma initiate_body_values_witness :
  exists request,
    buildInitiatePaymentRequest (host := exampleHost) exampleManager
      (exampleParams (num 100) [("currency", str "BDT"); ("emi", num 1)]%string)
    = Ok request
    /\ body request
       = expectedBody (host := exampleHost) exampleManager
           (exampleParams (num 100) [("currency", str "BDT"); ("emi", num 1)]%string)
    /\ (forall f, In f optionalFields ->
          sent (exampleParams (num 100) [("currency", str "BDT"); ("emi", num 1)]%string) f
          = true ->
          exists text,
            ToString (host := exampleHost)
              (prop (exampleParams (num 100)
                       [("currency", str "BDT"); ("emi", num 1)]%string) (of_field f))
            = Ok text
            /\ In (lit (of_key f), toUSVString text) (body request)).
Proof.
  apply (initiate_body_values (host := exampleHost) exampleConfig); reflexivity.
Defined.

Lemma initiate_body_keys_distinct_witness :
  exists request,
    buildInitiatePaymentRequest (host := exampleHost) exampleManager
      (exampleParams (num 100) [("currency", str "BDT"); ("emi", num 1)]%string)
    = Ok request
    /\ NoDup (map fst (body request)).
Proof.
  eexists. split; [reflexivity |].
  apply (initiate_body_keys_distinct (host := exampleHost) exampleManager
           (exampleParams (num 100) [("currency", str "BDT"); ("emi", num 1)]%string)).
  reflexivity.
Defined.

Lemma constructed_manager_requests_witness :
  newConfigManager (host := exampleHost) exampleConfig = Ok exampleManager
  /\ exists request,
       buildTransactionStatusByIdRequest (host := exampleHost) exampleManager (str "TRX-1")
       = Ok request
       /\ exists base path merchantId password rest,
            url request = base ++ path
            /\ ((prop exampleConfig "environment" = JStr Environment_SANDBOX
                 /\ base = lit "https://sandbox.paystation.com.bd/api")
                \/ (prop exampleConfig "environment" = JStr Environment_LIVE
                    /\ base = lit "https://api.paystation.com.bd"))
            /\ In path [lit "/initiate-payment"; lit "/transaction-status";
                        lit "/v2/transaction-status"]
            /\ prop exampleConfig "merchantId" = JStr merchantId
            /\ prop exampleConfig "password" = JStr password
            /\ body request
               = (lit "merchant_id", toUSVString merchantId)
                   :: (lit "password", toUSVString password) :: rest.
Proof.
  split; [reflexivity |].
  eexists. split; [reflexivity |].
  apply (constructed_manager_requests (host := exampleHost) exampleConfig exampleManager
           (str "TRX-1")); [reflexivity |].
  right; right. reflexivity.
Defined.

Lemma initiate_round_trip_witness :
  parseInitiatePaymentResponse (host := exampleHost)
    (response 200 (lit "OK") (encodeInitiatePaymentResponse exampleInitiateResult))
  = Ok exampleInitiateResult.
Proof.
  apply (initiate_round_trip (host := exampleHost) 200 (lit "OK") exampleInitiateResult);
    try discriminate; reflexivity.
Defined.

Lemma status_round_trip_witness :
  parseTransactionStatusResponse (host := exampleHost)
    (response 200 (lit "OK") (encodeTransactionStatusResponse exampleStatusResult))
  = Ok exampleStatusResult.
Proof.
  apply (status_round_trip (host := exampleHost) 200 (lit "OK") exampleStatusResult);
    try discriminate; try reflexivity.
  intros t Ht. injection Ht as <-.
  unfold transactionRecordOk. repeat split; discriminate.
Defined.

Lemma non_object_response_rejected_witness :
  parseInitiatePaymentResponse (host := exampleHost) textReply
  = Throw (Sdk (validationError (lit "Response data is not an object")))
  /\ parseTransactionStatusResponse (host := exampleHost) textReply
     = Throw (Sdk (validationError (lit "Response data is not an object"))).
Proof.
  apply (non_object_response_rejected (host := exampleHost) textReply).
  intros r Hr. injection Hr as <-. reflexivity.
Defined.

Lemma transaction_defaults_witness :
  exists t,
    parseTransactionData (host := exampleHost) zeroAmountTransaction = Ok t
    /\ td_transactionStatus t = str "on-hold"
    /\ Ok (lit "INV-1") = Ok (td_invoiceNumber t)
    /\ Ok (lit "TRX-1") = Ok (td_transactionId t)
    /\ Ok [] = Ok (td_paymentAmount t)
    /\ Ok [] = Ok (td_orderDateTime t).
Proof.
  apply (transaction_defaults (host := exampleHost) zeroAmountTransaction); reflexivity.
Defined.

Lemma unexpected_error_only_from_transport_witness :
  exists request,
    buildInitiatePaymentRequest (host := exampleHost) exampleManager
      (exampleParams (num 100) []) = Ok request
    /\ (brokenClient request = Throw TypeError \/ brokenClient request = Ok None)
    /\ err_name (payStationError
                   (lit "An unexpected error occurred during payment initiation")
                   JUndefined) = PayStationErrorName
    /\ err_message (payStationError
                      (lit "An unexpected error occurred during payment initiation")
                      JUndefined)
       = lit "An unexpected error occurred during payment initiation".
Proof.
  apply (proj1 (unexpected_error_only_from_transport (host := exampleHost)
                  exampleConfig exampleManager brokenClient
                  (exampleParams (num 100) []) _ TypeError eq_refl)).
  - reflexivity.
  - intros request r Hanswer. discriminate Hanswer.
  - reflexivity.
Defined.

Lemma invalid_input_rethrown_witness :
  initiatePayment (host := exampleHost) exampleManager brokenClient JNull
  = Rethrown (validationError (lit "Payment parameters are required"))
  /\ getTransactionStatus (host := exampleHost) exampleManager brokenClient (str "   ")
     = Rethrown (validationError (lit "invoiceNumber cannot be empty or whitespace only"))
  /\ getTransactionStatusById (host := exampleHost) exampleManager brokenClient (str "   ")
     = Rethrown (validationError (lit "transactionId cannot be empty or whitespace only")).
Proof.
  destruct (invalid_input_rethrown (host := exampleHost) exampleManager brokenClient
              JNull (str "   ") _ _ _ eq_refl eq_refl eq_refl) as (H1 & H2 & H3).
  auto.
Defined.

Lemma http_error_not_parsed_witness :
  exists e,
    parseErrorResponse (host := exampleHost) (Some serverError) = Throw (Sdk e)
    /\ initiatePayment (host := exampleHost) exampleManager
         (fun _ => Ok (Some serverError)) (exampleParams (num 100) []) = Rethrown e
    /\ getTransactionStatus (host := exampleHost) exampleManager
         (fun _ => Ok (Some serverError)) (str "INV-001") = Rethrown e
    /\ getTransactionStatusById (host := exampleHost) exampleManager
         (fun _ => Ok (Some serverError)) (str "INV-001") = Rethrown e.
Proof.
  apply (http_error_not_parsed (host := exampleHost) exampleConfig exampleManager
           (fun _ => Ok (Some serverError)) (exampleParams (num 100) []) (str "INV-001")
           serverError); try reflexivity.
  vm_compute. discriminate.
Defined.

Lemma success_path_is_parser_witness :
  exists result,
    parseInitiatePaymentResponse (host := exampleHost) (Some pendingReply) = Ok result
    /\ initiatePayment (host := exampleHost) exampleManager
         (fun _ => Ok (Some pendingReply)) (exampleParams (num 100) []) = Returned result.
Proof.
  eexists. split; [reflexivity |].
  apply (proj1 (proj1 (success_path_is_parser (host := exampleHost) exampleConfig
                         exampleManager
                         (fun _ => Ok (Some pendingReply)) (exampleParams (num 100) [])
                         (str "INV-001") pendingReply eq_refl eq_refl eq_refl eq_refl
                         (fun _ => eq_refl) eq_refl))).
  reflexivity.
Defined.

Lemma transport_failure_witness :
  initiatePayment (host := exampleHost) exampleManager offlineClient
    (exampleParams (num 100) [])
  = Rethrown (networkError (lit "Network request failed - please check your internet connection"))
  /\ getTransactionStatus (host := exampleHost) exampleManager offlineClient (str "INV-001")
     = Rethrown (networkError (lit "Network request failed - please check your internet connection"))
  /\ getTransactionStatusById (host := exampleHost) exampleManager offlineClient
       (str "INV-001")
     = Rethrown (networkError (lit "Network request failed - please check your internet connection")).
Proof.
  apply (transport_failure (host := exampleHost) exampleConfig exampleManager
           offlineClient
           (exampleParams (num 100) []) (str "INV-001")
           (Sdk (networkError (lit "Network request failed - please check your internet connection"))));
    reflexivity.
Defined.
